(** * Personal library catalog service: authentication, access control and
      rate limiting

    A shallow embedding of the security core of the service
    ([auth.py], [database/crud.py], [database/models.py], [main.py]) and the
    properties its specification states about it.

    Conventions.
    - A Python [str] is the sequence of bytes of its UTF-8 encoding
      ([string]); [str.encode()] exposes those bytes.
    - A [datetime] is the number of microseconds since the epoch ([Z]), a
      [timedelta] a number of microseconds; the clock readings
      [datetime.now()] and [datetime.utcnow()] are explicit arguments.
    - A function that can raise returns a [result]; a function that writes
      to the store or to the rate-limit table takes the old state and
      returns the new one.
    - Libraries the program calls (hashlib, python-jose, Pony ORM, FastAPI)
      are modelled in modules of their own, ahead of the code that calls
      them. Pony's validation of attribute values is part of the model:
      strings are stripped, a [Required] string must not be blank, an
      [Optional] string must not be [None], and integers are 32 bits wide.
      What differs between releases of FastAPI is an explicit argument. *)

From Stdlib Require Import ZArith Lia List Bool Ascii String.
From Stdlib.Strings Require Import Byte.
From stdpp Require Import base option list gmap strings sorting.

Import ListNotations.
Local Open Scope string_scope.
Local Open Scope list_scope.
Local Open Scope Z_scope.

(** ** Exceptions *)

(** python-jose's exception classes; the last two are subclasses of the
    first, so [except JWTError] catches all three. *)
Inductive JWTErrorClass : Type :=
| JWTErrorBase
| ExpiredSignatureError
| JWTClaimsError.

(** The exceptions that the modelled code raises. [HTTPException] carries
    the three fields FastAPI renders: the status line, the JSON body
    [{"detail": detail}] and the extra response headers ([None] when the
    [headers=] argument is not given). [ValueError] is what Pony raises for
    an attribute value it does not accept, [DatabaseSessionIsOver] what it
    raises when an attribute it has to load is read after the session;
    their messages are not modelled. *)
Inductive exn : Type :=
| HTTPException (status_code : Z) (detail : string)
                (headers : option (list (string * string)))
| JWTError (cls : JWTErrorClass)
| TypeError (msg : string)
| ValueError
| DatabaseSessionIsOver.

Inductive result (A : Type) : Type :=
| Ok (a : A)
| Raise (e : exn).
Arguments Ok {A} a.
Arguments Raise {A} e.

(** Sequencing: an exception raised by the first computation propagates
    ([x ← r; k] runs [k] on the value of [r]). *)
#[export] Instance result_bind : MBind result :=
  fun A B (k : A -> result B) (r : result A) =>
    match r with
    | Ok a => k a
    | Raise e => Raise e
    end.

(** The status of the response that an exception leaving a route comes to:
    an [HTTPException] is rendered with its own status, anything else is an
    internal server error. *)
Definition http_status (e : exn) : Z :=
  match e with
  | HTTPException status_code _ _ => status_code
  | _ => 500
  end.

(** Response headers are looked up by name. *)
Fixpoint header_get (name : string) (hs : list (string * string)) : option string :=
  match hs with
  | [] => None
  | (k, v) :: hs' => if String.eqb k name then Some v else header_get name hs'
  end.

(** ** Time *)

Abbreviation datetime := Z (only parsing).
Abbreviation timedelta := Z (only parsing).

Definition seconds (n : Z) : timedelta := n * 1000000.
Definition minutes (n : Z) : timedelta := seconds (n * 60).

(** [calendar.timegm(d.utctimetuple())]: whole seconds since the epoch; the
    microsecond field, which is never negative, is dropped. *)
Definition timegm (d : datetime) : Z := d / 1000000.

(** ** hashlib.sha256 (FIPS 180-4) *)
Module hashlib.

Definition w32 (x : Z) : Z := x mod 2 ^ 32.
Definition add32 (x y : Z) : Z := w32 (x + y).
Definition rotr (n x : Z) : Z :=
  Z.lor (Z.shiftr x n) (w32 (Z.shiftl x (32 - n))).
Definition not32 (x : Z) : Z := Z.lxor x (2 ^ 32 - 1).

Definition Ch (x y z : Z) : Z := Z.lxor (Z.land x y) (Z.land (not32 x) z).
Definition Maj (x y z : Z) : Z :=
  Z.lxor (Z.lxor (Z.land x y) (Z.land x z)) (Z.land y z).
Definition bsig0 (x : Z) : Z := Z.lxor (Z.lxor (rotr 2 x) (rotr 13 x)) (rotr 22 x).
Definition bsig1 (x : Z) : Z := Z.lxor (Z.lxor (rotr 6 x) (rotr 11 x)) (rotr 25 x).
Definition ssig0 (x : Z) : Z := Z.lxor (Z.lxor (rotr 7 x) (rotr 18 x)) (Z.shiftr x 3).
Definition ssig1 (x : Z) : Z := Z.lxor (Z.lxor (rotr 17 x) (rotr 19 x)) (Z.shiftr x 10).

(** The round constants and the initial state are the leading 32 fraction
    bits of the cube roots, respectively square roots, of the first
    primes; they are computed here rather than tabulated. *)
Definition is_prime (n : Z) : bool :=
  forallb (fun d => negb (n mod d =? 0)) (map Z.of_nat (seq 2 (Z.to_nat n - 2))).

Definition primes_below (n : nat) : list Z :=
  filter (fun p => is_prime p = true) (map Z.of_nat (seq 2 (n - 2))).

Definition cbrt (n : Z) : Z :=
  fold_left (fun r i => let r' := r + 2 ^ Z.of_nat i in
                        if r' * r' * r' <=? n then r' else r)
            (rev (seq 0 40)) 0.

Definition K256 : list Z :=
  Eval vm_compute in map (fun p => w32 (cbrt (p * 2 ^ 96))) (primes_below 312).

Definition H256 : list Z :=
  Eval vm_compute in map (fun p => w32 (Z.sqrt (p * 2 ^ 64))) (primes_below 20).

(** Big-endian conversions between words and bytes. *)
Definition be_bytes (n : nat) (x : Z) : list Z :=
  map (fun i => (Z.shiftr x (8 * Z.of_nat i)) mod 256) (rev (seq 0 n)).

Definition be_word (bs : list Z) : Z :=
  fold_left (fun acc b => acc * 256 + b) bs 0.

(** Padding: a one bit, zeros up to 56 mod 64, the bit length on 8 bytes. *)
Definition pad (msg : list Z) : list Z :=
  let len := Z.of_nat (length msg) in
  let zeros := Z.to_nat ((55 - len) mod 64) in
  msg ++ [128] ++ repeat 0 zeros ++ be_bytes 8 (8 * len).

Fixpoint chunks {A : Type} (fuel size : nat) (l : list A) : list (list A) :=
  match fuel with
  | O => []
  | S fuel' =>
      match l with
      | [] => []
      | _ => firstn size l :: chunks fuel' size (skipn size l)
      end
  end.

Definition words_of (block : list Z) : list Z :=
  map be_word (chunks 16 4 block).

(** The message schedule: 16 words of the block, then 48 derived ones. *)
Fixpoint schedule (n : nat) (ws : list Z) : list Z :=
  match n with
  | O => ws
  | S n' =>
      let t := length ws in
      let at_ (k : nat) := nth (t - k) ws 0 in
      schedule n' (ws ++ [add32 (add32 (ssig1 (at_ 2%nat)) (at_ 7%nat))
                                (add32 (ssig0 (at_ 15%nat)) (at_ 16%nat))])
  end.

Record regs : Type := Regs { ra : Z; rb : Z; rc : Z; rd : Z;
                             re : Z; rf : Z; rg : Z; rh : Z }.

Definition round (s : regs) (kw : Z * Z) : regs :=
  let t1 := add32 (add32 (add32 (rh s) (bsig1 (re s)))
                         (add32 (Ch (re s) (rf s) (rg s)) (fst kw))) (snd kw) in
  let t2 := add32 (bsig0 (ra s)) (Maj (ra s) (rb s) (rc s)) in
  Regs (add32 t1 t2) (ra s) (rb s) (rc s) (add32 (rd s) t1) (re s) (rf s) (rg s).

Definition regs_of (h : list Z) : regs :=
  Regs (nth 0 h 0) (nth 1 h 0) (nth 2 h 0) (nth 3 h 0)
       (nth 4 h 0) (nth 5 h 0) (nth 6 h 0) (nth 7 h 0).

Definition list_of (s : regs) : list Z :=
  [ra s; rb s; rc s; rd s; re s; rf s; rg s; rh s].

Definition compress (h : list Z) (block : list Z) : list Z :=
  let ws := schedule 48 (words_of block) in
  let s := fold_left round (combine K256 ws) (regs_of h) in
  map (fun p => add32 (fst p) (snd p)) (combine h (list_of s)).

Definition byte_of (z : Z) : byte :=
  match Byte.of_N (Z.to_N z) with Some b => b | None => x00 end.

(** [hashlib.sha256(data).digest()] *)
Definition sha256 (data : list byte) : list byte :=
  let msg := pad (map (fun b => Z.of_N (Byte.to_N b)) data) in
  let h := fold_left compress (chunks (length msg) 64 msg) H256 in
  map byte_of (concat (map (be_bytes 4) h)).

Definition hex_digit (n : N) : ascii :=
  ascii_of_N (if (n <? 10)%N then 48 + n else 87 + n)%N.

Definition hex_of_byte (b : byte) : string :=
  let n := Byte.to_N b in
  String (hex_digit (n / 16)%N) (String (hex_digit (n mod 16)%N) EmptyString).

(** [.hexdigest()]: two lowercase hexadecimal digits per byte. *)
Fixpoint hexdigest (d : list byte) : string :=
  match d with
  | [] => EmptyString
  | b :: d' => String.append (hex_of_byte b) (hexdigest d')
  end.

End hashlib.

(** ** auth.py: credential hashing *)

(** [str.encode()] *)
Definition encode (s : string) : list byte := list_byte_of_string s.

Definition hash_password (password : string) : string :=
  hashlib.hexdigest (hashlib.sha256 (encode password)).

Definition verify_password (plain_password hashed_password : string) : bool :=
  String.eqb (hash_password plain_password) hashed_password.


(** ** python-jose: [jose.jwt] *)
Module jwt.

(** Values of the claims handed to [encode]. *)
Inductive value : Type :=
| VInt (n : Z)
| VDatetime (d : datetime).

(** A token string is represented by what the JOSE parser makes of it:
    either it is not a compact JWS, or it is one, with its header
    algorithm, its JSON payload (an object with integer members, the only
    kind this service issues) and its MAC. The MAC is idealised: it is
    named by the key it was computed with and verifies under that key
    only. *)
Inductive token : Type :=
| Malformed (raw : string)
| JWS (alg : string) (payload : gmap string Z) (key : string).

(** [encode] turns a [datetime] under one of the time claims into whole
    seconds; elsewhere a [datetime] cannot be serialised to JSON. *)
Definition time_claim (name : string) : bool :=
  bool_decide (name ∈ ["exp"; "iat"; "nbf"]%string).

Definition to_json (name : string) (v : value) : option Z :=
  match v with
  | VInt n => Some n
  | VDatetime d => if time_claim name then Some (timegm d) else None
  end.

Definition encode (claims : gmap string value) (key algorithm : string)
  : result token :=
  if bool_decide (map_Forall (fun k v => is_Some (to_json k v)) claims)
  then Ok (JWS algorithm (map_imap to_json claims) key)
  else Raise (TypeError "Object of type datetime is not JSON serializable").

(** A registered claim that has to be a string, or that needs an argument
    [decode] is not given here: a token that carries it, with the integer
    value it has in this model, is refused. *)
Definition refused_claim (claims : gmap string Z) (name : string)
  : result unit :=
  match claims !! name with
  | Some _ => Raise (JWTError JWTClaimsError)
  | None => Ok tt
  end.

(** [_validate_claims] with the default options and no [audience],
    [issuer], [subject] or [access_token]: [iat] only has to be an
    integer; [nbf] must not lie after the current second; [exp] must not
    lie before it ([exp < now] is expired, so a token is still good during
    the second it expires in); [aud], [sub] and [jti] have to be strings,
    and [at_hash] has nothing to be compared with; [iss] is not looked at.
    The clock is read once for all of them. *)
Definition validate_claims (claims : gmap string Z) (utcnow : datetime)
  : result unit :=
  _ ← match claims !! "nbf"%string with
      | Some nbf =>
          if timegm utcnow <? nbf then Raise (JWTError JWTClaimsError)
          else Ok tt
      | None => Ok tt
      end;
  _ ← match claims !! "exp"%string with
      | Some exp =>
          if exp <? timegm utcnow then Raise (JWTError ExpiredSignatureError)
          else Ok tt
      | None => Ok tt
      end;
  _ ← refused_claim claims "aud";
  _ ← refused_claim claims "sub";
  _ ← refused_claim claims "jti";
  refused_claim claims "at_hash".

(** [decode]: parse, check the algorithm and the signature, then validate
    the registered claims. Every failure is a [JWTError]. *)
Definition decode (t : token) (key : string) (algorithms : list string)
           (utcnow : datetime) : result (gmap string Z) :=
  match t with
  | Malformed _ => Raise (JWTError JWTErrorBase)
  | JWS alg payload k =>
      if negb (bool_decide (alg ∈ algorithms)) then Raise (JWTError JWTErrorBase)
      else if negb (String.eqb k key) then Raise (JWTError JWTErrorBase)
      else _ ← validate_claims payload utcnow; Ok payload
  end.

End jwt.

(** ** auth.py: bearer tokens *)

Definition SECRET_KEY : string := "my-super-secret-key-12345-for-jwt-tokens".
Definition ALGORITHM : string := "HS256".
Definition ACCESS_TOKEN_EXPIRE_MINUTES : Z := 30.

Definition create_token (data : gmap string jwt.value) (utcnow : datetime)
  : result jwt.token :=
  let data_copy := data in
  let expires_delta := minutes ACCESS_TOKEN_EXPIRE_MINUTES in
  let expire := utcnow + expires_delta in
  let data_copy := <["exp"%string := jwt.VDatetime expire]> data_copy in
  jwt.encode data_copy SECRET_KEY ALGORITHM.

Definition invalid_token : exn :=
  HTTPException 401 "Invalid token" (Some [("WWW-Authenticate", "Bearer")]%string).

Definition verify_token (token : jwt.token) (utcnow : datetime)
  : result (gmap string Z) :=
  match jwt.decode token SECRET_KEY [ALGORITHM] utcnow with
  | Ok payload => Ok payload
  | Raise (JWTError _) => Raise invalid_token
  | Raise e => Raise e
  end.

(** ** database/models.py *)

Module User.
Record t : Type := Build
  { id : Z; email : string; hashed_password : string; created_at : datetime }.
End User.

Module Author.
Record t : Type := Build { id : Z; name : string; bio : option string }.
End Author.

Module Book.
Record t : Type := Build
  { id : Z; title : string; description : option string; year : option Z;
    author : Author.t; owner : User.t }.
End Book.

Module Comment.
Record t : Type := Build
  { id : Z; text : string; created_at : datetime; user : User.t; book : Book.t }.
End Comment.

Module Note.
Record t : Type := Build
  { id : Z; text : string; created_at : datetime; user : User.t; book : Book.t }.
End Note.

Module File.
Record t : Type := Build
  { id : Z; filename : string; file_path : string; uploaded_at : datetime;
    book : option Book.t }.
End File.

(** The store: one table per entity, rows in insertion order. A related
    entity is held by value, as the object the attribute refers to. *)
Record DB : Type := mkDB
  { users : list User.t; authors : list Author.t; books : list Book.t;
    comments : list Comment.t; notes : list Note.t; files : list File.t }.

(** [PrimaryKey(int, auto=True)]: the next key is one more than the largest
    one in the table. *)
Definition auto_id {A : Type} (key : A -> Z) (rows : list A) : Z :=
  1 + fold_right Z.max 0 (map key rows).

(** ** Python: [str.strip]

    [s.strip()] drops the white space at both ends of [s]. White space is
    what [str.isspace] accepts: U+0009 to U+000D, U+001C to U+0020, U+0085,
    U+00A0, U+1680, U+2000 to U+200A, U+2028, U+2029, U+202F, U+205F and
    U+3000, which UTF-8 encodes on one, two or three bytes. *)

Definition space1 (a : N) : bool :=
  ((9 <=? a) && (a <=? 13) || (28 <=? a) && (a <=? 32))%N.

Definition space2 (a b : N) : bool :=
  ((a =? 194) && ((b =? 133) || (b =? 160)))%N.

Definition space3 (a b c : N) : bool :=
  ((a =? 225) && (b =? 154) && (c =? 128)
   || (a =? 226) && (b =? 128)
      && ((128 <=? c) && (c <=? 138) || (c =? 168) || (c =? 169) || (c =? 175))
   || (a =? 226) && (b =? 129) && (c =? 159)
   || (a =? 227) && (b =? 128) && (c =? 128))%N.

(** What is behind one white-space character at the head of [l], if [l]
    starts with one. *)
Definition space_prefix (l : list ascii) : option (list ascii) :=
  match l with
  | a :: r =>
      if space1 (N_of_ascii a) then Some r
      else
        match r with
        | b :: r' =>
            if space2 (N_of_ascii a) (N_of_ascii b) then Some r'
            else
              match r' with
              | c :: r'' =>
                  if space3 (N_of_ascii a) (N_of_ascii b) (N_of_ascii c)
                  then Some r''
                  else None
              | [] => None
              end
        | [] => None
        end
  | [] => None
  end.

(** The same from the other end: [l] is a string read backwards, so its
    head is the last byte of the character. *)
Definition space_suffix (l : list ascii) : option (list ascii) :=
  match l with
  | c :: r =>
      if space1 (N_of_ascii c) then Some r
      else
        match r with
        | b :: r' =>
            if space2 (N_of_ascii b) (N_of_ascii c) then Some r'
            else
              match r' with
              | a :: r'' =>
                  if space3 (N_of_ascii a) (N_of_ascii b) (N_of_ascii c)
                  then Some r''
                  else None
              | [] => None
              end
        | [] => None
        end
  | [] => None
  end.

(** Each step drops at least one byte, so the length of [l] is fuel
    enough. *)
Fixpoint drop_spaces (behind : list ascii -> option (list ascii))
         (fuel : nat) (l : list ascii) : list ascii :=
  match fuel with
  | O => l
  | S fuel' =>
      match behind l with
      | Some r => drop_spaces behind fuel' r
      | None => l
      end
  end.

Definition str_strip (s : string) : string :=
  let l := list_ascii_of_string s in
  let l := drop_spaces space_prefix (length l) l in
  string_of_list_ascii (rev (drop_spaces space_suffix (length l) (rev l))).

(** ** Pony ORM: attribute values and sessions

    Before a value is stored in an attribute, and before a row is looked
    up by it, Pony validates the value against the attribute's declaration
    and raises [ValueError] when it does not accept it. *)
Module pony.

(** [Required(str)]: the string is stripped, and what is left must not be
    empty. *)
Definition str_required (val : string) : result string :=
  let val := str_strip val in
  if String.eqb val "" then Raise ValueError else Ok val.

(** [Optional(str)]: the column is not nullable, so [None] is refused; a
    string is stripped, and may be empty. *)
Definition str_optional (val : option string) : result string :=
  match val with
  | None => Raise ValueError
  | Some s => Ok (str_strip s)
  end.

(** [int], as a key or as an attribute, is 32 bits wide. *)
Definition min_int : Z := -2147483648.
Definition max_int : Z := 2147483647.

Definition int32 (val : Z) : result Z :=
  if (val <? min_int) || (max_int <? val) then Raise ValueError else Ok val.

(** [Optional(int)]: the column is nullable. *)
Definition int32_optional (val : option Z) : result (option Z) :=
  match val with
  | None => Ok None
  | Some n => n ← int32 n; Ok (Some n)
  end.

(** [@db_session]: the function returns a value and the store it has
    committed; an exception that leaves it leaves the store as it was. *)
Definition db_session {A : Type} (db : DB) (body : result (A * DB))
  : result A * DB :=
  match body with
  | Ok (a, db') => (Ok a, db')
  | Raise e => (Raise e, db)
  end.

End pony.

(** [Entity.get(attr=v)]: [v] is validated as a value of the attribute;
    the outcome is the row with that value, [None] when there is none. *)
Definition User_get_email (db : DB) (email : string) : result (option User.t) :=
  email ← pony.str_required email;
  Ok (List.find (fun u => String.eqb (User.email u) email) (users db)).

Definition User_get_id (db : DB) (id : Z) : result (option User.t) :=
  id ← pony.int32 id;
  Ok (List.find (fun u => User.id u =? id) (users db)).

Definition Book_get_id (db : DB) (id : Z) : result (option Book.t) :=
  id ← pony.int32 id;
  Ok (List.find (fun b => Book.id b =? id) (books db)).

(** [Entity(attr=v, ...)] followed by [commit()]: the values are validated,
    the new row gets the next key and [default=datetime.now] reads the
    clock; the outcome is the new entity and the store that holds it. *)
Definition User_new (db : DB) (now : datetime) (email hashed_password : string)
  : result (User.t * DB) :=
  email ← pony.str_required email;
  hashed_password ← pony.str_required hashed_password;
  let user := User.Build (auto_id User.id (users db)) email hashed_password now in
  Ok (user,
      mkDB (users db ++ [user]) (authors db) (books db)
           (comments db) (notes db) (files db)).

Definition Comment_new (db : DB) (now : datetime) (text : string)
           (book : Book.t) (user : User.t) : result (Comment.t * DB) :=
  text ← pony.str_required text;
  let comment := Comment.Build (auto_id Comment.id (comments db)) text now user book in
  Ok (comment,
      mkDB (users db) (authors db) (books db)
           (comments db ++ [comment]) (notes db) (files db)).

Definition Note_new (db : DB) (now : datetime) (text : string)
           (book : Book.t) (user : User.t) : result (Note.t * DB) :=
  text ← pony.str_required text;
  let note := Note.Build (auto_id Note.id (notes db)) text now user book in
  Ok (note,
      mkDB (users db) (authors db) (books db)
           (comments db) (notes db ++ [note]) (files db)).

Definition File_new (db : DB) (now : datetime) (filename file_path : string)
           (book : option Book.t) : result (File.t * DB) :=
  filename ← pony.str_required filename;
  file_path ← pony.str_required file_path;
  let file := File.Build (auto_id File.id (files db)) filename file_path now book in
  Ok (file,
      mkDB (users db) (authors db) (books db)
           (comments db) (notes db) (files db ++ [file])).

(** ** database/crud.py *)
Module crud.

Definition create_user (db : DB) (now : datetime) (email password : string)
  : result (option User.t) * DB :=
  pony.db_session db
    (existing_user ← User_get_email db email;
     match existing_user with
     | Some _ => Ok (None, db)
     | None =>
         let hashed_pwd := hash_password password in
         '(user, db') ← User_new db now email hashed_pwd;
         Ok (Some user, db')
     end).

Definition get_user_by_email (db : DB) (email : string)
  : result (option User.t) :=
  User_get_email db email.

(** The argument is [payload.get("user_id")], which is [None] when the
    claim is absent; no row has that key. *)
Definition get_user_by_id (db : DB) (user_id : option Z)
  : result (option User.t) :=
  match user_id with
  | Some i => User_get_id db i
  | None => Ok None
  end.

Definition authenticate_user (db : DB) (email password : string)
  : result (option User.t) :=
  user ← get_user_by_email db email;
  match user with
  | None => Ok None
  | Some u =>
      if negb (verify_password password (User.hashed_password u))
      then Ok None
      else Ok (Some u)
  end.

Definition create_comment (db : DB) (now : datetime) (text : string)
           (book_id user_id : Z) : result (option Comment.t) * DB :=
  pony.db_session db
    (book ← Book_get_id db book_id;
     user ← User_get_id db user_id;
     match book, user with
     | Some b, Some u =>
         '(comment, db') ← Comment_new db now text b u;
         Ok (Some comment, db')
     | _, _ => Ok (None, db)
     end).

Definition create_note (db : DB) (now : datetime) (text : string)
           (book_id user_id : Z) : result (option Note.t) * DB :=
  pony.db_session db
    (book ← Book_get_id db book_id;
     user ← User_get_id db user_id;
     match book, user with
     | Some b, Some u =>
         '(note, db') ← Note_new db now text b u;
         Ok (Some note, db')
     | _, _ => Ok (None, db)
     end).

(** [book_id] is optional; [if book_id] is false for [None] and for [0]. *)
Definition create_file (db : DB) (now : datetime) (filename file_path : string)
           (book_id : option Z) : result File.t * DB :=
  pony.db_session db
    (book ← match book_id with
            | Some i => if i =? 0 then Ok None else Book_get_id db i
            | None => Ok None
            end;
     File_new db now filename file_path book).

End crud.

(** ** pydantic_models.py: request bodies *)

Module UserCreate.
Record t : Type := Build { email : string; password : string }.
End UserCreate.

Module CommentCreate.
Record t : Type := Build { text : string; book_id : Z }.
End CommentCreate.

Module NoteCreate.
Record t : Type := Build { text : string; book_id : Z }.
End NoteCreate.

Module FileCreate.
Record t : Type := Build
  { filename : string; file_path : string; book_id : option Z }.
End FileCreate.

(** Values of the dictionaries the handlers build by hand. [PTrueDiv a b]
    is the float that Python's [a / b] yields for integers [a] and [b]. *)
#[local] Unset Elimination Schemes.
Inductive pyval : Type :=
| PNone
| PInt (n : Z)
| PStr (s : string)
| PDatetime (d : datetime)
| PTrueDiv (a b : Z)
| PDict (items : list (string * pyval))
| PList (elems : list pyval).
#[local] Set Elimination Schemes.

Definition opt_str (o : option string) : pyval :=
  match o with Some s => PStr s | None => PNone end.
Definition opt_int (o : option Z) : pyval :=
  match o with Some n => PInt n | None => PNone end.

(** ** FastAPI: [fastapi.security.HTTPBearer] with [auto_error=True] *)
Module fastapi.

Record HTTPAuthorizationCredentials : Type :=
  { scheme : string; credentials : jwt.token }.

(** The program pins no release of FastAPI, and what [HTTPBearer] raises
    has changed between releases (a 403 in older ones, a 401 that carries
    [WWW-Authenticate: Bearer] in current ones). The two errors are
    therefore arguments: the one for a header that is missing or lacks a
    part, and the one for a scheme other than bearer. *)
Record release : Type :=
  { not_authenticated : exn; invalid_scheme : exn }.

(** What release 0.115.11 raises. *)
Definition answers_403 : release :=
  {| not_authenticated := HTTPException 403 "Not authenticated" None;
     invalid_scheme :=
       HTTPException 403 "Invalid authentication credentials" None |}.

Definition lower_ascii (c : ascii) : ascii :=
  let n := nat_of_ascii c in
  if (65 <=? n)%nat && (n <=? 90)%nat then ascii_of_nat (n + 32) else c.

Fixpoint lower (s : string) : string :=
  match s with
  | EmptyString => EmptyString
  | String c s' => String (lower_ascii c) (lower s')
  end.

Definition is_empty (t : jwt.token) : bool :=
  match t with
  | jwt.Malformed raw => String.eqb raw ""
  | jwt.JWS _ _ _ => false
  end.

(** The argument is the request's [Authorization] header, if there is
    one, already split at its first space into scheme and parameter (as
    [get_authorization_scheme_param] does; both are empty for an empty
    header, the parameter is empty when there is no space). *)
Definition HTTPBearer (fastapi : release)
           (authorization : option (string * jwt.token))
  : result HTTPAuthorizationCredentials :=
  match authorization with
  | None => Raise (not_authenticated fastapi)
  | Some (scheme, credentials) =>
      if String.eqb scheme "" || is_empty credentials
      then Raise (not_authenticated fastapi)
      else if negb (String.eqb (lower scheme) "bearer")
      then Raise (invalid_scheme fastapi)
      else Ok {| scheme := scheme; credentials := credentials |}
  end.

End fastapi.

(** ** main.py *)

Record JSONResponse : Type :=
  { status_code : Z; content : list (string * string) }.

(** How far a middleware coroutine gets when it is started: it returns a
    response of its own, or it suspends in [await call_next(request)] (and
    will return that call's response). *)
Inductive started : Type :=
| Returned (response : JSONResponse)
| AwaitCallNext.

Definition too_many_requests : JSONResponse :=
  {| status_code := 429; content := [("detail", "Too many requests")]%string |}.

Module main.

(** [rate_limit_cache]: client address to (requests, first_request). The
    function is the body of the middleware up to its only [await]. *)
Definition rate_limit_middleware (rate_limit_cache : gmap string (Z * datetime))
           (client_ip : string) (now : datetime)
  : started * gmap string (Z * datetime) :=
  match rate_limit_cache !! client_ip with
  | Some (requests, first_request) =>
      if now - first_request <? minutes 1 then
        if requests >=? 100 then (Returned too_many_requests, rate_limit_cache)
        else (AwaitCallNext,
              <[client_ip := (requests + 1, first_request)]> rate_limit_cache)
      else (AwaitCallNext, <[client_ip := (1, now)]> rate_limit_cache)
  | None => (AwaitCallNext, <[client_ip := (1, now)]> rate_limit_cache)
  end.

Definition get_current_user (db : DB) (utcnow : datetime)
           (credentials : fastapi.HTTPAuthorizationCredentials)
  : result User.t :=
  let token := fastapi.credentials credentials in
  payload ← verify_token token utcnow;
  user ← crud.get_user_by_id db (payload !! "user_id"%string);
  match user with
  | None => Raise (HTTPException 401 "Invalid user" None)
  | Some u => Ok u
  end.

(** [Depends(get_current_user)], itself depending on [security]: what a
    protected route obtains from the request's [Authorization] header. *)
Definition current_user (fastapi : fastapi.release) (db : DB)
           (utcnow : datetime) (authorization : option (string * jwt.token))
  : result User.t :=
  credentials ← fastapi.HTTPBearer fastapi authorization;
  get_current_user db utcnow credentials.

(** The user that is returned is read by [UserResponse] when the session
    is over; the attributes it reads all have a value. *)
Definition register (db : DB) (now : datetime) (user_data : UserCreate.t)
  : result User.t * DB :=
  let '(user, db') := crud.create_user db now (UserCreate.email user_data)
                                       (UserCreate.password user_data) in
  (user ← user;
   match user with
   | None => Raise (HTTPException 400 "Email already registered" None)
   | Some u => Ok u
   end, db').

Record TokenResponse : Type :=
  { access_token : jwt.token; token_type : string }.

Definition login (db : DB) (utcnow : datetime) (user_data : UserCreate.t)
  : result TokenResponse :=
  user ← crud.authenticate_user db (UserCreate.email user_data)
                                (UserCreate.password user_data);
  match user with
  | None => Raise (HTTPException 401 "Invalid credentials" None)
  | Some u =>
      token ← create_token {[ "user_id"%string := jwt.VInt (User.id u) ]} utcnow;
      Ok {| access_token := token; token_type := "bearer" |}
  end.

Definition user_dict (u : User.t) : pyval :=
  PDict [("id", PInt (User.id u));
         ("email", PStr (User.email u));
         ("created_at", PDatetime (User.created_at u))]%string.

Definition book_dict (b : Book.t) : pyval :=
  PDict [("id", PInt (Book.id b));
         ("title", PStr (Book.title b));
         ("description", opt_str (Book.description b));
         ("year", opt_int (Book.year b));
         ("author", PDict [("id", PInt (Author.id (Book.author b)));
                           ("name", PStr (Author.name (Book.author b)));
                           ("bio", opt_str (Author.bio (Book.author b)))]);
         ("owner", user_dict (Book.owner b))]%string.

Definition create_comment (db : DB) (now : datetime)
           (comment_data : CommentCreate.t) (current_user : User.t)
  : result pyval * DB :=
  let '(comment, db') := crud.create_comment db now (CommentCreate.text comment_data)
                           (CommentCreate.book_id comment_data) (User.id current_user) in
  (comment ← comment;
   match comment with
   | None => Raise (HTTPException 404 "Book not found" None)
   | Some c =>
       Ok (PDict [("id", PInt (Comment.id c));
                  ("text", PStr (Comment.text c));
                  ("created_at", PDatetime (Comment.created_at c));
                  ("user", user_dict (Comment.user c));
                  ("book", book_dict (Comment.book c))]%string)
   end, db').

Definition create_note (db : DB) (now : datetime)
           (note_data : NoteCreate.t) (current_user : User.t)
  : result pyval * DB :=
  let '(note, db') := crud.create_note db now (NoteCreate.text note_data)
                        (NoteCreate.book_id note_data) (User.id current_user) in
  (note ← note;
   match note with
   | None => Raise (HTTPException 404 "Book not found" None)
   | Some n =>
       Ok (PDict [("id", PInt (Note.id n));
                  ("text", PStr (Note.text n));
                  ("created_at", PDatetime (Note.created_at n));
                  ("user", user_dict (Note.user n));
                  ("book", book_dict (Note.book n))]%string)
   end, db').

(** [FileResponse] made from the attributes of a [File], as FastAPI makes
    it when the route has returned the entity and the route's session is
    over. Reading the [book] attribute of a file that was created without
    a book raises then. The response made of an attached book, which reads
    that book's author and owner in turn, is the argument [book_response]. *)
Definition FileResponse (book_response : Book.t -> result pyval)
           (file : File.t) : result pyval :=
  match File.book file with
  | None => Raise DatabaseSessionIsOver
  | Some b =>
      book ← book_response b;
      Ok (PDict [("id", PInt (File.id file));
                 ("filename", PStr (File.filename file));
                 ("file_path", PStr (File.file_path file));
                 ("uploaded_at", PDatetime (File.uploaded_at file));
                 ("book", book)]%string)
  end.

(** The route returns the entity; the response is what the response model
    makes of it afterwards, when the file has been committed. *)
Definition create_file (book_response : Book.t -> result pyval) (db : DB)
           (now : datetime) (file_data : FileCreate.t) (current_user : User.t)
  : result pyval * DB :=
  let '(file, db') := crud.create_file db now (FileCreate.filename file_data)
                        (FileCreate.file_path file_data) (FileCreate.book_id file_data) in
  (file ← file; FileResponse book_response file, db').

Definition admin_required : exn :=
  HTTPException 403 "Admin access required" None.

Definition get_all_users (db : DB) (current_user : User.t) : result (list pyval) :=
  if negb (User.id current_user =? 1) then Raise admin_required
  else
    let users := users db in
    Ok (map user_dict users).

Definition get_statistics (db : DB) (current_user : User.t) : result pyval :=
  if negb (User.id current_user =? 1) then Raise admin_required
  else
    let total_users := Z.of_nat (length (users db)) in
    let total_books := Z.of_nat (length (books db)) in
    let total_authors := Z.of_nat (length (authors db)) in
    Ok (PDict [("total_users", PInt total_users);
               ("total_books", PInt total_books);
               ("total_authors", PInt total_authors);
               ("books_per_user",
                if total_users >? 0 then PTrueDiv total_books total_users
                else PInt 0)]%string).

End main.

(** ** The event loop

    Requests are served by coroutines on one event loop: a task runs
    without interruption from where it is resumed to its next [await], and
    between two such segments any other task may run. A middleware task has
    two segments, before and after [await call_next(request)]; the second
    one only hands the downstream response back. *)
Inductive task : Type :=
| Pending (client_ip : string)
| Awaiting (client_ip : string)
| Finished (client_ip : string) (own_response : option JSONResponse).

Record loop : Type :=
  { cache : gmap string (Z * datetime); tasks : list task }.

(** Resume task [i] while the clock reads [now]. *)
Definition resume (st : loop) (i : nat) (now : datetime) : loop :=
  match tasks st !! i with
  | Some (Pending ip) =>
      match main.rate_limit_middleware (cache st) ip now with
      | (Returned r, c) =>
          {| cache := c; tasks := <[i := Finished ip (Some r)]> (tasks st) |}
      | (AwaitCallNext, c) =>
          {| cache := c; tasks := <[i := Awaiting ip]> (tasks st) |}
      end
  | Some (Awaiting ip) =>
      {| cache := cache st; tasks := <[i := Finished ip None]> (tasks st) |}
  | _ => st
  end.

(** A schedule lists which task the loop resumes next, and the clock
    reading during that segment. *)
Definition run (schedule : list (nat * datetime)) (st : loop) : loop :=
  fold_left (fun s step => resume s (fst step) (snd step)) schedule st.

Definition admitted_task (ip : string) (t : task) : bool :=
  match t with
  | Pending _ => false
  | Awaiting ip' => String.eqb ip' ip
  | Finished ip' None => String.eqb ip' ip
  | Finished _ (Some _) => false
  end.

(** How many requests of a client the limiter has let through so far. *)
Definition admitted (ip : string) (st : loop) : Z :=
  Z.of_nat (length (List.filter (admitted_task ip) (tasks st))).

(** Serving the requests of one client one after the other. *)
Fixpoint serve (rate_limit_cache : gmap string (Z * datetime))
         (client_ip : string) (times : list datetime)
  : list started * gmap string (Z * datetime) :=
  match times with
  | [] => ([], rate_limit_cache)
  | now :: times' =>
      let '(o, c) := main.rate_limit_middleware rate_limit_cache client_ip now in
      let '(os, c') := serve c client_ip times' in
      (o :: os, c')
  end.

(** The loop with one task per request received and none started yet. *)
Definition start (rate_limit_cache : gmap string (Z * datetime))
           (client_ips : list string) : loop :=
  {| cache := rate_limit_cache; tasks := map Pending client_ips |}.

(** ** Notions the properties are stated with *)

(** Two different byte strings with the same SHA-256 digest. *)
Definition sha256_collision (x y : list byte) : Prop :=
  x <> y /\ hashlib.sha256 x = hashlib.sha256 y.

(** What the specification promises of a request the access gate turns
    down: a 401 that carries [WWW-Authenticate: Bearer] and one of the two
    generic messages. *)
Definition generic_401 (e : exn) : Prop :=
  exists (detail : string) (headers : list (string * string)),
    e = HTTPException 401 detail (Some headers)
    /\ header_get "WWW-Authenticate" headers = Some "Bearer"
    /\ (detail = "Invalid token" \/ detail = "Invalid user").

(** A token that verification has to refuse at [utcnow]: one that is not
    a JWS, that names another algorithm, that was signed with another key,
    whose expiry lies before the current second, that is not to be used
    before a later second, or that carries one of the registered claims
    that cannot be checked. *)
Definition invalid_or_expired (token : jwt.token) (utcnow : datetime) : Prop :=
  match token with
  | jwt.Malformed _ => True
  | jwt.JWS alg payload key =>
      alg <> ALGORITHM
      \/ key <> SECRET_KEY
      \/ (exists exp : Z,
            payload !! "exp"%string = Some exp /\ exp < timegm utcnow)
      \/ (exists nbf : Z,
            payload !! "nbf"%string = Some nbf /\ timegm utcnow < nbf)
      \/ (exists name : string,
            In name ["aud"; "sub"; "jti"; "at_hash"]%string
            /\ is_Some (payload !! name))
  end.

(** The token that the service issues for user id [u], good up to the
    second [exp]. *)
Definition issued_token (u exp : Z) : jwt.token :=
  jwt.JWS ALGORITHM (<["exp"%string := exp]> {[ "user_id"%string := u ]})
          SECRET_KEY.

(** An integer that a 32-bit key or attribute can hold. *)
Definition fits_int32 (n : Z) : Prop := -2147483648 <= n <= 2147483647.

(** A string with something else than white space in it. *)
Definition not_blank (s : string) : Prop := str_strip s <> "".

(** A byte that is no part of a white-space character. *)
Definition no_space (c : ascii) : Prop := (32 < N_of_ascii c < 128)%N.

(** What the entry of [A] in table [c] counts in a window that began at
    [W] or later. *)
Definition counted (c : gmap string (Z * datetime)) (A : string) (W : datetime)
  : Z :=
  match c !! A with
  | Some (n, ws) => if W <=? ws then n else 0
  | None => 0
  end.

(** What holds of client [A] throughout a run whose clock readings all lie
    in the minute that starts at [W], when [used] requests were counted in
    its window before the run. As long as [A] has no entry, or one whose
    window was over before [W], nothing was counted in advance and nothing
    was admitted; otherwise the entry dates from that minute and its
    count, at most 100, bounds what was counted in advance and what was
    admitted since. *)
Definition window_inv (A : string) (W : datetime) (used : Z) (st : loop)
  : Prop :=
  match cache st !! A with
  | None => used = 0 /\ admitted A st = 0
  | Some (n, ws) =>
      (W <= ws < W + minutes 1 /\ used + admitted A st <= n <= 100)
      \/ (ws + minutes 1 <= W /\ used = 0 /\ admitted A st = 0)
  end.

(** ** Sample data *)

Definition empty_db : DB := mkDB [] [] [] [] [] [].

Definition alice : User.t :=
  User.Build 1 "a@x.com" (hash_password "pw1") 1700000000000000.
Definition bob : User.t :=
  User.Build 2 "b@x.com" (hash_password "pw2") 1700000100000000.
Definition tolstoy : Author.t := Author.Build 1 "Leo Tolstoy" (Some "").
Definition war_and_peace : Book.t :=
  Book.Build 1 "War and Peace" (Some "") (Some 1869) tolstoy alice.

Definition sample_db : DB :=
  mkDB [alice; bob] [tolstoy] [war_and_peace] [] [] [].

(** A token for a user id that [sample_db] does not hold, good until
    1700001800 seconds. *)
Definition stray_token : jwt.token := issued_token 99 1700001800.

(** * The catalog: authors, books, comments, notes and the author cache *)

(** ** Python built-ins *)

(** Truth value of an optional string or integer in a condition: [None],
    the empty string and [0] count as false. *)
Definition truthy_str (o : option string) : bool :=
  match o with
  | Some s => negb (String.eqb s "")
  | None => false
  end.

Definition truthy_int (o : option Z) : bool :=
  match o with
  | Some n => negb (n =? 0)
  | None => false
  end.

(** [list.sort(key=..., reverse=...)]. The sort is stable, and so is its
    reverse form, which keeps elements with equal keys in their original
    order: it sorts the reversed list and reverses the outcome. For keys
    that are totally ordered the outcome of a stable sort is unique, so
    insertion stands for the library's merge strategy. *)
Section sorting.
Context {A K : Type} (ltb : K -> K -> bool) (key : A -> K).

Fixpoint insert_sorted (x : A) (l : list A) : list A :=
  match l with
  | [] => [x]
  | y :: l' => if ltb (key y) (key x) then y :: insert_sorted x l' else x :: l
  end.

Fixpoint stable_sort (l : list A) : list A :=
  match l with
  | [] => []
  | x :: l' => insert_sorted x (stable_sort l')
  end.

Definition list_sort (reverse : bool) (l : list A) : list A :=
  if reverse then rev (stable_sort (rev l)) else stable_sort l.

End sorting.

(** ** database/crud.py: authors, books, comments, notes *)

Definition Author_get_id (db : DB) (id : Z) : result (option Author.t) :=
  id ← pony.int32 id;
  Ok (List.find (fun a => Author.id a =? id) (authors db)).

(** The attributes [bio] and [description] are [Optional(str)]: what is
    stored is a string, possibly empty. *)
Definition Author_new (db : DB) (name : string) (bio : option string)
  : result (Author.t * DB) :=
  name ← pony.str_required name;
  bio ← pony.str_optional bio;
  let author := Author.Build (auto_id Author.id (authors db)) name (Some bio) in
  Ok (author,
      mkDB (users db) (authors db ++ [author]) (books db)
           (comments db) (notes db) (files db)).

Definition Book_new (db : DB) (title : string) (author : Author.t)
           (owner : User.t) (description : option string) (year : option Z)
  : result (Book.t * DB) :=
  title ← pony.str_required title;
  description ← pony.str_optional description;
  year ← pony.int32_optional year;
  let book := Book.Build (auto_id Book.id (books db)) title (Some description)
                         year author owner in
  Ok (book,
      mkDB (users db) (authors db) (books db ++ [book])
           (comments db) (notes db) (files db)).

Module crud2.

Definition create_author (db : DB) (name : string) (bio : option string)
  : result Author.t * DB :=
  pony.db_session db (Author_new db name bio).

Definition get_author (db : DB) (author_id : Z) : result (option Author.t) :=
  Author_get_id db author_id.

Definition get_all_authors (db : DB) : list Author.t := authors db.

Definition create_book (db : DB) (title : string) (author_id owner_id : Z)
           (description : option string) (year : option Z)
  : result (option Book.t) * DB :=
  pony.db_session db
    (author ← Author_get_id db author_id;
     owner ← User_get_id db owner_id;
     match author, owner with
     | Some a, Some o =>
         '(book, db') ← Book_new db title a o description year;
         Ok (Some book, db')
     | _, _ => Ok (None, db)
     end).

Definition get_book (db : DB) (book_id : Z) : result (option Book.t) :=
  Book_get_id db book_id.

Definition get_user_books (db : DB) (user_id : Z) : list Book.t :=
  let all_books := books db in
  List.filter (fun b => User.id (Book.owner b) =? user_id) all_books.

Definition get_all_books (db : DB) : list Book.t := books db.

Definition get_book_comments (db : DB) (book_id : Z) : list Comment.t :=
  let all_comments := comments db in
  List.filter (fun c => Book.id (Comment.book c) =? book_id) all_comments.

Definition get_user_notes (db : DB) (user_id : Z) : list Note.t :=
  let all_notes := notes db in
  List.filter (fun n => User.id (Note.user n) =? user_id) all_notes.

End crud2.

(** ** database/crud.py: [SimpleCache] *)
Module SimpleCache.

(** What a method call comes to: a value, or the [KeyError] of a dictionary
    subscript. *)
Inductive outcome (A : Type) : Type :=
| Returns (a : A)
| KeyError (key : string).
Arguments Returns {A} a.
Arguments KeyError {A} key.

Section cache.
Context {V : Type}.

Record t : Type := Build
  { _cache : gmap string V; _timestamps : gmap string Z }.

(** [__init__] *)
Definition init : t := Build ∅ ∅.

Definition get (self : t) (now : datetime) (key : string)
  : outcome (option V) * t :=
  match _cache self !! key with
  | Some v =>
      match _timestamps self !! key with
      | None => (KeyError key, self)
      | Some stamp =>
          if now - stamp <? minutes 5 then (Returns (Some v), self)
          else (Returns None,
                Build (delete key (_cache self)) (delete key (_timestamps self)))
      end
  | None => (Returns None, self)
  end.

Definition set (self : t) (now : datetime) (key : string) (value : V) : t :=
  Build (<[key := value]> (_cache self)) (<[key := now]> (_timestamps self)).

End cache.
Arguments t V : clear implicits.

End SimpleCache.

(** [get_all_authors_cached]; the two clock readings are the one taken in
    [cache.get] and the one taken in [cache.set]. A cached list counts as
    present when it is not empty. *)
Definition get_all_authors_cached (db : DB)
           (cache : SimpleCache.t (list Author.t)) (now now' : datetime)
  : SimpleCache.outcome (list Author.t) * SimpleCache.t (list Author.t) :=
  let cache_key := "all_authors" in
  match SimpleCache.get cache now cache_key with
  | (SimpleCache.KeyError k, cache1) => (SimpleCache.KeyError k, cache1)
  | (SimpleCache.Returns cached, cache1) =>
      match cached with
      | Some (a :: l) => (SimpleCache.Returns (a :: l), cache1)
      | _ =>
          let authors := authors db in
          (SimpleCache.Returns authors,
           SimpleCache.set cache1 now' cache_key authors)
      end
  end.

(** ** main.py: authors, books, comments *)
Module main2.

(** The dictionary the book routes build. [Book] has no [created_at]
    attribute, so that member is the clock reading [now]. *)
Definition book_dict (now : datetime) (book : Book.t) : pyval :=
  PDict [("id", PInt (Book.id book));
         ("title", PStr (Book.title book));
         ("description", opt_str (Book.description book));
         ("year", opt_int (Book.year book));
         ("created_at", PDatetime now);
         ("author", PDict [("id", PInt (Author.id (Book.author book)));
                           ("name", PStr (Author.name (Book.author book)));
                           ("bio", opt_str (Author.bio (Book.author book)))]);
         ("owner", main.user_dict (Book.owner book))]%string.

(** [nows i] is the clock reading taken while the [i]-th book is listed. *)
Definition get_books (db : DB) (nows : nat -> datetime) (current_user : User.t)
  : result (list pyval) :=
  let books := crud2.get_user_books db (User.id current_user) in
  Ok (imap (fun i book => book_dict (nows i) book) books).

(** The value of [books] in [get_books_filtered] when the filters and the
    sort have been applied. [str_lower] is [str.lower]. *)
Definition select_books (str_lower : string -> string) (db : DB)
           (current_user : User.t) (author_name : option string)
           (year_from year_to : option Z) (sort_by sort_order : option string)
  : list Book.t :=
  let all_books := books db in
  let books :=
    List.filter (fun b => User.id (Book.owner b) =? User.id current_user)
                all_books in
  let books :=
    match author_name with
    | Some name =>
        if truthy_str author_name
        then List.filter
               (fun b => String.eqb (str_lower (Author.name (Book.author b)))
                                    (str_lower name)) books
        else books
    | None => books
    end in
  let books :=
    match year_from with
    | Some from =>
        if truthy_int year_from
        then List.filter
               (fun b => match Book.year b with
                         | Some y => truthy_int (Some y) && (y >=? from)
                         | None => false
                         end) books
        else books
    | None => books
    end in
  let books :=
    match year_to with
    | Some to =>
        if truthy_int year_to
        then List.filter
               (fun b => match Book.year b with
                         | Some y => truthy_int (Some y) && (y <=? to)
                         | None => false
                         end) books
        else books
    | None => books
    end in
  let reverse := bool_decide (sort_order = Some "desc") in
  if bool_decide (sort_by = Some "title")
  then list_sort String.ltb Book.title reverse books
  else if bool_decide (sort_by = Some "year")
  then list_sort Z.ltb (fun x => match Book.year x with
                                 | Some y => y
                                 | None => 0
                                 end) reverse books
  else if bool_decide (sort_by = Some "author")
  then list_sort String.ltb (fun x => Author.name (Book.author x)) reverse books
  else books.

Definition get_books_filtered (str_lower : string -> string) (db : DB)
           (nows : nat -> datetime) (current_user : User.t)
           (author_name : option string) (year_from year_to : option Z)
           (sort_by sort_order : option string) : result (list pyval) :=
  let books := select_books str_lower db current_user author_name
                            year_from year_to sort_by sort_order in
  Ok (imap (fun i book => book_dict (nows i) book) books).

Definition get_book (db : DB) (now : datetime) (book_id : Z)
           (current_user : User.t) : result pyval :=
  book ← crud2.get_book db book_id;
  match book with
  | None => Raise (HTTPException 404 "Book not found" None)
  | Some book =>
      if negb (User.id (Book.owner book) =? User.id current_user)
      then Raise (HTTPException 403 "Not your book" None)
      else Ok (book_dict now book)
  end.

Definition get_authors (db : DB) (current_user : User.t)
  : result (list Author.t) :=
  Ok (crud2.get_all_authors db).

Definition get_author (db : DB) (author_id : Z) (current_user : User.t)
  : result Author.t :=
  author ← crud2.get_author db author_id;
  match author with
  | None => Raise (HTTPException 404 "Author not found" None)
  | Some author => Ok author
  end.

Definition comment_dict (comment : Comment.t) : pyval :=
  PDict [("id", PInt (Comment.id comment));
         ("text", PStr (Comment.text comment));
         ("created_at", PDatetime (Comment.created_at comment));
         ("user", main.user_dict (Comment.user comment));
         ("book", main.book_dict (Comment.book comment))]%string.

Definition get_book_comments (db : DB) (book_id : Z) (current_user : User.t)
  : result (list pyval) :=
  let comments := crud2.get_book_comments db book_id in
  Ok (map comment_dict comments).

End main2.

(** ** Serving a sequence of requests *)

(** Requests of any clients, one after the other: the table they leave. *)
Definition serve_all (rate_limit_cache : gmap string (Z * datetime))
           (requests : list (string * datetime)) : gmap string (Z * datetime) :=
  fold_left (fun c r => snd (main.rate_limit_middleware c (fst r) (snd r)))
            requests rate_limit_cache.

(** ** Invariants of the store and of the tables *)

(** Users have distinct ids, all at least 1, and distinct emails. *)
Definition users_ok (db : DB) : Prop :=
  NoDup (map User.id (users db))
  /\ NoDup (map User.email (users db))
  /\ Forall (fun u => 1 <= User.id u) (users db).

(** Every entry of the rate-limit table counts between 1 and 100 requests. *)
Definition table_ok (c : gmap string (Z * datetime)) : Prop :=
  forall (ip : string) (n : Z) (ws : datetime),
    c !! ip = Some (n, ws) -> 1 <= n <= 100.

(** The two dictionaries of a cache have the same keys. *)
Definition cache_ok {V : Type} (c : SimpleCache.t V) : Prop :=
  forall key : string,
    is_Some (SimpleCache._cache c !! key)
    <-> is_Some (SimpleCache._timestamps c !! key).

Definition is_hex (c : ascii) : bool :=
  let n := nat_of_ascii c in
  ((48 <=? n) && (n <=? 57) || (97 <=? n) && (n <=? 102))%nat.

(** ** What the book filter is meant to select, and in which order *)

(** The books a filtered listing should contain: those of the caller that
    pass each filter that is given (a filter that is [None], empty or [0]
    is not given; a book without a year, or with year [0], passes no year
    filter). *)
Definition wanted (str_lower : string -> string) (current_user : User.t)
           (author_name : option string) (year_from year_to : option Z)
           (b : Book.t) : bool :=
  (User.id (Book.owner b) =? User.id current_user)
  && match author_name with
     | Some name =>
         String.eqb name ""
         || String.eqb (str_lower (Author.name (Book.author b))) (str_lower name)
     | None => true
     end
  && match year_from with
     | Some from =>
         (from =? 0)
         || match Book.year b with
            | Some y => negb (y =? 0) && (from <=? y)
            | None => false
            end
     | None => true
     end
  && match year_to with
     | Some to =>
         (to =? 0)
         || match Book.year b with
            | Some y => negb (y =? 0) && (y <=? to)
            | None => false
            end
     | None => true
     end.

Definition year_or_0 (b : Book.t) : Z :=
  match Book.year b with
  | Some y => y
  | None => 0
  end.

(** [a] may come before [b] in a listing sorted by [sort_by], ascending. *)
Definition may_precede (sort_by : option string) (a b : Book.t) : Prop :=
  if bool_decide (sort_by = Some "title")
  then String.ltb (Book.title b) (Book.title a) = false
  else if bool_decide (sort_by = Some "year")
  then year_or_0 a <= year_or_0 b
  else if bool_decide (sort_by = Some "author")
  then String.ltb (Author.name (Book.author b)) (Author.name (Book.author a))
       = false
  else True.

(** [a] and [b] have the same sort key. *)
Definition ties (sort_by : option string) (a b : Book.t) : bool :=
  if bool_decide (sort_by = Some "title")
  then String.eqb (Book.title b) (Book.title a)
  else if bool_decide (sort_by = Some "year")
  then year_or_0 b =? year_or_0 a
  else if bool_decide (sort_by = Some "author")
  then String.eqb (Author.name (Book.author b)) (Author.name (Book.author a))
  else true.

(** ** Further sample data *)

Definition anna_karenina : Book.t :=
  Book.Build 2 "Anna Karenina" (Some "") (Some 1878) tolstoy alice.
Definition hadji_murat : Book.t :=
  Book.Build 3 "Hadji Murat" (Some "") None tolstoy alice.
Definition bobs_book : Book.t :=
  Book.Build 4 "Anna Karenina" (Some "second copy") (Some 1878) tolstoy bob.

Definition library_db : DB :=
  mkDB [alice; bob] [tolstoy]
       [war_and_peace; anna_karenina; hadji_murat; bobs_book] [] [] [].

(** ** Proof automation *)

(** Case analysis on the tests of a conditional equated to something. *)
Ltac case_tests E :=
  repeat match type of E with
         | (if ?b then _ else _) = _ => destruct b; try discriminate E
         | match ?o with Some _ => _ | None => _ end = _ =>
             destruct o; try discriminate E
         end.

(** * Properties *)

(** ** Credential hashing *)

Example sha256_abc :
  hash_password "abc"
  = "ba7816bf8f01cfea414140de5dae2223b00361a396177a9cb410ff61f20015ad".
Proof. vm_compute. reflexivity. Qed.

Example sha256_two_blocks :
  hash_password "abcdbcdecdefdefgefghfghighijhijkijkljklmklmnlmnomnopnopq"
  = "248d6a61d20638b8e5c026930c3e6039a33ce45964ff2167f6ecedd419db06c1".
Proof. vm_compute. reflexivity. Qed.

Example sha256_empty :
  hash_password ""
  = "e3b0c44298fc1c149afbf4c8996fb92427ae41e4649b934ca495991b7852b855".
Proof. vm_compute. reflexivity. Qed.

Lemma hex_digit_inj (m n : N) :
  (m < 16)%N -> (n < 16)%N -> hashlib.hex_digit m = hashlib.hex_digit n -> m = n.
Proof.
  intros Hm Hn H.
  assert (Hc : forall k, (k < 16)%N ->
             N_of_ascii (hashlib.hex_digit k)
             = (if (k <? 10)%N then 48 + k else 87 + k)%N).
  { intros k Hk. unfold hashlib.hex_digit. apply N_ascii_embedding.
    destruct (k <? 10)%N eqn:E; [apply N.ltb_lt in E|]; lia. }
  apply (f_equal N_of_ascii) in H. rewrite !Hc in H by assumption.
  destruct (m <? 10)%N eqn:Em, (n <? 10)%N eqn:En;
    rewrite ?N.ltb_lt, ?N.ltb_ge in *; lia.
Qed.

Lemma hex_of_byte_inj (a b : byte) :
  hashlib.hex_of_byte a = hashlib.hex_of_byte b -> a = b.
Proof.
  unfold hashlib.hex_of_byte. intros H. injection H as Hhi Hlo.
  pose proof (Byte.to_N_bounded a) as Ha.
  pose proof (Byte.to_N_bounded b) as Hb.
  apply hex_digit_inj in Hlo; [| apply N.mod_lt; lia ..].
  apply hex_digit_inj in Hhi;
    [| apply N.Div0.div_lt_upper_bound; lia ..].
  assert (Heq : Byte.to_N a = Byte.to_N b).
  { rewrite (N.div_mod (Byte.to_N a) 16), (N.div_mod (Byte.to_N b) 16) by lia.
    congruence. }
  pose proof (Byte.of_to_N a) as Ea. pose proof (Byte.of_to_N b) as Eb.
  congruence.
Qed.

Lemma hexdigest_inj (d1 d2 : list byte) :
  hashlib.hexdigest d1 = hashlib.hexdigest d2 -> d1 = d2.
Proof.
  revert d2. induction d1 as [|a d1 IH]; intros [|b d2] H; cbn in H;
    try reflexivity; try discriminate.
  injection H as Hhi Hlo Hrest.
  f_equal.
  - apply hex_of_byte_inj. unfold hashlib.hex_of_byte. congruence.
  - apply IH, Hrest.
Qed.

Lemma encode_inj (s1 s2 : string) : encode s1 = encode s2 -> s1 = s2.
Proof.
  unfold encode. intros H.
  rewrite <- (string_of_list_byte_of_string s1),
          <- (string_of_list_byte_of_string s2).
  now rewrite H.
Qed.

(** A plaintext matches a stored digest exactly when the two SHA-256
    digests agree. *)
Lemma verify_password_iff (p1 p2 : string) :
  verify_password p1 (hash_password p2) = true
  <-> hashlib.sha256 (encode p1) = hashlib.sha256 (encode p2).
Proof.
  unfold verify_password, hash_password. rewrite String.eqb_eq. split.
  - apply hexdigest_inj.
  - intros ->. reflexivity.
Qed.

(** C5. Every password verifies against its own digest, and a different
    password is refused unless the two are a SHA-256 collision. *)
Theorem verify_password_hash_password (p1 p2 : string) :
  verify_password p1 (hash_password p1) = true
  /\ (p1 <> p2 ->
      verify_password p1 (hash_password p2) = false
      \/ sha256_collision (encode p1) (encode p2)).
Proof.
  split.
  - apply verify_password_iff. reflexivity.
  - intros Hne.
    destruct (verify_password p1 (hash_password p2)) eqn:E; [right | now left].
    split.
    + intros Henc. apply Hne, encode_inj, Henc.
    + apply verify_password_iff, E.
Qed.

Lemma verify_password_hash_password_witness :
  "pw1" <> "pw2"
  /\ verify_password "pw1" (hash_password "pw1") = true
  /\ (verify_password "pw1" (hash_password "pw2") = false
      \/ sha256_collision (encode "pw1") (encode "pw2")).
Proof.
  assert (Hne : "pw1" <> "pw2") by discriminate.
  destruct (verify_password_hash_password "pw1" "pw2") as [Hself Hother].
  split; [exact Hne | split; [exact Hself | exact (Hother Hne)]].
Defined.

Example verify_password_rejects_other :
  verify_password "pw1" (hash_password "pw2") = false.
Proof. vm_compute. reflexivity. Qed.

Lemma be_bytes_length (n : nat) (x : Z) : length (hashlib.be_bytes n x) = n.
Proof.
  unfold hashlib.be_bytes. now rewrite length_map, length_rev, length_seq.
Qed.

Lemma compress_length (h block : list Z) :
  length h = 8%nat -> length (hashlib.compress h block) = 8%nat.
Proof.
  intros Hh. unfold hashlib.compress.
  rewrite length_map, length_combine, Hh. reflexivity.
Qed.

Lemma compress_all_length (blocks : list (list Z)) :
  forall h : list Z,
    length h = 8%nat -> length (fold_left hashlib.compress blocks h) = 8%nat.
Proof.
  induction blocks as [|b blocks IH]; intros h Hh; [exact Hh|].
  cbn [fold_left]. apply IH, compress_length, Hh.
Qed.

Lemma sha256_length (data : list byte) : length (hashlib.sha256 data) = 32%nat.
Proof.
  unfold hashlib.sha256. rewrite length_map.
  set (h := fold_left hashlib.compress _ hashlib.H256).
  assert (Hh : length h = 8%nat) by (apply compress_all_length; reflexivity).
  assert (Hsum : forall l : list Z,
             length (concat (map (hashlib.be_bytes 4) l)) = (4 * length l)%nat).
  { induction l as [|x l IHl]; [reflexivity|].
    cbn [map concat]. rewrite length_app, be_bytes_length, IHl. cbn [length]. lia. }
  rewrite Hsum, Hh. reflexivity.
Qed.

Lemma hexdigest_length (d : list byte) :
  String.length (hashlib.hexdigest d) = (2 * length d)%nat.
Proof.
  induction d as [|b d IH]; [reflexivity|].
  change (String.length (hashlib.hexdigest (b :: d)))
    with (S (S (String.length (hashlib.hexdigest d)))).
  rewrite IH. cbn [length]. lia.
Qed.

Lemma hex_digit_is_hex (n : N) :
  (n < 16)%N -> is_hex (hashlib.hex_digit n) = true.
Proof.
  intros Hn. destruct n as [|p]; [reflexivity|].
  do 4 (destruct p as [p|p|]; try reflexivity); exfalso; lia.
Qed.

Lemma hex_of_byte_is_hex (b : byte) :
  Forall (fun c => is_hex c = true) (list_ascii_of_string (hashlib.hex_of_byte b)).
Proof.
  pose proof (Byte.to_N_bounded b) as Hb.
  unfold hashlib.hex_of_byte. cbn [list_ascii_of_string].
  constructor; [|constructor; [|constructor]]; apply hex_digit_is_hex.
  - apply N.Div0.div_lt_upper_bound. lia.
  - apply N.mod_lt. lia.
Qed.

Lemma hexdigest_is_hex (d : list byte) :
  Forall (fun c => is_hex c = true) (list_ascii_of_string (hashlib.hexdigest d)).
Proof.
  induction d as [|b d IH]; [constructor|].
  pose proof (hex_of_byte_is_hex b) as Hb.
  unfold hashlib.hex_of_byte in Hb. cbn [list_ascii_of_string] in Hb.
  inversion Hb as [|c1 l1 H1 Hb']. inversion Hb' as [|c2 l2 H2 _].
  change (list_ascii_of_string (hashlib.hexdigest (b :: d)))
    with (hashlib.hex_digit (Byte.to_N b / 16)
          :: hashlib.hex_digit (Byte.to_N b mod 16)
          :: list_ascii_of_string (hashlib.hexdigest d)).
  constructor; [exact H1|]. constructor; [exact H2 | exact IH].
Qed.

(** ** Bearer tokens *)

Lemma timegm_add_seconds (d n : Z) : timegm (d + seconds n) = timegm d + n.
Proof. unfold timegm, seconds. apply Z.div_add. lia. Qed.

Lemma timegm_mono (d1 d2 : datetime) : d1 <= d2 -> timegm d1 <= timegm d2.
Proof. unfold timegm. intros H. apply Z.div_le_mono; lia. Qed.

(** What [create_token] issues: a token under the service's algorithm and
    key, whose payload holds the expiry in whole seconds and every integer
    claim of [data]. *)
Lemma create_token_inv (data : gmap string jwt.value) (T : datetime)
      (tok : jwt.token) :
  create_token data T = Ok tok ->
  exists payload : gmap string Z,
    tok = jwt.JWS ALGORITHM payload SECRET_KEY
    /\ payload !! "exp"%string
       = Some (timegm (T + minutes ACCESS_TOKEN_EXPIRE_MINUTES))
    /\ forall (k : string) (n : Z),
        k <> "exp"%string -> data !! k = Some (jwt.VInt n) -> payload !! k = Some n.
Proof.
  unfold create_token, jwt.encode. case_bool_decide; [|discriminate].
  intros [= <-]. eexists. split; [reflexivity|]. split.
  - rewrite map_lookup_imap, lookup_insert_eq. reflexivity.
  - intros k n Hk Hd.
    rewrite map_lookup_imap, lookup_insert_ne, Hd by congruence. reflexivity.
Qed.

(** The token that [login] issues for user [u] at instant [T]. *)
Lemma create_token_user_id (u : Z) (T : datetime) :
  create_token {[ "user_id"%string := jwt.VInt u ]} T
  = Ok (issued_token u (timegm (T + minutes ACCESS_TOKEN_EXPIRE_MINUTES))).
Proof. reflexivity. Qed.

(** The claims of an issued token are in force up to its expiry: it
    carries none of the other registered claims. *)
Lemma validate_claims_issued (u exp : Z) (utcnow : datetime) :
  jwt.validate_claims (<["exp"%string := exp]> {[ "user_id"%string := u ]}) utcnow
  = if exp <? timegm utcnow then Raise (JWTError ExpiredSignatureError)
    else Ok tt.
Proof.
  unfold jwt.validate_claims, jwt.refused_claim.
  rewrite lookup_insert_eq.
  rewrite !(lookup_insert_ne _ "exp"%string) by discriminate.
  rewrite !lookup_singleton_ne by discriminate.
  cbn [mbind result_bind]. destruct (exp <? timegm utcnow); reflexivity.
Qed.

(** Verification of an issued token only depends on its expiry. *)
Lemma verify_token_issued (u exp : Z) (utcnow : datetime) :
  verify_token (issued_token u exp) utcnow
  = if exp <? timegm utcnow then Raise invalid_token
    else Ok (<["exp"%string := exp]> {[ "user_id"%string := u ]}).
Proof.
  unfold verify_token, issued_token, jwt.decode.
  case_bool_decide as Halg; [|exfalso; apply Halg, list_elem_of_here].
  rewrite String.eqb_refl. cbn [negb]. rewrite validate_claims_issued.
  destruct (exp <? timegm utcnow); reflexivity.
Qed.

Lemma issued_user_id (u exp : Z) :
  (<["exp"%string := exp]> {[ "user_id"%string := u ]} : gmap string Z)
    !! "user_id"%string = Some u.
Proof.
  rewrite lookup_insert_ne by discriminate. apply lookup_singleton_eq.
Qed.

(** The validator raises nothing but [JWTError]s. *)
Lemma validate_claims_error (claims : gmap string Z) (utcnow : datetime)
      (e : exn) :
  jwt.validate_claims claims utcnow = Raise e -> exists c, e = JWTError c.
Proof.
  unfold jwt.validate_claims, jwt.refused_claim. intros E.
  repeat match type of E with
         | mbind _ ?r = _ =>
             let H := fresh in
             destruct r as [[]|?] eqn:H; cbn [mbind result_bind] in E;
             [|injection E as <-; case_tests H; injection H as <-; eauto]
         end.
  case_tests E; injection E as <-; eauto.
Qed.

(** So does the parser. *)
Lemma decode_error (tok : jwt.token) (key : string) (algorithms : list string)
      (utcnow : datetime) (e : exn) :
  jwt.decode tok key algorithms utcnow = Raise e -> exists c, e = JWTError c.
Proof.
  unfold jwt.decode. intros E.
  destruct tok as [raw|alg payload k]; [injection E as <-; eauto|].
  destruct (negb (bool_decide (alg ∈ algorithms))); [injection E as <-; eauto|].
  destruct (negb (String.eqb k key)); [injection E as <-; eauto|].
  destruct (jwt.validate_claims payload utcnow) as [[]|e'] eqn:Hv;
    cbn [mbind result_bind] in E; [discriminate|].
  injection E as <-. exact (validate_claims_error _ _ _ Hv).
Qed.

(** Whatever is presented, verification either yields a payload or raises
    the one generic error. *)
Lemma verify_token_error (tok : jwt.token) (utcnow : datetime) (e : exn) :
  verify_token tok utcnow = Raise e -> e = invalid_token.
Proof.
  unfold verify_token.
  destruct (jwt.decode tok SECRET_KEY [ALGORITHM] utcnow) as [p|e'] eqn:E;
    [discriminate|].
  destruct (decode_error _ _ _ _ _ E) as [c ->]. intros [= <-]. reflexivity.
Qed.

(** A token signed with another key is refused, whatever it claims. *)
Lemma verify_token_other_key (alg key : string) (payload : gmap string Z)
      (utcnow : datetime) :
  key <> SECRET_KEY ->
  verify_token (jwt.JWS alg payload key) utcnow = Raise invalid_token.
Proof.
  intros Hkey. apply String.eqb_neq in Hkey.
  unfold verify_token, jwt.decode. rewrite Hkey.
  destruct (negb (bool_decide (alg ∈ [ALGORITHM]))); reflexivity.
Qed.

(** Claims that are expired, not yet in force, or not checkable are
    refused, whatever else is claimed. *)
Lemma validate_claims_refused (claims : gmap string Z) (utcnow : datetime) :
  (exists exp : Z, claims !! "exp"%string = Some exp /\ exp < timegm utcnow)
  \/ (exists nbf : Z, claims !! "nbf"%string = Some nbf /\ timegm utcnow < nbf)
  \/ (exists name : string,
        In name ["aud"; "sub"; "jti"; "at_hash"]%string
        /\ is_Some (claims !! name)) ->
  exists e, jwt.validate_claims claims utcnow = Raise e.
Proof.
  unfold jwt.validate_claims, jwt.refused_claim.
  intros [(exp & Hexp & Hlt) | [(nbf & Hnbf & Hlt) | (name & Hin & [v Hv])]].
  - rewrite Hexp. apply Z.ltb_lt in Hlt. rewrite Hlt.
    destruct (claims !! "nbf"%string) as [nbf|];
      [destruct (timegm utcnow <? nbf)|]; cbn [mbind result_bind]; eauto.
  - rewrite Hnbf. apply Z.ltb_lt in Hlt. rewrite Hlt.
    cbn [mbind result_bind]. eauto.
  - cbn [In] in Hin.
    destruct Hin as [<- | [<- | [<- | [<- | []]]]]; rewrite Hv;
      repeat match goal with
             | |- context [claims !! ?k] => destruct (claims !! k)
             | |- context [if ?b then _ else _] => destruct b
             end;
      cbn [mbind result_bind]; eauto.
Qed.

(** Every token that is invalid or expired is refused with the one generic
    error. *)
Lemma verify_token_invalid (tok : jwt.token) (utcnow : datetime) :
  invalid_or_expired tok utcnow -> verify_token tok utcnow = Raise invalid_token.
Proof.
  intros Hbad.
  assert (H : exists e, verify_token tok utcnow = Raise e).
  { unfold verify_token, jwt.decode.
    destruct tok as [raw|alg payload key]; [eauto|].
    destruct Hbad as [Halg | [Hkey | Hclaims]].
    - case_bool_decide as Hin; [|cbn; eauto].
      apply list_elem_of_singleton in Hin. contradiction.
    - destruct (negb (bool_decide (alg ∈ [ALGORITHM]))); [eauto|].
      apply String.eqb_neq in Hkey. rewrite Hkey. cbn. eauto.
    - destruct (negb (bool_decide (alg ∈ [ALGORITHM]))); [eauto|].
      destruct (negb (String.eqb key SECRET_KEY)); [eauto|].
      destruct (validate_claims_refused payload utcnow Hclaims) as [e ->].
      cbn [mbind result_bind]. destruct e; eauto. }
  destruct H as [e He]. rewrite He. f_equal. exact (verify_token_error _ _ _ He).
Qed.

(** C3. A token issued for user [u] verifies at any instant up to its
    expiry, in particular right after it is issued, and the payload it
    yields names [u]. *)
Theorem verify_token_create_token (u : Z) (T utcnow : datetime) :
  utcnow <= T + minutes ACCESS_TOKEN_EXPIRE_MINUTES ->
  exists (tok : jwt.token) (payload : gmap string Z),
    create_token {[ "user_id"%string := jwt.VInt u ]} T = Ok tok
    /\ verify_token tok utcnow = Ok payload
    /\ payload !! "user_id"%string = Some u.
Proof.
  intros Hnow. eexists _, _. split; [apply create_token_user_id|]. split.
  - rewrite verify_token_issued. apply timegm_mono in Hnow.
    destruct (Z.ltb_spec (timegm (T + minutes ACCESS_TOKEN_EXPIRE_MINUTES))
                         (timegm utcnow)); [lia | reflexivity].
  - apply issued_user_id.
Qed.

Lemma verify_token_create_token_witness :
  1700000000250000 <= 1700000000250000 + minutes ACCESS_TOKEN_EXPIRE_MINUTES
  /\ exists (tok : jwt.token) (payload : gmap string Z),
      create_token {[ "user_id"%string := jwt.VInt 7 ]} 1700000000250000 = Ok tok
      /\ verify_token tok 1700000000250000 = Ok payload
      /\ payload !! "user_id"%string = Some 7.
Proof.
  assert (H : 1700000000250000
              <= 1700000000250000 + minutes ACCESS_TOKEN_EXPIRE_MINUTES)
    by (vm_compute; discriminate).
  split; [exact H|].
  exact (verify_token_create_token 7 1700000000250000 1700000000250000 H).
Defined.

(** C4. A token issued at [T] for a user is refused with the generic 401
    one second after its 30 minutes have elapsed, and accepted one second
    before they have. *)
Theorem verify_token_expiry (u : Z) (T : datetime) :
  exists tok : jwt.token,
    create_token {[ "user_id"%string := jwt.VInt u ]} T = Ok tok
    /\ verify_token tok (T + minutes 30 + seconds 1)
       = Raise (HTTPException 401 "Invalid token"
                  (Some [("WWW-Authenticate", "Bearer")]))
    /\ exists payload : gmap string Z,
        verify_token tok (T + minutes 30 - seconds 1) = Ok payload
        /\ payload !! "user_id"%string = Some u.
Proof.
  eexists. split; [apply create_token_user_id|].
  change (minutes ACCESS_TOKEN_EXPIRE_MINUTES) with (minutes 30). split.
  - rewrite verify_token_issued, timegm_add_seconds.
    destruct (Z.ltb_spec (timegm (T + minutes 30))
                         (timegm (T + minutes 30) + 1));
      [reflexivity | lia].
  - eexists. split; [|apply issued_user_id].
    rewrite verify_token_issued.
    replace (T + minutes 30 - seconds 1)
      with (T + minutes 30 + seconds (-1)) by (unfold seconds; lia).
    rewrite timegm_add_seconds.
    destruct (Z.ltb_spec (timegm (T + minutes 30))
                         (timegm (T + minutes 30) + -1));
      [lia | reflexivity].
Qed.

(** The boundary itself: the token is still accepted during the whole
    second in which it expires, and refused from the next second on. *)
Example verify_token_boundary :
  exists tok : jwt.token,
    create_token {[ "user_id"%string := jwt.VInt 7 ]} 1700000000250000 = Ok tok
    /\ verify_token tok 1700001800999999
       = Ok {[ "user_id"%string := 7; "exp"%string := 1700001800 ]}
    /\ verify_token tok 1700001801000000 = Raise invalid_token.
Proof. eexists. repeat split. Qed.

(** A token that is not to be used yet, or that names an audience, is
    refused although its signature is good. *)
Example verify_token_not_before :
  verify_token (jwt.JWS ALGORITHM
                  {[ "user_id"%string := 1; "exp"%string := 1700001800;
                     "nbf"%string := 1700000900 ]} SECRET_KEY)
               1700000000000000
  = Raise invalid_token
  /\ verify_token (jwt.JWS ALGORITHM
                     {[ "user_id"%string := 1; "exp"%string := 1700001800;
                        "aud"%string := 5 ]} SECRET_KEY)
                  1700000000000000
     = Raise invalid_token.
Proof. split; vm_compute; reflexivity. Qed.

(** ** Attribute values that Pony accepts *)

Lemma space1_false (a : N) : (32 < a)%N -> space1 a = false.
Proof.
  intros H. unfold space1.
  rewrite (proj2 (N.leb_gt a 13)), (proj2 (N.leb_gt a 32)) by lia.
  rewrite !andb_false_r. reflexivity.
Qed.

Lemma space2_false_l (a b : N) : (a < 128)%N -> space2 a b = false.
Proof.
  intros H. unfold space2.
  rewrite (proj2 (N.eqb_neq a 194)) by lia. reflexivity.
Qed.

Lemma space2_false_r (a b : N) : (b < 128)%N -> space2 a b = false.
Proof.
  intros H. unfold space2.
  rewrite (proj2 (N.eqb_neq b 133)), (proj2 (N.eqb_neq b 160)) by lia.
  apply andb_false_r.
Qed.

Lemma space3_false_l (a b c : N) : (a < 128)%N -> space3 a b c = false.
Proof.
  intros H. unfold space3.
  rewrite (proj2 (N.eqb_neq a 225)), (proj2 (N.eqb_neq a 226)),
    (proj2 (N.eqb_neq a 227)) by lia.
  reflexivity.
Qed.

Lemma space3_false_r (a b c : N) : (c < 128)%N -> space3 a b c = false.
Proof.
  intros H. unfold space3.
  rewrite (proj2 (N.eqb_neq c 128)), (proj2 (N.eqb_neq c 168)),
    (proj2 (N.eqb_neq c 169)), (proj2 (N.eqb_neq c 175)),
    (proj2 (N.eqb_neq c 159)), (proj2 (N.leb_gt 128 c)) by lia.
  rewrite !andb_false_r. reflexivity.
Qed.

Lemma space_prefix_none (c : ascii) (l : list ascii) :
  no_space c -> space_prefix (c :: l) = None.
Proof.
  intros [Hlo Hhi]. cbn [space_prefix]. rewrite space1_false by exact Hlo.
  destruct l as [|b l]; [reflexivity|]. rewrite space2_false_l by exact Hhi.
  destruct l as [|a l]; [reflexivity|]. rewrite space3_false_l by exact Hhi.
  reflexivity.
Qed.

Lemma space_suffix_none (c : ascii) (l : list ascii) :
  no_space c -> space_suffix (c :: l) = None.
Proof.
  intros [Hlo Hhi]. cbn [space_suffix]. rewrite space1_false by exact Hlo.
  destruct l as [|b l]; [reflexivity|]. rewrite space2_false_r by exact Hhi.
  destruct l as [|a l]; [reflexivity|]. rewrite space3_false_r by exact Hhi.
  reflexivity.
Qed.

Lemma drop_spaces_none (behind : list ascii -> option (list ascii))
      (fuel : nat) (l : list ascii) :
  behind l = None -> drop_spaces behind fuel l = l.
Proof. intros H. destruct fuel; cbn [drop_spaces]; [|rewrite H]; reflexivity. Qed.

(** Stripping leaves a string alone that has no white space in it. *)
Lemma str_strip_no_space (s : string) :
  Forall no_space (list_ascii_of_string s) -> str_strip s = s.
Proof.
  intros Hs. unfold str_strip.
  destruct (list_ascii_of_string s) as [|c l] eqn:El.
  - cbn. rewrite <- (string_of_list_ascii_of_string s), El. reflexivity.
  - rewrite (drop_spaces_none space_prefix)
      by (apply space_prefix_none; apply Forall_cons in Hs as [Hc _]; exact Hc).
    assert (Hrev : Forall no_space (rev (c :: l))) by apply Forall_rev, Hs.
    destruct (rev (c :: l)) as [|d r] eqn:Er.
    + apply (f_equal (@length ascii)) in Er. rewrite length_rev in Er.
      discriminate Er.
    + rewrite (drop_spaces_none space_suffix)
        by (apply space_suffix_none; apply Forall_cons in Hrev as [Hd _];
            exact Hd).
      rewrite <- Er, rev_involutive, <- El.
      apply string_of_list_ascii_of_string.
Qed.

Lemma is_hex_no_space (c : ascii) : is_hex c = true -> no_space c.
Proof.
  unfold is_hex, no_space, nat_of_ascii. intros H.
  apply orb_true_iff in H.
  destruct H as [H | H]; apply andb_true_iff in H as [H1 H2];
    apply Nat.leb_le in H1, H2; lia.
Qed.

(** A digest is stored as it is. *)
Lemma str_required_hash (password : string) :
  pony.str_required (hash_password password) = Ok (hash_password password).
Proof.
  unfold pony.str_required.
  rewrite str_strip_no_space.
  - destruct (String.eqb_spec (hash_password password) "") as [E|_];
      [|reflexivity].
    apply (f_equal String.length) in E. unfold hash_password in E.
    rewrite hexdigest_length, sha256_length in E. discriminate E.
  - eapply Forall_impl; [apply hexdigest_is_hex|]. apply is_hex_no_space.
Qed.

Lemma str_required_ok (val : string) :
  not_blank val -> pony.str_required val = Ok (str_strip val).
Proof.
  unfold not_blank, pony.str_required. intros H.
  apply String.eqb_neq in H. rewrite H. reflexivity.
Qed.

Lemma str_required_blank (val : string) :
  str_strip val = "" -> pony.str_required val = Raise ValueError.
Proof. unfold pony.str_required. intros ->. reflexivity. Qed.

Lemma int32_ok (val : Z) : fits_int32 val -> pony.int32 val = Ok val.
Proof.
  unfold fits_int32, pony.int32, pony.min_int, pony.max_int. intros H.
  destruct (Z.ltb_spec val (-2147483648)); [lia|].
  destruct (Z.ltb_spec 2147483647 val); [lia | reflexivity].
Qed.

Lemma int32_out (val : Z) : ~ fits_int32 val -> pony.int32 val = Raise ValueError.
Proof.
  unfold fits_int32, pony.int32, pony.min_int, pony.max_int. intros H.
  destruct (Z.ltb_spec val (-2147483648)); [reflexivity|].
  destruct (Z.ltb_spec 2147483647 val); [reflexivity | lia].
Qed.

Lemma User_get_email_ok (db : DB) (email : string) :
  not_blank email ->
  User_get_email db email
  = Ok (List.find (fun u => String.eqb (User.email u) (str_strip email))
                  (users db)).
Proof.
  intros H. unfold User_get_email. rewrite (str_required_ok _ H). reflexivity.
Qed.

Lemma User_get_id_ok (db : DB) (id : Z) :
  fits_int32 id ->
  User_get_id db id = Ok (List.find (fun u => User.id u =? id) (users db)).
Proof. intros H. unfold User_get_id. rewrite (int32_ok _ H). reflexivity. Qed.

Lemma Book_get_id_ok (db : DB) (id : Z) :
  fits_int32 id ->
  Book_get_id db id = Ok (List.find (fun b => Book.id b =? id) (books db)).
Proof. intros H. unfold Book_get_id. rewrite (int32_ok _ H). reflexivity. Qed.

(** A key that no row has is not found. *)
Lemma find_no_key {A : Type} (key : A -> Z) (rows : list A) (k : Z) :
  Forall (fun r => key r <> k) rows ->
  List.find (fun r => key r =? k) rows = None.
Proof.
  induction 1 as [|r rows Hr _ IH]; [reflexivity|]. cbn [List.find].
  apply Z.eqb_neq in Hr. rewrite Hr. exact IH.
Qed.

Lemma find_no_email (rows : list User.t) (email : string) :
  Forall (fun u => User.email u <> email) rows ->
  List.find (fun u => String.eqb (User.email u) email) rows = None.
Proof.
  induction 1 as [|r rows Hr _ IH]; [reflexivity|]. cbn [List.find].
  apply String.eqb_neq in Hr. rewrite Hr. exact IH.
Qed.

(** ** Registration and login *)

Lemma find_app_none {A : Type} (p : A -> bool) (l : list A) (x : A) :
  List.find p l = None -> List.find p (l ++ [x]) = if p x then Some x else None.
Proof.
  induction l as [|a l IH]; cbn; [reflexivity|].
  destruct (p a); [discriminate | exact IH].
Qed.

Lemma find_snoc {A : Type} (p : A -> bool) (l : list A) (x : A) :
  List.find p (l ++ [x])
  = match List.find p l with
    | Some y => Some y
    | None => if p x then Some x else None
    end.
Proof.
  induction l as [|a l IH]; cbn; [reflexivity|].
  destruct (p a); [reflexivity | exact IH].
Qed.

Lemma auto_id_above {A : Type} (key : A -> Z) (rows : list A) :
  Forall (fun r => key r < auto_id key rows) rows.
Proof.
  unfold auto_id. induction rows as [|a rows IH]; constructor; cbn.
  - lia.
  - eapply Forall_impl; [exact IH|]. cbn. intros r Hr. lia.
Qed.

(** What [authenticate_user] comes to, by what the store holds under the
    stripped email. *)
Lemma authenticate_user_eq (db : DB) (email password : string) :
  not_blank email ->
  crud.authenticate_user db email password
  = Ok match List.find (fun u => String.eqb (User.email u) (str_strip email))
                       (users db) with
       | Some u =>
           if verify_password password (User.hashed_password u)
           then Some u else None
       | None => None
       end.
Proof.
  intros H. unfold crud.authenticate_user, crud.get_user_by_email.
  rewrite (User_get_email_ok db email H). cbn [mbind result_bind].
  destruct (List.find _ (users db)) as [u|]; [|reflexivity].
  destruct (verify_password password (User.hashed_password u)); reflexivity.
Qed.

(** C6, amended. A login whose email is not blank and, stripped, is that of
    no user, and a login whose stripped email is that of a user but whose
    password does not match, are answered alike: both raise the same 401
    with detail "Invalid credentials". *)
Theorem login_failures_alike (db1 db2 : DB) (t1 t2 : datetime)
        (unknown known : UserCreate.t) :
  not_blank (UserCreate.email unknown) ->
  Forall (fun u => User.email u <> str_strip (UserCreate.email unknown))
         (users db1) ->
  not_blank (UserCreate.email known) ->
  Exists (fun u => User.email u = str_strip (UserCreate.email known))
         (users db2) ->
  Forall (fun u => User.email u = str_strip (UserCreate.email known) ->
                   verify_password (UserCreate.password known)
                                   (User.hashed_password u) = false)
         (users db2) ->
  main.login db1 t1 unknown = Raise (HTTPException 401 "Invalid credentials" None)
  /\ main.login db2 t2 known = main.login db1 t1 unknown.
Proof.
  intros Hnb1 Hnone Hnb2 Hsome Hpw.
  assert (H1 : main.login db1 t1 unknown
               = Raise (HTTPException 401 "Invalid credentials" None)).
  { unfold main.login. rewrite (authenticate_user_eq _ _ _ Hnb1).
    rewrite (find_no_email _ _ Hnone). reflexivity. }
  split; [exact H1|]. rewrite H1.
  unfold main.login. rewrite (authenticate_user_eq _ _ _ Hnb2).
  destruct (List.find _ (users db2)) as [u|] eqn:Hfind.
  - apply List.find_some in Hfind as [Hin Heq]. apply String.eqb_eq in Heq.
    rewrite List.Forall_forall in Hpw. rewrite (Hpw u Hin Heq). reflexivity.
  - reflexivity.
Qed.

Lemma login_failures_alike_witness :
  not_blank "nobody@x.com"
  /\ Forall (fun u => User.email u <> str_strip "nobody@x.com") (users sample_db)
  /\ not_blank " a@x.com"
  /\ Exists (fun u => User.email u = str_strip " a@x.com") (users sample_db)
  /\ Forall (fun u => User.email u = str_strip " a@x.com" ->
                      verify_password "pw2" (User.hashed_password u) = false)
            (users sample_db)
  /\ main.login sample_db 1700000200000000
       (UserCreate.Build "nobody@x.com" "pw1")
     = Raise (HTTPException 401 "Invalid credentials" None)
  /\ main.login sample_db 1700000300000000
       (UserCreate.Build " a@x.com" "pw2")
     = main.login sample_db 1700000200000000
         (UserCreate.Build "nobody@x.com" "pw1").
Proof.
  assert (H1 : not_blank "nobody@x.com") by (vm_compute; discriminate).
  assert (H2 : Forall (fun u => User.email u <> str_strip "nobody@x.com")
                      (users sample_db))
    by (repeat constructor; vm_compute; discriminate).
  assert (H3 : not_blank " a@x.com") by (vm_compute; discriminate).
  assert (H4 : Exists (fun u => User.email u = str_strip " a@x.com")
                      (users sample_db))
    by (apply Exists_cons_hd; vm_compute; reflexivity).
  assert (H5 : Forall (fun u => User.email u = str_strip " a@x.com" ->
                                verify_password "pw2" (User.hashed_password u)
                                = false)
                      (users sample_db)).
  { constructor; [intros _; vm_compute; reflexivity|].
    constructor; [|constructor]. vm_compute. discriminate. }
  repeat (split; [assumption|]).
  exact (login_failures_alike sample_db sample_db
           1700000200000000 1700000300000000
           (UserCreate.Build "nobody@x.com" "pw1")
           (UserCreate.Build " a@x.com" "pw2") H1 H2 H3 H4 H5).
Defined.

(** C6 as stated fails for a blank email: no user has it, and yet the
    login is not answered with the 401 that a wrong password gets, but
    with the [ValueError] of the lookup, an internal server error. *)
Lemma login_blank_email :
  Forall (fun u => User.email u <> "") (users sample_db)
  /\ main.login sample_db 1700000200000000 (UserCreate.Build "" "pw1")
     = Raise ValueError
  /\ http_status ValueError = 500
  /\ main.login sample_db 1700000200000000 (UserCreate.Build "a@x.com" "pw2")
     = Raise (HTTPException 401 "Invalid credentials" None).
Proof.
  split; [repeat constructor; discriminate|].
  repeat split; vm_compute; reflexivity.
Qed.

(** A failed login raises that one error, or the [ValueError] of a blank
    email. *)
Lemma login_failure_generic (db : DB) (utcnow : datetime)
      (user_data : UserCreate.t) (e : exn) :
  main.login db utcnow user_data = Raise e ->
  e = HTTPException 401 "Invalid credentials" None
  \/ e = ValueError /\ str_strip (UserCreate.email user_data) = "".
Proof.
  unfold main.login.
  destruct (String.eqb_spec (str_strip (UserCreate.email user_data)) "")
    as [Hb|Hnb].
  - unfold crud.authenticate_user, crud.get_user_by_email, User_get_email.
    rewrite (str_required_blank _ Hb). cbn [mbind result_bind].
    intros [= <-]. now right.
  - rewrite (authenticate_user_eq _ _ _ Hnb). cbn [mbind result_bind].
    destruct (List.find _ (users db)) as [u|];
      [destruct (verify_password _ _)|].
    + rewrite create_token_user_id. discriminate.
    + intros [= <-]. now left.
    + intros [= <-]. now left.
Qed.

(** With the right password the same call issues a token, also when the
    email comes with white space around it. *)
Example login_succeeds :
  main.login sample_db 1700000000250000
    (UserCreate.Build "a@x.com" "pw1")
  = Ok {| main.access_token :=
            jwt.JWS "HS256" {[ "user_id" := 1; "exp" := 1700001800 ]} SECRET_KEY;
          main.token_type := "bearer" |}
  /\ main.login sample_db 1700000000250000
       (UserCreate.Build "a@x.com " "pw1")
     = main.login sample_db 1700000000250000
         (UserCreate.Build "a@x.com" "pw1").
Proof. split; vm_compute; reflexivity. Qed.

(** What [create_user] comes to: the [ValueError] of a blank email, [None]
    for an email that is taken, and otherwise a new user under the
    stripped email, added at the end of the table. *)
Lemma create_user_cases (db : DB) (now : datetime) (email password : string) :
  (str_strip email = ""
   /\ crud.create_user db now email password = (Raise ValueError, db))
  \/ (not_blank email
      /\ exists v : User.t,
          List.find (fun u => String.eqb (User.email u) (str_strip email))
                    (users db) = Some v
          /\ crud.create_user db now email password = (Ok None, db))
  \/ (not_blank email
      /\ List.find (fun u => String.eqb (User.email u) (str_strip email))
                   (users db) = None
      /\ let u := User.Build (auto_id User.id (users db)) (str_strip email)
                             (hash_password password) now in
         crud.create_user db now email password
         = (Ok (Some u),
            mkDB (users db ++ [u]) (authors db) (books db)
                 (comments db) (notes db) (files db))).
Proof.
  unfold crud.create_user.
  destruct (String.eqb_spec (str_strip email) "") as [Hb|Hnb].
  - left. split; [exact Hb|]. unfold User_get_email.
    rewrite (str_required_blank _ Hb). reflexivity.
  - right. rewrite (User_get_email_ok db email Hnb). cbn [mbind result_bind].
    destruct (List.find _ (users db)) as [v|] eqn:Hfind.
    + left. split; [exact Hnb|]. exists v. split; reflexivity.
    + right. split; [exact Hnb|]. split; [reflexivity|].
      unfold User_new. rewrite (str_required_ok _ Hnb), str_required_hash.
      reflexivity.
Qed.

(** C7, amended. Registering an email that is not blank and, stripped, is
    that of no user stores and returns a user with a new id, the stripped
    email and the digest of the password; registering the same email
    again, with any password, raises a 400 and leaves the store as it was,
    so the email still resolves to the first user and digest. *)
Theorem register_twice (db : DB) (t1 t2 : datetime) (email pw1 pw2 : string) :
  not_blank email ->
  Forall (fun v => User.email v <> str_strip email) (users db) ->
  exists (u : User.t) (db' : DB),
    main.register db t1 (UserCreate.Build email pw1) = (Ok u, db')
    /\ User.email u = str_strip email
    /\ User.hashed_password u = hash_password pw1
    /\ Forall (fun v => User.id v < User.id u) (users db)
    /\ users db' = users db ++ [u]
    /\ main.register db' t2 (UserCreate.Build email pw2)
       = (Raise (HTTPException 400 "Email already registered" None), db')
    /\ crud.get_user_by_email db' email = Ok (Some u).
Proof.
  intros Hnb Hfree. apply find_no_email in Hfree.
  set (u := User.Build (auto_id User.id (users db)) (str_strip email)
                       (hash_password pw1) t1).
  set (db' := mkDB (users db ++ [u]) (authors db) (books db)
                   (comments db) (notes db) (files db)).
  assert (Hfound : List.find (fun v => String.eqb (User.email v) (str_strip email))
                             (users db') = Some u).
  { cbn [users db']. rewrite (find_app_none _ _ _ Hfree). cbn [User.email u].
    now rewrite String.eqb_refl. }
  exists u, db'. repeat split; try reflexivity.
  - unfold main.register. cbn [UserCreate.email UserCreate.password].
    destruct (create_user_cases db t1 email pw1)
      as [[Hb _] | [(_ & v & Hv & _) | (_ & _ & ->)]];
      [contradiction | congruence | reflexivity].
  - apply auto_id_above.
  - unfold main.register. cbn [UserCreate.email UserCreate.password].
    destruct (create_user_cases db' t2 email pw2)
      as [[Hb _] | [(_ & v & _ & ->) | (_ & Hnone & _)]];
      [contradiction | reflexivity | congruence].
  - unfold crud.get_user_by_email. rewrite (User_get_email_ok _ _ Hnb).
    rewrite Hfound. reflexivity.
Qed.

Lemma register_twice_witness :
  not_blank " a@x.com "
  /\ Forall (fun v => User.email v <> str_strip " a@x.com ") (users empty_db)
  /\ exists (u : User.t) (db' : DB),
    main.register empty_db 1700000000000000
      (UserCreate.Build " a@x.com " "pw1") = (Ok u, db')
    /\ User.email u = str_strip " a@x.com "
    /\ User.hashed_password u = hash_password "pw1"
    /\ Forall (fun v => User.id v < User.id u) (users empty_db)
    /\ users db' = users empty_db ++ [u]
    /\ main.register db' 1700000100000000
         (UserCreate.Build " a@x.com " "pw2")
       = (Raise (HTTPException 400 "Email already registered" None), db')
    /\ crud.get_user_by_email db' " a@x.com " = Ok (Some u).
Proof.
  assert (H1 : not_blank " a@x.com ") by (vm_compute; discriminate).
  assert (H2 : Forall (fun v => User.email v <> str_strip " a@x.com ")
                      (users empty_db)) by constructor.
  split; [exact H1|]. split; [exact H2|].
  exact (register_twice empty_db 1700000000000000 1700000100000000
           " a@x.com " "pw1" "pw2" H1 H2).
Defined.

(** C7 as stated fails for a blank email: the registration does not
    succeed, it raises the [ValueError] of the lookup and stores nothing. *)
Lemma register_blank_email :
  main.register empty_db 1700000000000000 (UserCreate.Build "" "pw1")
  = (Raise ValueError, empty_db)
  /\ http_status ValueError = 500.
Proof. split; vm_compute; reflexivity. Qed.

(** The email is stored stripped, and the same email with white space
    around it counts as taken. *)
Example register_first :
  main.register empty_db 1700000000000000
    (UserCreate.Build " a@x.com" "pw1")
  = (Ok alice, mkDB [alice] [] [] [] [] [])
  /\ main.register (mkDB [alice] [] [] [] [] []) 1700000100000000
       (UserCreate.Build "a@x.com " "pw2")
     = (Raise (HTTPException 400 "Email already registered" None),
        mkDB [alice] [] [] [] [] []).
Proof. split; vm_compute; reflexivity. Qed.

(** ** Administration *)

(** C9. Both administration endpoints look at nothing but the id of the
    caller: any caller whose id is not 1 gets a 403 with detail "Admin
    access required", the caller with id 1 gets every user and the counts
    over the whole store. *)
Theorem admin_by_id_only (db : DB) (admin other : User.t) :
  User.id admin = 1 ->
  User.id other <> 1 ->
  (main.get_all_users db other
   = Raise (HTTPException 403 "Admin access required" None)
   /\ main.get_statistics db other
      = Raise (HTTPException 403 "Admin access required" None))
  /\ main.get_all_users db admin = Ok (map main.user_dict (users db))
  /\ main.get_statistics db admin
     = Ok (PDict [("total_users", PInt (Z.of_nat (length (users db))));
                  ("total_books", PInt (Z.of_nat (length (books db))));
                  ("total_authors", PInt (Z.of_nat (length (authors db))));
                  ("books_per_user",
                   match users db with
                   | [] => PInt 0
                   | _ :: _ => PTrueDiv (Z.of_nat (length (books db)))
                                        (Z.of_nat (length (users db)))
                   end)]%string).
Proof.
  intros Hadmin Hother.
  unfold main.get_all_users, main.get_statistics.
  rewrite Hadmin. apply Z.eqb_neq in Hother. rewrite Hother. cbn [negb Z.eqb].
  repeat split. cbn [Pos.eqb negb].
  destruct (users db) as [|v vs]; reflexivity.
Qed.

Lemma admin_by_id_only_witness :
  User.id alice = 1 /\ User.id bob <> 1
  /\ (main.get_all_users sample_db bob
   = Raise (HTTPException 403 "Admin access required" None)
   /\ main.get_statistics sample_db bob
      = Raise (HTTPException 403 "Admin access required" None))
  /\ main.get_all_users sample_db alice = Ok (map main.user_dict [alice; bob])
  /\ main.get_statistics sample_db alice
     = Ok (PDict [("total_users", PInt 2); ("total_books", PInt 1);
                  ("total_authors", PInt 1); ("books_per_user", PTrueDiv 1 2)]).
Proof.
  assert (Ha : User.id alice = 1) by reflexivity.
  assert (Hb : User.id bob <> 1) by discriminate.
  split; [exact Ha|]. split; [exact Hb|].
  exact (admin_by_id_only sample_db alice bob Ha Hb).
Defined.

(** ** Attached files *)

(** What [create_file] does with acceptable names and a book id that no
    book has. *)
Lemma create_file_no_book (db : DB) (now : datetime)
      (filename file_path : string) (book_id : Z) :
  not_blank filename -> not_blank file_path -> fits_int32 book_id ->
  Forall (fun b => Book.id b <> book_id) (books db) ->
  let file := File.Build (auto_id File.id (files db)) (str_strip filename)
                         (str_strip file_path) now None in
  crud.create_file db now filename file_path (Some book_id)
  = (Ok file,
     mkDB (users db) (authors db) (books db) (comments db) (notes db)
          (files db ++ [file])).
Proof.
  intros Hname Hpath Hid Hnone. unfold crud.create_file, File_new.
  rewrite (Book_get_id_ok db book_id Hid), (find_no_key _ _ _ Hnone).
  rewrite (str_required_ok _ Hname), (str_required_ok _ Hpath).
  destruct (book_id =? 0); reflexivity.
Qed.

(** C10, amended. Attaching a file, under a name and a path that are not
    blank, to a book id in the key range that no book has is not refused
    for want of the book: [crud.create_file] stores the file with no book
    and returns it to the route, and the file stays stored whatever the
    route answers; commenting on, or taking a note about, that same book
    id raises "Book not found" and stores nothing. *)
Theorem create_file_without_book (book_response : Book.t -> result pyval)
        (db : DB) (now : datetime) (current_user : User.t)
        (filename file_path text : string) (book_id : Z) :
  not_blank filename -> not_blank file_path ->
  fits_int32 book_id -> fits_int32 (User.id current_user) ->
  Forall (fun b => Book.id b <> book_id) (books db) ->
  exists (file : File.t) (db' : DB),
    crud.create_file db now filename file_path (Some book_id) = (Ok file, db')
    /\ File.book file = None
    /\ File.filename file = str_strip filename
    /\ File.file_path file = str_strip file_path
    /\ files db' = files db ++ [file]
    /\ snd (main.create_file book_response db now
              (FileCreate.Build filename file_path (Some book_id)) current_user)
       = db'
    /\ main.create_comment db now (CommentCreate.Build text book_id)
         current_user
       = (Raise (HTTPException 404 "Book not found" None), db)
    /\ main.create_note db now (NoteCreate.Build text book_id)
         current_user
       = (Raise (HTTPException 404 "Book not found" None), db).
Proof.
  intros Hname Hpath Hid Hu Hnone.
  pose proof (create_file_no_book db now filename file_path book_id
                Hname Hpath Hid Hnone) as Hfile. cbv zeta in Hfile.
  eexists _, _. split; [exact Hfile|]. repeat split.
  - unfold main.create_file.
    cbn [FileCreate.filename FileCreate.file_path FileCreate.book_id].
    rewrite Hfile. reflexivity.
  - unfold main.create_comment, crud.create_comment.
    cbn [CommentCreate.text CommentCreate.book_id].
    rewrite (Book_get_id_ok db book_id Hid), (find_no_key _ _ _ Hnone).
    rewrite (User_get_id_ok db _ Hu). reflexivity.
  - unfold main.create_note, crud.create_note.
    cbn [NoteCreate.text NoteCreate.book_id].
    rewrite (Book_get_id_ok db book_id Hid), (find_no_key _ _ _ Hnone).
    rewrite (User_get_id_ok db _ Hu). reflexivity.
Qed.

Lemma create_file_without_book_witness :
  not_blank "cover.png" /\ not_blank "/files/cover.png "
  /\ fits_int32 42 /\ fits_int32 (User.id bob)
  /\ Forall (fun b => Book.id b <> 42) (books sample_db)
  /\ exists (file : File.t) (db' : DB),
    crud.create_file sample_db 1700000200000000 "cover.png" "/files/cover.png "
                     (Some 42)
    = (Ok file, db')
    /\ File.book file = None
    /\ File.filename file = str_strip "cover.png"
    /\ File.file_path file = str_strip "/files/cover.png "
    /\ files db' = files sample_db ++ [file]
    /\ snd (main.create_file (fun _ => Ok PNone) sample_db 1700000200000000
              (FileCreate.Build "cover.png" "/files/cover.png " (Some 42)) bob)
       = db'
    /\ main.create_comment sample_db 1700000200000000
         (CommentCreate.Build "great" 42) bob
       = (Raise (HTTPException 404 "Book not found" None), sample_db)
    /\ main.create_note sample_db 1700000200000000
         (NoteCreate.Build "great" 42) bob
       = (Raise (HTTPException 404 "Book not found" None), sample_db).
Proof.
  assert (H1 : not_blank "cover.png") by (vm_compute; discriminate).
  assert (H2 : not_blank "/files/cover.png ") by (vm_compute; discriminate).
  assert (H3 : fits_int32 42) by (unfold fits_int32; lia).
  assert (H4 : fits_int32 (User.id bob)) by (unfold fits_int32; cbn; lia).
  assert (H5 : Forall (fun b => Book.id b <> 42) (books sample_db))
    by (repeat constructor; discriminate).
  repeat (split; [assumption|]).
  exact (create_file_without_book (fun _ => Ok PNone) sample_db
           1700000200000000 bob "cover.png" "/files/cover.png " "great" 42
           H1 H2 H3 H4 H5).
Defined.

(** C10 as stated fails for a blank file name: with a book id that no book
    has, the file is not stored and returned, [create_file] raises. So it
    does for a book id beyond the 32-bit key range. *)
Lemma create_file_blank_name :
  Forall (fun b => Book.id b <> 42) (books sample_db)
  /\ crud.create_file sample_db 1700000200000000 " " "/files/cover.png" (Some 42)
     = (Raise ValueError, sample_db)
  /\ Forall (fun b => Book.id b <> 2147483648) (books sample_db)
  /\ crud.create_file sample_db 1700000200000000 "cover.png" "/files/cover.png"
                      (Some 2147483648)
     = (Raise ValueError, sample_db).
Proof.
  repeat split; try (repeat constructor; discriminate); vm_compute; reflexivity.
Qed.

(** What the route answers when the file has been stored without a book:
    the response model reads the file's book after the session, and the
    request ends in an internal server error. *)
Lemma create_file_response (book_response : Book.t -> result pyval)
      (db : DB) (now : datetime) (current_user : User.t)
      (filename file_path : string) (book_id : Z) :
  not_blank filename -> not_blank file_path -> fits_int32 book_id ->
  Forall (fun b => Book.id b <> book_id) (books db) ->
  fst (main.create_file book_response db now
         (FileCreate.Build filename file_path (Some book_id)) current_user)
  = Raise DatabaseSessionIsOver
  /\ http_status DatabaseSessionIsOver = 500.
Proof.
  intros Hname Hpath Hid Hnone. split; [|reflexivity].
  unfold main.create_file.
  cbn [FileCreate.filename FileCreate.file_path FileCreate.book_id].
  rewrite (create_file_no_book db now filename file_path book_id
             Hname Hpath Hid Hnone).
  reflexivity.
Qed.

(** With the id of a book of the store the file is attached to that book. *)
Example create_file_with_book :
  fst (crud.create_file sample_db 1700000200000000 "cover.png"
         "/files/cover.png" (Some 1))
  = Ok (File.Build 1 "cover.png" "/files/cover.png" 1700000200000000
          (Some war_and_peace)).
Proof. vm_compute. reflexivity. Qed.

(** ** The access gate *)

Lemma lower_bearer (scheme : string) :
  fastapi.lower scheme = "bearer" -> scheme <> "".
Proof. intros H ->. discriminate H. Qed.

(** A header with the bearer scheme and a credential passes the scheme. *)
Lemma HTTPBearer_ok (fastapi : fastapi.release) (scheme : string)
      (token : jwt.token) :
  fastapi.lower scheme = "bearer" -> fastapi.is_empty token = false ->
  fastapi.HTTPBearer fastapi (Some (scheme, token))
  = Ok {| fastapi.scheme := scheme; fastapi.credentials := token |}.
Proof.
  intros Hs Ht. unfold fastapi.HTTPBearer.
  pose proof (lower_bearer scheme Hs) as Hne. apply String.eqb_neq in Hne.
  rewrite Hne, Ht, Hs. reflexivity.
Qed.

(** C1 as stated fails for a request without an [Authorization] header:
    the bearer scheme itself turns it down, with a message of its own.
    Under release 0.115.11 that is a 403; and whatever status and headers
    a release gives the scheme's "Not authenticated", the answer is none
    of the two generic ones. *)
Lemma current_user_no_header :
  main.current_user fastapi.answers_403 sample_db 1700000000000000 None
  = Raise (HTTPException 403 "Not authenticated" None)
  /\ (forall (fastapi : fastapi.release) (status : Z)
             (headers : option (list (string * string))),
        fastapi.not_authenticated fastapi
        = HTTPException status "Not authenticated" headers ->
        main.current_user fastapi sample_db 1700000000000000 None
        = Raise (HTTPException status "Not authenticated" headers)
        /\ ~ generic_401 (HTTPException status "Not authenticated" headers)).
Proof.
  split; [reflexivity|]. intros fastapi status headers Hrel. split.
  - unfold main.current_user, fastapi.HTTPBearer. rewrite Hrel. reflexivity.
  - intros (detail & hs & Heq & _ & [Hd | Hd]);
      injection Heq as _ <- _; discriminate Hd.
Qed.

(** A good token for a user the store does not hold: this 401, unlike the
    one [verify_token] raises, carries no [WWW-Authenticate] header. *)
Lemma current_user_unknown_user (fastapi : fastapi.release) :
  main.current_user fastapi sample_db 1700000000000000
    (Some ("Bearer", stray_token))
  = Raise (HTTPException 401 "Invalid user" None)
  /\ ~ generic_401 (HTTPException 401 "Invalid user" None).
Proof.
  split; [vm_compute; reflexivity|].
  intros (detail & headers & Heq & _). discriminate Heq.
Qed.

(** A good token whose user id does not fit a 32-bit key: the lookup
    raises, and the request ends in an internal server error. *)
Lemma current_user_key_range (fastapi : fastapi.release) :
  main.current_user fastapi sample_db 1700000000000000
    (Some ("Bearer", issued_token 2147483648 1700001800))
  = Raise ValueError
  /\ http_status ValueError = 500.
Proof. split; vm_compute; reflexivity. Qed.

(** C1, amended. The access gate turns a request down in these ways. (a)
    When the header is missing, or lacks its scheme or its credential, and
    when the scheme is not bearer, the bearer scheme raises its own error,
    which is the one of the FastAPI release. (b) When the credential is an
    invalid or expired token, the gate raises the 401 "Invalid token" that
    carries [WWW-Authenticate: Bearer]. (c) When the credential is a token
    of the service that has not expired and whose user id, within the key
    range, is that of no user, the gate raises a 401 "Invalid user". *)
Theorem current_user_rejections (fastapi : fastapi.release) (db : DB)
        (utcnow : datetime) :
  (main.current_user fastapi db utcnow None
   = Raise (fastapi.not_authenticated fastapi)
   /\ (forall (scheme : string) (token : jwt.token),
         scheme = "" \/ fastapi.is_empty token = true ->
         main.current_user fastapi db utcnow (Some (scheme, token))
         = Raise (fastapi.not_authenticated fastapi))
   /\ (forall (scheme : string) (token : jwt.token),
         scheme <> "" -> fastapi.is_empty token = false ->
         fastapi.lower scheme <> "bearer" ->
         main.current_user fastapi db utcnow (Some (scheme, token))
         = Raise (fastapi.invalid_scheme fastapi)))
  /\ (forall (scheme : string) (token : jwt.token),
        fastapi.lower scheme = "bearer" -> fastapi.is_empty token = false ->
        invalid_or_expired token utcnow ->
        main.current_user fastapi db utcnow (Some (scheme, token))
        = Raise (HTTPException 401 "Invalid token"
                   (Some [("WWW-Authenticate", "Bearer")])))
  /\ (forall (scheme : string) (u exp : Z),
        fastapi.lower scheme = "bearer" ->
        timegm utcnow <= exp -> fits_int32 u ->
        Forall (fun v => User.id v <> u) (users db) ->
        exists headers : option (list (string * string)),
          main.current_user fastapi db utcnow
            (Some (scheme, issued_token u exp))
          = Raise (HTTPException 401 "Invalid user" headers)).
Proof.
  split; [split; [reflexivity | split]| split].
  - intros scheme token H. unfold main.current_user, fastapi.HTTPBearer.
    destruct H as [-> | ->]; [reflexivity|].
    rewrite orb_true_r. reflexivity.
  - intros scheme token Hs Ht Hl. unfold main.current_user, fastapi.HTTPBearer.
    apply String.eqb_neq in Hs, Hl. rewrite Hs, Ht, Hl. reflexivity.
  - intros scheme token Hs Ht Hbad. unfold main.current_user.
    rewrite (HTTPBearer_ok _ _ _ Hs Ht). cbn [mbind result_bind].
    unfold main.get_current_user. cbn [fastapi.credentials].
    rewrite (verify_token_invalid _ _ Hbad). reflexivity.
  - intros scheme u exp Hs Hexp Hu Hnone. exists None.
    unfold main.current_user.
    rewrite (HTTPBearer_ok _ _ _ Hs) by reflexivity. cbn [mbind result_bind].
    unfold main.get_current_user. cbn [fastapi.credentials].
    rewrite verify_token_issued.
    destruct (Z.ltb_spec exp (timegm utcnow)); [lia|]. cbn [mbind result_bind].
    rewrite issued_user_id. unfold crud.get_user_by_id.
    rewrite (User_get_id_ok db u Hu), (find_no_key _ _ _ Hnone). reflexivity.
Qed.

Lemma current_user_rejections_witness :
  main.current_user fastapi.answers_403 sample_db 1700000000000000 None
  = Raise (fastapi.not_authenticated fastapi.answers_403)
  /\ main.current_user fastapi.answers_403 sample_db 1700000000000000
       (Some ("Bearer", jwt.Malformed ""))
     = Raise (fastapi.not_authenticated fastapi.answers_403)
  /\ main.current_user fastapi.answers_403 sample_db 1700000000000000
       (Some ("Basic", jwt.Malformed "dXNlcjpwdw=="))
     = Raise (fastapi.invalid_scheme fastapi.answers_403)
  /\ invalid_or_expired (issued_token 2 1700001800) 1700001801000000
  /\ main.current_user fastapi.answers_403 sample_db 1700001801000000
       (Some ("bearer", issued_token 2 1700001800))
     = Raise (HTTPException 401 "Invalid token"
                (Some [("WWW-Authenticate", "Bearer")]))
  /\ timegm 1700000000000000 <= 1700001800 /\ fits_int32 99
  /\ Forall (fun v => User.id v <> 99) (users sample_db)
  /\ exists headers : option (list (string * string)),
      main.current_user fastapi.answers_403 sample_db 1700000000000000
        (Some ("Bearer", issued_token 99 1700001800))
      = Raise (HTTPException 401 "Invalid user" headers).
Proof.
  destruct (current_user_rejections fastapi.answers_403 sample_db
              1700000000000000) as ((Ha1 & Ha2 & Ha3) & _ & Hc).
  destruct (current_user_rejections fastapi.answers_403 sample_db
              1700001801000000) as (_ & Hb & _).
  assert (Hbad : invalid_or_expired (issued_token 2 1700001800)
                                    1700001801000000).
  { right; right; left. exists 1700001800. split; [reflexivity|].
    vm_compute. reflexivity. }
  assert (Hexp : timegm 1700000000000000 <= 1700001800)
    by (vm_compute; discriminate).
  assert (Hu : fits_int32 99) by (unfold fits_int32; lia).
  assert (Hnone : Forall (fun v => User.id v <> 99) (users sample_db))
    by (repeat constructor; discriminate).
  split; [exact Ha1|].
  split; [exact (Ha2 "Bearer" (jwt.Malformed "") (or_intror eq_refl))|].
  split; [apply Ha3; [discriminate | reflexivity | discriminate]|].
  split; [exact Hbad|].
  split; [exact (Hb "bearer" (issued_token 2 1700001800) eq_refl eq_refl Hbad)|].
  split; [exact Hexp|]. split; [exact Hu|]. split; [exact Hnone|].
  exact (Hc "Bearer" 99 1700001800 eq_refl Hexp Hu Hnone).
Defined.

(** The gate lets a request through with the user its token names. *)
Lemma current_user_accepts (fastapi : fastapi.release) (db : DB)
      (utcnow : datetime) (scheme : string) (u : User.t) (exp : Z) :
  fastapi.lower scheme = "bearer" ->
  timegm utcnow <= exp -> fits_int32 (User.id u) ->
  List.find (fun v => User.id v =? User.id u) (users db) = Some u ->
  main.current_user fastapi db utcnow
    (Some (scheme, issued_token (User.id u) exp))
  = Ok u.
Proof.
  intros Hs Hexp Hu Hfind. unfold main.current_user.
  rewrite (HTTPBearer_ok _ _ _ Hs) by reflexivity. cbn [mbind result_bind].
  unfold main.get_current_user. cbn [fastapi.credentials].
  rewrite verify_token_issued.
  destruct (Z.ltb_spec exp (timegm utcnow)); [lia|]. cbn [mbind result_bind].
  rewrite issued_user_id. unfold crud.get_user_by_id.
  rewrite (User_get_id_ok db _ Hu), Hfind. reflexivity.
Qed.

Example current_user_bob :
  main.current_user fastapi.answers_403 sample_db 1700000000000000
    (Some ("bearer", jwt.JWS "HS256" {[ "user_id" := 2; "exp" := 1700001800 ]}
                             SECRET_KEY))
  = Ok bob.
Proof. vm_compute. reflexivity. Qed.

Example current_user_other_key :
  main.current_user fastapi.answers_403 sample_db 1700000000000000
    (Some ("Bearer", jwt.JWS "HS256" {[ "user_id" := 2; "exp" := 1700001800 ]}
                             "another key"))
  = Raise invalid_token.
Proof. vm_compute. reflexivity. Qed.

Example current_user_basic_scheme :
  main.current_user fastapi.answers_403 sample_db 1700000000000000
    (Some ("Basic", jwt.Malformed "dXNlcjpwdw=="))
  = Raise (HTTPException 403 "Invalid authentication credentials" None).
Proof. vm_compute. reflexivity. Qed.

(** ** The rate limiter *)

(** One request inside the window of an entry that is below the threshold. *)
Lemma rate_limit_counts (c : gmap string (Z * datetime)) (A : string)
      (n : Z) (ws now : datetime) :
  c !! A = Some (n, ws) -> now - ws < minutes 1 -> n < 100 ->
  main.rate_limit_middleware c A now = (AwaitCallNext, <[A := (n + 1, ws)]> c).
Proof.
  intros Hc Hwin Hn. unfold main.rate_limit_middleware. rewrite Hc.
  destruct (Z.ltb_spec (now - ws) (minutes 1)); [|lia].
  rewrite Z.geb_leb. destruct (Z.leb_spec 100 n); [lia | reflexivity].
Qed.

(** One request inside the window of an entry at the threshold. *)
Lemma rate_limit_rejects (c : gmap string (Z * datetime)) (A : string)
      (n : Z) (ws now : datetime) :
  c !! A = Some (n, ws) -> now - ws < minutes 1 -> 100 <= n ->
  main.rate_limit_middleware c A now = (Returned too_many_requests, c).
Proof.
  intros Hc Hwin Hn. unfold main.rate_limit_middleware. rewrite Hc.
  destruct (Z.ltb_spec (now - ws) (minutes 1)); [|lia].
  rewrite Z.geb_leb. destruct (Z.leb_spec 100 n); [reflexivity | lia].
Qed.

(** One request after the window of an entry has passed. *)
Lemma rate_limit_resets (c : gmap string (Z * datetime)) (A : string)
      (n : Z) (ws now : datetime) :
  c !! A = Some (n, ws) -> minutes 1 <= now - ws ->
  main.rate_limit_middleware c A now = (AwaitCallNext, <[A := (1, now)]> c).
Proof.
  intros Hc Hwin. unfold main.rate_limit_middleware. rewrite Hc.
  destruct (Z.ltb_spec (now - ws) (minutes 1)); [lia | reflexivity].
Qed.

(** Requests inside the window are all let through while the count stays
    within the threshold, and each adds one to the count. *)
Lemma serve_within_window (times : list datetime) :
  forall (c : gmap string (Z * datetime)) (A : string) (n : Z) (ws : datetime),
    c !! A = Some (n, ws) ->
    Forall (fun t => t - ws < minutes 1) times ->
    n + Z.of_nat (length times) <= 100 ->
    serve c A times
    = (repeat AwaitCallNext (length times),
       <[A := (n + Z.of_nat (length times), ws)]> c).
Proof.
  induction times as [|t times IH]; intros c A n ws Hc Hwin Hn.
  - cbn. rewrite Z.add_0_r, insert_id by exact Hc. reflexivity.
  - apply Forall_cons in Hwin as [Ht Hwin]. cbn [length] in Hn.
    cbn [serve]. rewrite (rate_limit_counts c A n ws t Hc Ht) by lia.
    rewrite (IH _ A (n + 1) ws); [| apply lookup_insert_eq | exact Hwin | lia].
    rewrite insert_insert_eq. cbn [length repeat].
    do 3 f_equal. lia.
Qed.

(** C2. From no entry, one hundred requests of a client within a minute of
    the first are all let through; a further one within that minute gets
    the 429 and leaves the table as it is; one that comes a minute or more
    after the first is let through, and the entry restarts at count 1 and
    at that request's time. *)
Theorem rate_limit_scenario (c0 : gmap string (Z * datetime)) (A : string)
        (t1 : datetime) (rest : list datetime) :
  c0 !! A = None ->
  length (t1 :: rest) = 100%nat ->
  Forall (fun t => t - t1 < minutes 1) rest ->
  exists c1 : gmap string (Z * datetime),
    serve c0 A (t1 :: rest) = (repeat AwaitCallNext 100, c1)
    /\ c1 !! A = Some (100, t1)
    /\ (forall t : datetime,
          t - t1 < minutes 1 ->
          main.rate_limit_middleware c1 A t
          = (Returned {| status_code := 429;
                         content := [("detail", "Too many requests")] |}, c1))
    /\ (forall t : datetime,
          minutes 1 <= t - t1 ->
          main.rate_limit_middleware c1 A t = (AwaitCallNext, <[A := (1, t)]> c1)).
Proof.
  intros Hnone Hlen Hwin. cbn [length] in Hlen.
  exists (<[A := (100, t1)]> c0).
  assert (Hc1 : (<[A := (100, t1)]> c0 : gmap string (Z * datetime)) !! A
                = Some (100, t1)) by apply lookup_insert_eq.
  repeat split.
  - cbn [serve]. unfold main.rate_limit_middleware at 1. rewrite Hnone.
    rewrite (serve_within_window rest _ A 1 t1);
      [| apply lookup_insert_eq | exact Hwin | lia].
    rewrite insert_insert_eq.
    replace (length rest) with 99%nat by lia. reflexivity.
  - exact Hc1.
  - intros t Ht. apply (rate_limit_rejects _ A 100 t1 t Hc1 Ht). lia.
  - intros t Ht. apply (rate_limit_resets _ A 100 t1 t Hc1 Ht).
Qed.

Lemma rate_limit_scenario_witness :
  (∅ : gmap string (Z * datetime)) !! "203.0.113.7" = None
  /\ length (1700000000000000 :: repeat 1700000059999999 99) = 100%nat
  /\ exists c1 : gmap string (Z * datetime),
      serve ∅ "203.0.113.7"
        (1700000000000000 :: repeat 1700000059999999 99)
      = (repeat AwaitCallNext 100, c1)
      /\ c1 !! "203.0.113.7" = Some (100, 1700000000000000)
      /\ (forall t : datetime,
            t - 1700000000000000 < minutes 1 ->
            main.rate_limit_middleware c1 "203.0.113.7" t
            = (Returned {| status_code := 429;
                           content := [("detail", "Too many requests")] |}, c1))
      /\ (forall t : datetime,
            minutes 1 <= t - 1700000000000000 ->
            main.rate_limit_middleware c1 "203.0.113.7" t
            = (AwaitCallNext, <["203.0.113.7" := (1, t)]> c1)).
Proof.
  split; [reflexivity|]. split; [reflexivity|].
  apply (rate_limit_scenario ∅ "203.0.113.7" 1700000000000000
           (repeat 1700000059999999 99)).
  - reflexivity.
  - reflexivity.
  - apply List.Forall_forall. intros t Ht. apply repeat_spec in Ht. subst t.
    vm_compute. reflexivity.
Defined.

Example rate_limit_101st :
  fst (serve ∅ "203.0.113.7" (repeat 1700000000000000 101))
  = repeat AwaitCallNext 100 ++ [Returned too_many_requests].
Proof. vm_compute. reflexivity. Qed.

(** ** Concurrent requests *)

(** Replacing one task changes the count of admitted requests by what the
    old and the new task contribute. *)
Lemma admitted_replace (ip : string) (ts : list task) (i : nat) (old new : task)
      (c c' : gmap string (Z * datetime)) :
  ts !! i = Some old ->
  admitted ip {| cache := c'; tasks := <[i := new]> ts |}
  = admitted ip {| cache := c; tasks := ts |}
    - Z.b2z (admitted_task ip old) + Z.b2z (admitted_task ip new).
Proof.
  unfold admitted. cbn [tasks]. revert i.
  induction ts as [|t ts IH]; intros [|i] Hi; try discriminate.
  - injection Hi as ->. cbn.
    destruct (admitted_task ip old), (admitted_task ip new);
      cbn [length Z.b2z]; lia.
  - cbn in Hi. specialize (IH i Hi).
    change (<[S i := new]> (t :: ts)) with (t :: <[i := new]> ts).
    cbn [List.filter]. destruct (admitted_task ip t); cbn [length]; lia.
Qed.

Lemma admitted_start (ip : string) (c : gmap string (Z * datetime))
      (ips : list string) :
  admitted ip (start c ips) = 0.
Proof.
  unfold admitted, start. cbn [tasks].
  induction ips as [|a ips IH]; [reflexivity | exact IH].
Qed.

Lemma rate_limit_other (c : gmap string (Z * datetime)) (A ip : string)
      (now : datetime) :
  ip <> A -> snd (main.rate_limit_middleware c ip now) !! A = c !! A.
Proof.
  intros Hne. unfold main.rate_limit_middleware.
  destruct (c !! ip) as [[n ws]|]; cbn.
  - destruct (now - ws <? minutes 1); [destruct (n >=? 100)|]; cbn;
      rewrite ?lookup_insert_ne by exact Hne; reflexivity.
  - rewrite lookup_insert_ne by exact Hne. reflexivity.
Qed.

(** Every step of the middleware keeps the counts of the table between 1
    and 100. *)
Lemma rate_limit_step_ok (c : gmap string (Z * datetime)) (ip : string)
      (now : datetime) :
  table_ok c -> table_ok (snd (main.rate_limit_middleware c ip now)).
Proof.
  intros Hok. unfold main.rate_limit_middleware.
  destruct (c !! ip) as [[n ws]|] eqn:Hip.
  - pose proof (Hok ip n ws Hip) as Hn.
    destruct (now - ws <? minutes 1).
    + rewrite Z.geb_leb. destruct (Z.leb_spec 100 n); cbn [snd]; [exact Hok|].
      intros ip' n' ws'. rewrite lookup_insert. case_decide.
      * intros [= <- <-]. lia.
      * apply Hok.
    + cbn [snd]. intros ip' n' ws'. rewrite lookup_insert. case_decide.
      * intros [= <- <-]. lia.
      * apply Hok.
  - cbn [snd]. intros ip' n' ws'. rewrite lookup_insert. case_decide.
    + intros [= <- <-]. lia.
    + apply Hok.
Qed.

Lemma serve_all_ok (requests : list (string * datetime)) :
  forall c : gmap string (Z * datetime),
    table_ok c -> table_ok (serve_all c requests).
Proof.
  unfold serve_all.
  induction requests as [|[ip now] requests IH]; intros c Hok; [exact Hok|].
  cbn [fold_left fst snd]. apply IH, rate_limit_step_ok, Hok.
Qed.

Lemma table_ok_empty : table_ok ∅.
Proof. intros ip n ws. rewrite lookup_empty. discriminate. Qed.

Lemma resume_window_inv (A : string) (W : datetime) (used : Z) (st : loop)
      (i : nat) (now : datetime) :
  W <= now < W + minutes 1 ->
  window_inv A W used st -> window_inv A W used (resume st i now).
Proof.
  intros Hnow Hinv. destruct st as [c ts]. unfold resume. cbn [cache tasks].
  destruct (ts !! i) as [[ip|ip|ip r]|] eqn:Hi; try exact Hinv.
  - (* the task starts: the middleware runs up to its await *)
    destruct (String.eqb_spec ip A) as [->|Hne].
    + unfold window_inv in *. cbn [cache] in *.
      destruct (c !! A) as [[n ws]|] eqn:Hc.
      * destruct Hinv as [[Hws Hadm] | (Hws & Hused & Hadm)].
        -- (* inside the window of the entry *)
           destruct (Z.lt_ge_cases n 100) as [Hlt|Hge].
           ++ rewrite (rate_limit_counts c A n ws now Hc) by lia.
              cbn [cache]. rewrite lookup_insert_eq.
              rewrite (admitted_replace A ts i _ _ c _ Hi).
              cbn [admitted_task Z.b2z]. rewrite String.eqb_refl.
              cbn [Z.b2z]. left. lia.
           ++ rewrite (rate_limit_rejects c A n ws now Hc) by lia.
              cbn [cache]. rewrite Hc.
              rewrite (admitted_replace A ts i _ _ c _ Hi).
              cbn [admitted_task Z.b2z]. left. lia.
        -- (* the window of the entry is over: it restarts *)
           rewrite (rate_limit_resets c A n ws now Hc) by lia.
           cbn [cache]. rewrite lookup_insert_eq.
           rewrite (admitted_replace A ts i _ _ c _ Hi).
           cbn [admitted_task Z.b2z]. rewrite String.eqb_refl.
           cbn [Z.b2z]. left. lia.
      * destruct Hinv as [Hused Hadm].
        unfold main.rate_limit_middleware. rewrite Hc. cbn [cache].
        rewrite lookup_insert_eq.
        rewrite (admitted_replace A ts i _ _ c _ Hi).
        cbn [admitted_task Z.b2z]. rewrite String.eqb_refl. cbn [Z.b2z].
        left. lia.
    + pose proof (rate_limit_other c A ip now Hne) as Hsame.
      assert (Hip : String.eqb ip A = false) by (apply String.eqb_neq, Hne).
      unfold window_inv in *. cbn [cache] in *.
      destruct (main.rate_limit_middleware c ip now) as [[r|] c'];
        cbn [snd cache] in *; rewrite Hsame;
        rewrite (admitted_replace A ts i _ _ c _ Hi);
        cbn [admitted_task]; rewrite ?Hip; cbn [Z.b2z];
        rewrite Z.sub_0_r, Z.add_0_r; exact Hinv.
  - (* the task is resumed after its await *)
    unfold window_inv in *. cbn [cache] in *.
    rewrite (admitted_replace A ts i _ _ c _ Hi). cbn [admitted_task].
    replace (admitted A {| cache := c; tasks := ts |}
             - Z.b2z (String.eqb ip A) + Z.b2z (String.eqb ip A))
      with (admitted A {| cache := c; tasks := ts |}) by lia.
    exact Hinv.
Qed.

Lemma run_window_inv (A : string) (W : datetime) (used : Z)
      (schedule : list (nat * datetime)) :
  forall st : loop,
    Forall (fun step => W <= snd step < W + minutes 1) schedule ->
    window_inv A W used st -> window_inv A W used (run schedule st).
Proof.
  unfold run. induction schedule as [|[i now] schedule IH]; intros st Hs Hinv.
  - exact Hinv.
  - apply Forall_cons in Hs as [Hnow Hs]. cbn [fold_left].
    apply IH; [exact Hs|]. apply resume_window_inv; assumption.
Qed.

(** The bound, from any table whose counts lie between 1 and 100. *)
Lemma run_bound (c0 : gmap string (Z * datetime)) (client_ips : list string)
      (A : string) (W : datetime) (schedule : list (nat * datetime)) :
  table_ok c0 ->
  (forall (n : Z) (ws : datetime),
     c0 !! A = Some (n, ws) ->
     W <= ws < W + minutes 1 \/ ws + minutes 1 <= W) ->
  Forall (fun step => W <= snd step < W + minutes 1) schedule ->
  admitted A (run schedule (start c0 client_ips)) <= 100
  /\ counted c0 A W + admitted A (run schedule (start c0 client_ips)) <= 100.
Proof.
  intros Hok Hwin Hs.
  assert (Hused : 0 <= counted c0 A W).
  { unfold counted. destruct (c0 !! A) as [[n ws]|] eqn:Hc; [|lia].
    pose proof (Hok A n ws Hc). destruct (W <=? ws); lia. }
  assert (Hinv : window_inv A W (counted c0 A W)
                            (run schedule (start c0 client_ips))).
  { apply run_window_inv; [exact Hs|].
    unfold window_inv, counted. cbn [start cache].
    rewrite (admitted_start A c0 client_ips).
    destruct (c0 !! A) as [[n ws]|] eqn:Hc; [|split; reflexivity].
    pose proof (Hok A n ws Hc) as Hn.
    assert (Hm : 0 < minutes 1) by reflexivity.
    destruct (Hwin n ws eq_refl) as [Hin | Hover].
    - left. destruct (Z.leb_spec W ws); lia.
    - right. destruct (Z.leb_spec W ws); lia. }
  unfold window_inv in Hinv.
  destruct (cache (run schedule (start c0 client_ips)) !! A) as [[n ws]|];
    [destruct Hinv as [[_ H] | (_ & H1 & H2)] | destruct Hinv as [H1 H2]]; lia.
Qed.

(** C8. Take any table that the process can have come to, and any
    requests received then. However the event loop interleaves their
    tasks, if the clock readings of the run all lie within one minute from
    [W] on, and the window that the table holds for client [A], if any,
    either began in that minute or was over before it, then no more than
    100 requests of [A] are let through, those included that the entry
    already counts in that window. *)
Theorem no_over_admission (history : list (string * datetime))
        (client_ips : list string) (A : string) (W : datetime)
        (schedule : list (nat * datetime)) :
  (forall (n : Z) (ws : datetime),
     serve_all ∅ history !! A = Some (n, ws) ->
     W <= ws < W + minutes 1 \/ ws + minutes 1 <= W) ->
  Forall (fun step => W <= snd step < W + minutes 1) schedule ->
  admitted A (run schedule (start (serve_all ∅ history) client_ips)) <= 100
  /\ counted (serve_all ∅ history) A W
     + admitted A (run schedule (start (serve_all ∅ history) client_ips))
     <= 100.
Proof.
  apply run_bound, serve_all_ok, table_ok_empty.
Qed.

(** Client 203.0.113.7 has used 40 requests of its window when 150 more
    come in at once; all are started before any is resumed, in the reverse
    of the order they came in. Sixty are let through, which makes the
    hundred. *)
Lemma no_over_admission_witness :
  (forall (n : Z) (ws : datetime),
     serve_all ∅ (repeat ("203.0.113.7", 1700000000000000) 40)
       !! "203.0.113.7" = Some (n, ws) ->
     1700000000000000 <= ws < 1700000000000000 + minutes 1
     \/ ws + minutes 1 <= 1700000000000000)
  /\ Forall (fun step => 1700000000000000 <= snd step
                         < 1700000000000000 + minutes 1)
            (map (fun i => (i, 1700000000000000 + Z.of_nat i))
                 (rev (seq 0 150) ++ seq 0 150))
  /\ admitted "203.0.113.7"
       (run (map (fun i => (i, 1700000000000000 + Z.of_nat i))
                 (rev (seq 0 150) ++ seq 0 150))
            (start (serve_all ∅ (repeat ("203.0.113.7", 1700000000000000) 40))
                   (repeat "203.0.113.7" 150)))
     <= 100
  /\ counted (serve_all ∅ (repeat ("203.0.113.7", 1700000000000000) 40))
             "203.0.113.7" 1700000000000000
     + admitted "203.0.113.7"
         (run (map (fun i => (i, 1700000000000000 + Z.of_nat i))
                   (rev (seq 0 150) ++ seq 0 150))
              (start (serve_all ∅ (repeat ("203.0.113.7", 1700000000000000) 40))
                     (repeat "203.0.113.7" 150)))
     <= 100.
Proof.
  assert (H1 : forall (n : Z) (ws : datetime),
             serve_all ∅ (repeat ("203.0.113.7", 1700000000000000) 40)
               !! "203.0.113.7" = Some (n, ws) ->
             1700000000000000 <= ws < 1700000000000000 + minutes 1
             \/ ws + minutes 1 <= 1700000000000000).
  { intros n ws H. vm_compute in H. injection H as <- <-.
    left. unfold minutes, seconds. lia. }
  assert (H2 : Forall (fun step => 1700000000000000 <= snd step
                                   < 1700000000000000 + minutes 1)
                      (map (fun i => (i, 1700000000000000 + Z.of_nat i))
                           (rev (seq 0 150) ++ seq 0 150))).
  { apply List.Forall_forall. intros step Hstep.
    apply in_map_iff in Hstep as (i & <- & Hi). cbn [snd].
    assert (Hlt : (i < 150)%nat).
    { apply in_app_or in Hi as [Hi | Hi]; [apply in_rev in Hi|];
        apply in_seq in Hi; lia. }
    unfold minutes, seconds. lia. }
  split; [exact H1|]. split; [exact H2|].
  exact (no_over_admission (repeat ("203.0.113.7", 1700000000000000) 40)
           (repeat "203.0.113.7" 150) "203.0.113.7" 1700000000000000
           _ H1 H2).
Defined.

(** In that run the threshold is reached, and the 90 requests beyond it
    are turned down; from an empty table the same 150 requests see
    exactly one hundred let through. *)
Example burst_of_150 :
  admitted "203.0.113.7"
    (run (map (fun i => (i, 1700000000000000 + Z.of_nat i))
              (rev (seq 0 150) ++ seq 0 150))
         (start (serve_all ∅ (repeat ("203.0.113.7", 1700000000000000) 40))
                (repeat "203.0.113.7" 150)))
  = 60
  /\ admitted "203.0.113.7"
       (run (map (fun i => (i, 1700000000000000 + Z.of_nat i))
                 (rev (seq 0 150) ++ seq 0 150))
            (start ∅ (repeat "203.0.113.7" 150)))
     = 100.
Proof. split; vm_compute; reflexivity. Qed.

(** Why the window of the entry must not straddle the minute of the run:
    with an entry that began half a minute before, requests read within
    one minute fall into two windows, and 199 of them are let through. *)
Example two_windows :
  admitted "203.0.113.7"
    (run (map (fun i => (i, 1700000030000000)) (seq 0 120)
          ++ map (fun i => (i, 1700000061000000)) (seq 120 130))
         (start (serve_all ∅ [("203.0.113.7", 1700000001000000)])
                (repeat "203.0.113.7" 250)))
  = 199.
Proof. vm_compute. reflexivity. Qed.

(** * Further properties *)

(** ** The rate-limit table over any sequence of requests *)

(** X1. Whatever requests the process has served since it started, every
    entry of the rate-limit table counts at least 1 and at most 100. *)
Theorem rate_limit_table_bounds (requests : list (string * datetime))
        (ip : string) (n : Z) (ws : datetime) :
  serve_all ∅ requests !! ip = Some (n, ws) -> 1 <= n <= 100.
Proof.
  apply (serve_all_ok requests ∅), table_ok_empty.
Qed.

Lemma rate_limit_table_bounds_witness :
  serve_all ∅ (repeat ("203.0.113.7", 1700000000000000) 150) !! "203.0.113.7"
  = Some (100, 1700000000000000)
  /\ 1 <= 100 <= 100.
Proof.
  assert (H : serve_all ∅ (repeat ("203.0.113.7", 1700000000000000) 150)
              !! "203.0.113.7" = Some (100, 1700000000000000))
    by (vm_compute; reflexivity).
  split; [exact H|].
  exact (rate_limit_table_bounds _ _ _ _ H).
Defined.

Lemma rate_limit_step_keeps (c : gmap string (Z * datetime)) (ip ip' : string)
      (now : datetime) :
  is_Some (c !! ip') \/ ip' = ip ->
  is_Some (snd (main.rate_limit_middleware c ip now) !! ip').
Proof.
  intros H. unfold main.rate_limit_middleware.
  destruct (c !! ip) as [[n ws]|] eqn:Hip.
  - assert (Hsome : is_Some (c !! ip')).
    { destruct H as [H | ->]; [exact H | rewrite Hip; eauto]. }
    destruct (now - ws <? minutes 1); [destruct (n >=? 100)|]; cbn [snd];
      rewrite ?lookup_insert; try case_decide; eauto.
  - cbn [snd]. rewrite lookup_insert. case_decide; [eauto|].
    destruct H as [H | ->]; [exact H | congruence].
Qed.

(** X2. Entries are never dropped: an address that has an entry, or sends
    one of the requests, has an entry afterwards. *)
Theorem rate_limit_never_forgets (requests : list (string * datetime)) :
  forall (c : gmap string (Z * datetime)) (ip : string),
    is_Some (c !! ip) \/ In ip (map fst requests) ->
    is_Some (serve_all c requests !! ip).
Proof.
  unfold serve_all.
  induction requests as [|[ip0 now] requests IH]; intros c ip H.
  - destruct H as [H | []]. exact H.
  - cbn [fold_left fst snd]. apply IH.
    cbn [map fst In] in H. destruct H as [H | [H | H]].
    + left. apply rate_limit_step_keeps. now left.
    + left. apply rate_limit_step_keeps. now right.
    + now right.
Qed.

Lemma rate_limit_never_forgets_witness :
  In "198.51.100.1"
     (map fst [("203.0.113.7", 1700000000000000);
               ("198.51.100.1", 1700000001000000);
               ("203.0.113.7", 1700000090000000)])
  /\ is_Some
       (serve_all ∅ [("203.0.113.7", 1700000000000000);
                     ("198.51.100.1", 1700000001000000);
                     ("203.0.113.7", 1700000090000000)] !! "198.51.100.1").
Proof.
  assert (H : In "198.51.100.1"
                 (map fst [("203.0.113.7", 1700000000000000);
                           ("198.51.100.1", 1700000001000000);
                           ("203.0.113.7", 1700000090000000)]))
    by (cbn; auto).
  split; [exact H|].
  exact (rate_limit_never_forgets _ ∅ "198.51.100.1" (or_intror H)).
Defined.

(** X3. The requests of other clients neither use up nor restart the
    window of a client: they leave its entry as it is. *)
Theorem rate_limit_isolation (requests : list (string * datetime)) :
  forall (c : gmap string (Z * datetime)) (A : string),
    Forall (fun r => fst r <> A) requests ->
    serve_all c requests !! A = c !! A.
Proof.
  unfold serve_all.
  induction requests as [|[ip now] requests IH]; intros c A Hne; [reflexivity|].
  apply Forall_cons in Hne as [Hip Hne]. cbn [fold_left fst snd] in *.
  rewrite (IH _ A Hne). apply rate_limit_other, Hip.
Qed.

Lemma rate_limit_isolation_witness :
  Forall (fun r : string * datetime => fst r <> "203.0.113.7")
         (repeat ("198.51.100.1", 1700000001000000) 120)
  /\ serve_all {[ "203.0.113.7" := (7, 1700000000000000) ]}
       (repeat ("198.51.100.1", 1700000001000000) 120) !! "203.0.113.7"
     = ({[ "203.0.113.7" := (7, 1700000000000000) ]}
          : gmap string (Z * datetime)) !! "203.0.113.7".
Proof.
  assert (H : Forall (fun r : string * datetime => fst r <> "203.0.113.7")
                     (repeat ("198.51.100.1", 1700000001000000) 120)).
  { apply List.Forall_forall. intros r Hr. apply repeat_spec in Hr. subst r.
    cbn. discriminate. }
  split; [exact H|].
  exact (rate_limit_isolation _ _ "203.0.113.7" H).
Defined.

(** X4. Requests that are turned down change nothing: however often a
    client at the threshold retries inside its window, the entry keeps its
    count and its start, and the first request a minute after that start
    is let through. *)
Theorem rejected_retries_are_free (times : list datetime) :
  forall (c : gmap string (Z * datetime)) (A : string) (n : Z) (ws : datetime),
    c !! A = Some (n, ws) -> 100 <= n ->
    Forall (fun t => t - ws < minutes 1) times ->
    serve c A times = (repeat (Returned too_many_requests) (length times), c)
    /\ forall t : datetime,
        minutes 1 <= t - ws ->
        main.rate_limit_middleware (snd (serve c A times)) A t
        = (AwaitCallNext, <[A := (1, t)]> c).
Proof.
  induction times as [|t0 times IH]; intros c A n ws Hc Hn Hwin.
  - split; [reflexivity|]. intros t Ht. cbn [serve snd].
    apply (rate_limit_resets c A n ws t Hc Ht).
  - apply Forall_cons in Hwin as [Ht0 Hwin].
    destruct (IH c A n ws Hc Hn Hwin) as [Hserve Hnext].
    assert (E : serve c A (t0 :: times)
                = (repeat (Returned too_many_requests) (length (t0 :: times)), c)).
    { cbn [serve]. rewrite (rate_limit_rejects c A n ws t0 Hc Ht0 Hn).
      rewrite Hserve. reflexivity. }
    split; [exact E|]. intros t Ht. rewrite E. cbn [snd].
    apply (rate_limit_resets c A n ws t Hc Ht).
Qed.

Lemma rejected_retries_are_free_witness :
  ({[ "203.0.113.7" := (100, 1700000000000000) ]} : gmap string (Z * datetime))
    !! "203.0.113.7" = Some (100, 1700000000000000)
  /\ 100 <= 100
  /\ serve {[ "203.0.113.7" := (100, 1700000000000000) ]} "203.0.113.7"
       (repeat 1700000005000000 30)
     = (repeat (Returned too_many_requests) 30,
        {[ "203.0.113.7" := (100, 1700000000000000) ]})
  /\ main.rate_limit_middleware
       (snd (serve {[ "203.0.113.7" := (100, 1700000000000000) ]} "203.0.113.7"
               (repeat 1700000005000000 30)))
       "203.0.113.7" 1700000060000000
     = (AwaitCallNext,
        <["203.0.113.7" := (1, 1700000060000000)]>
          {[ "203.0.113.7" := (100, 1700000000000000) ]}).
Proof.
  assert (Hc : ({[ "203.0.113.7" := (100, 1700000000000000) ]}
                  : gmap string (Z * datetime)) !! "203.0.113.7"
               = Some (100, 1700000000000000)) by reflexivity.
  assert (Hn : 100 <= 100) by lia.
  assert (Hw : Forall (fun t => t - 1700000000000000 < minutes 1)
                      (repeat 1700000005000000 30)).
  { apply List.Forall_forall. intros t Ht. apply repeat_spec in Ht. subst t.
    vm_compute. reflexivity. }
  destruct (rejected_retries_are_free _ _ _ _ _ Hc Hn Hw) as [Hserve Hnext].
  split; [exact Hc|]. split; [exact Hn|]. split; [exact Hserve|].
  apply Hnext. vm_compute. discriminate.
Defined.

(** ** The shape of a stored digest *)

(** X5. The digest stored for a password is always 64 characters long, and
    each is one of 0-9, a-f: whatever the password, its length included. *)
Theorem hash_password_shape (password : string) :
  String.length (hash_password password) = 64%nat
  /\ Forall (fun c => is_hex c = true)
            (list_ascii_of_string (hash_password password)).
Proof.
  unfold hash_password. split.
  - rewrite hexdigest_length, sha256_length. reflexivity.
  - apply hexdigest_is_hex.
Qed.

(** ** How long an issued token is good *)

(** X6. A token issued for a user at [T] verifies at exactly the instants
    up to the end of the second in which [T] plus 30 minutes falls. *)
Theorem issued_token_lifetime (u : Z) (T : datetime) :
  exists tok : jwt.token,
    create_token {[ "user_id"%string := jwt.VInt u ]} T = Ok tok
    /\ forall utcnow : datetime,
        (exists payload, verify_token tok utcnow = Ok payload)
        <-> utcnow < (timegm (T + minutes 30) + 1) * 1000000.
Proof.
  eexists. split; [apply create_token_user_id|].
  change (minutes ACCESS_TOKEN_EXPIRE_MINUTES) with (minutes 30).
  intros utcnow. rewrite verify_token_issued.
  assert (Hdiv : timegm utcnow <= timegm (T + minutes 30)
                 <-> utcnow < (timegm (T + minutes 30) + 1) * 1000000).
  { unfold timegm. set (e := (T + minutes 30) / 1000000).
    pose proof (Z.div_mod utcnow 1000000 ltac:(lia)) as Hdm.
    pose proof (Z.mod_pos_bound utcnow 1000000 ltac:(lia)) as Hm.
    split; intros H; nia. }
  destruct (Z.ltb_spec (timegm (T + minutes 30)) (timegm utcnow)) as [Hlt|Hge].
  - split; [intros [p Hp]; discriminate Hp | intros H; apply Hdiv in H; lia].
  - split; [intros _; apply Hdiv, Hge | intros _; eauto].
Qed.

(** ** Accounts: what registration keeps and what login gives *)

Lemma find_none_all {A : Type} (p : A -> bool) (l : list A) :
  List.find p l = None -> Forall (fun x => p x = false) l.
Proof.
  intros H. apply List.Forall_forall. intros x Hx.
  exact (List.find_none p l H x Hx).
Qed.

(** In a table without duplicate keys, looking a row up by its key gives
    that row. *)
Lemma find_by_key {A : Type} (key : A -> Z) (l : list A) (x : A) :
  NoDup (map key l) -> In x l ->
  List.find (fun y => key y =? key x) l = Some x.
Proof.
  induction l as [|a l IH]; intros Hnd Hin; [destruct Hin|].
  cbn [map] in Hnd. apply NoDup_cons in Hnd as [Ha Hnd]. cbn [List.find].
  destruct Hin as [-> | Hin]; [now rewrite Z.eqb_refl|].
  destruct (Z.eqb_spec (key a) (key x)) as [Heq|_]; [|exact (IH Hnd Hin)].
  exfalso. apply Ha. rewrite Heq. apply list_elem_of_In, in_map, Hin.
Qed.

Lemma find_by_email (l : list User.t) (u : User.t) :
  NoDup (map User.email l) -> In u l ->
  List.find (fun v => String.eqb (User.email v) (User.email u)) l = Some u.
Proof.
  induction l as [|a l IH]; intros Hnd Hin; [destruct Hin|].
  cbn [map] in Hnd. apply NoDup_cons in Hnd as [Ha Hnd]. cbn [List.find].
  destruct Hin as [-> | Hin]; [now rewrite String.eqb_refl|].
  destruct (String.eqb_spec (User.email a) (User.email u)) as [Heq|_];
    [|exact (IH Hnd Hin)].
  exfalso. apply Ha. rewrite Heq. apply list_elem_of_In, in_map, Hin.
Qed.

Lemma auto_id_positive {A : Type} (key : A -> Z) (rows : list A) :
  1 <= auto_id key rows.
Proof.
  unfold auto_id. induction rows as [|a rows IH]; cbn; lia.
Qed.

(** X7. Registration keeps the user table well formed: ids stay distinct
    and at least 1, emails stay distinct, whether it succeeds or not. *)
Theorem register_keeps_users_ok (db : DB) (now : datetime)
        (user_data : UserCreate.t) :
  users_ok db -> users_ok (snd (main.register db now user_data)).
Proof.
  intros (Hid & Hem & Hpos). unfold main.register.
  destruct (create_user_cases db now (UserCreate.email user_data)
              (UserCreate.password user_data))
    as [[_ ->] | [(_ & v & _ & ->) | (_ & Hget & ->)]];
    cbn [snd]; [repeat split; assumption ..|].
  unfold users_ok. cbn [users]. rewrite !map_app. cbn [map User.id User.email].
  repeat split.
  - apply NoDup_app. split; [exact Hid|]. split; [|apply NoDup_singleton].
    intros i Hi Hi'. apply list_elem_of_singleton in Hi'. subst i.
    apply list_elem_of_In, in_map_iff in Hi. destruct Hi as (v & Hv & Hin).
    pose proof (auto_id_above User.id (users db)) as Hlt.
    rewrite List.Forall_forall in Hlt. specialize (Hlt v Hin). lia.
  - apply NoDup_app. split; [exact Hem|]. split; [|apply NoDup_singleton].
    intros e He He'. apply list_elem_of_singleton in He'. subst e.
    apply list_elem_of_In, in_map_iff in He. destruct He as (v & Hv & Hin).
    pose proof (find_none_all _ _ Hget) as Hnone.
    rewrite List.Forall_forall in Hnone. specialize (Hnone v Hin). cbn in Hnone.
    rewrite Hv, String.eqb_refl in Hnone. discriminate.
  - apply Forall_app. split; [exact Hpos|]. constructor; [|constructor].
    cbn. apply auto_id_positive.
Qed.

Lemma users_ok_sample : users_ok sample_db.
Proof.
  unfold users_ok, sample_db. cbn [users map User.id User.email alice bob].
  repeat split.
  - apply NoDup_cons. split; [|apply NoDup_singleton].
    intros H. apply list_elem_of_singleton in H. discriminate H.
  - apply NoDup_cons. split; [|apply NoDup_singleton].
    intros H. apply list_elem_of_singleton in H. discriminate H.
  - repeat constructor; cbn; lia.
Defined.

Lemma register_keeps_users_ok_witness :
  users_ok sample_db
  /\ users_ok (snd (main.register sample_db 1700000200000000
                      (UserCreate.Build "c@x.com" "pw3"))).
Proof.
  split; [exact users_ok_sample|].
  exact (register_keeps_users_ok sample_db 1700000200000000
           (UserCreate.Build "c@x.com" "pw3") users_ok_sample).
Defined.

(** A token issued for [u] at [T] verifies up to its expiry and yields the
    payload it was issued with. *)
Lemma verify_issued (u : Z) (T utcnow : datetime) :
  utcnow <= T + minutes 30 ->
  verify_token (issued_token u (timegm (T + minutes 30))) utcnow
  = Ok (<["exp"%string := timegm (T + minutes 30)]> {[ "user_id"%string := u ]}).
Proof.
  intros Hnow. rewrite verify_token_issued.
  apply timegm_mono in Hnow.
  destruct (Z.ltb_spec (timegm (T + minutes 30)) (timegm utcnow));
    [lia | reflexivity].
Qed.

(** X8. Who has just registered can log in: for an email that is not blank
    and, stripped, was that of no user, a login with the same email and
    password succeeds, and the token it returns verifies and carries the
    id that registration gave. *)
Theorem register_then_login (db : DB) (t t' : datetime) (email pw : string) :
  not_blank email ->
  Forall (fun v => User.email v <> str_strip email) (users db) ->
  exists (u : User.t) (db' : DB) (tok : jwt.token) (payload : gmap string Z),
    main.register db t (UserCreate.Build email pw) = (Ok u, db')
    /\ main.login db' t' (UserCreate.Build email pw)
       = Ok {| main.access_token := tok; main.token_type := "bearer" |}
    /\ verify_token tok t' = Ok payload
    /\ payload !! "user_id"%string = Some (User.id u).
Proof.
  intros Hnb Hfree. apply find_no_email in Hfree.
  eexists _, _, _, _. split; [|split; [|split]].
  - unfold main.register. cbn [UserCreate.email UserCreate.password].
    destruct (create_user_cases db t email pw)
      as [[Hb _] | [(_ & v & Hv & _) | (_ & _ & ->)]];
      [contradiction | congruence | reflexivity].
  - unfold main.login. cbn [UserCreate.email UserCreate.password].
    rewrite (authenticate_user_eq _ _ _ Hnb). cbn [users].
    rewrite (find_app_none _ _ _ Hfree). cbn [User.email User.hashed_password].
    rewrite String.eqb_refl. unfold verify_password at 1.
    rewrite String.eqb_refl. cbn [mbind result_bind].
    rewrite create_token_user_id. reflexivity.
  - apply verify_issued. unfold minutes, seconds. lia.
  - cbn [User.id]. apply issued_user_id.
Qed.

Lemma register_then_login_witness :
  not_blank "c@x.com"
  /\ Forall (fun v => User.email v <> str_strip "c@x.com") (users sample_db)
  /\ exists (u : User.t) (db' : DB) (tok : jwt.token) (payload : gmap string Z),
      main.register sample_db 1700000200000000 (UserCreate.Build "c@x.com" "pw3")
      = (Ok u, db')
      /\ main.login db' 1700000300000000 (UserCreate.Build "c@x.com" "pw3")
         = Ok {| main.access_token := tok; main.token_type := "bearer" |}
      /\ verify_token tok 1700000300000000 = Ok payload
      /\ payload !! "user_id"%string = Some (User.id u).
Proof.
  assert (H1 : not_blank "c@x.com") by (vm_compute; discriminate).
  assert (H2 : Forall (fun v => User.email v <> str_strip "c@x.com")
                      (users sample_db))
    by (repeat constructor; vm_compute; discriminate).
  split; [exact H1|]. split; [exact H2|].
  exact (register_then_login sample_db 1700000200000000 1700000300000000
           "c@x.com" "pw3" H1 H2).
Defined.

(** What [authenticate_user] returns, when it returns a user. *)
Lemma authenticate_user_some (db : DB) (email password : string) (u : User.t) :
  crud.authenticate_user db email password = Ok (Some u) ->
  not_blank email /\ In u (users db) /\ User.email u = str_strip email
  /\ verify_password password (User.hashed_password u) = true.
Proof.
  destruct (String.eqb_spec (str_strip email) "") as [Hb|Hnb].
  - unfold crud.authenticate_user, crud.get_user_by_email, User_get_email.
    rewrite (str_required_blank _ Hb). discriminate.
  - rewrite (authenticate_user_eq _ _ _ Hnb).
    destruct (List.find _ (users db)) as [v|] eqn:Hfind; [|discriminate].
    destruct (verify_password password (User.hashed_password v)) eqn:Hpw;
      [|discriminate].
    intros [= <-]. apply List.find_some in Hfind as [Hin Heq].
    apply String.eqb_eq in Heq. auto.
Qed.

(** X9. With a well-formed user table, login is granted to exactly the
    users of the store: [authenticate_user] returns [u] if and only if the
    email is not blank and [u] is the stored user with that email, stripped,
    whose digest matches the password. *)
Theorem authenticate_user_iff (db : DB) (email password : string) (u : User.t) :
  users_ok db ->
  crud.authenticate_user db email password = Ok (Some u)
  <-> not_blank email /\ In u (users db) /\ User.email u = str_strip email
      /\ verify_password password (User.hashed_password u) = true.
Proof.
  intros (_ & Hem & _). split; [apply authenticate_user_some|].
  intros (Hnb & Hin & Heq & Hpw).
  rewrite (authenticate_user_eq _ _ _ Hnb), <- Heq.
  rewrite (find_by_email _ u Hem Hin), Hpw. reflexivity.
Qed.

Lemma authenticate_user_iff_witness :
  users_ok sample_db
  /\ (crud.authenticate_user sample_db " b@x.com " "pw2" = Ok (Some bob)
      <-> not_blank " b@x.com " /\ In bob (users sample_db)
          /\ User.email bob = str_strip " b@x.com "
          /\ verify_password "pw2" (User.hashed_password bob) = true).
Proof.
  split; [exact users_ok_sample|].
  exact (authenticate_user_iff sample_db " b@x.com " "pw2" bob users_ok_sample).
Defined.

(** X10. The token that a login returns opens the access gate for the
    user who logged in: presented as a bearer credential at any instant up
    to its expiry, it resolves to the stored user with the email given at
    login, stripped, whose digest matches the password given. The ids of
    the store are taken to fit the 32-bit key. *)
Theorem login_then_current_user (fastapi : fastapi.release) (db : DB)
        (T utcnow : datetime) (user_data : UserCreate.t)
        (resp : main.TokenResponse) :
  users_ok db ->
  Forall (fun v => User.id v <= 2147483647) (users db) ->
  main.login db T user_data = Ok resp ->
  utcnow <= T + minutes 30 ->
  exists u : User.t,
    main.current_user fastapi db utcnow
      (Some ("Bearer", main.access_token resp)) = Ok u
    /\ In u (users db)
    /\ User.email u = str_strip (UserCreate.email user_data)
    /\ verify_password (UserCreate.password user_data) (User.hashed_password u)
       = true.
Proof.
  intros (Hid & _ & Hpos) Hmax Hlogin Hnow. unfold main.login in Hlogin.
  destruct (crud.authenticate_user db (UserCreate.email user_data)
              (UserCreate.password user_data)) as [[u|]|e] eqn:Hauth;
    cbn [mbind result_bind] in Hlogin;
    [| discriminate Hlogin | discriminate Hlogin].
  rewrite create_token_user_id in Hlogin. injection Hlogin as <-.
  destruct (authenticate_user_some _ _ _ _ Hauth) as (_ & Hin & Hem & Hpw).
  exists u. repeat split; try assumption. cbn [main.access_token].
  rewrite List.Forall_forall in Hpos, Hmax.
  assert (Hu : fits_int32 (User.id u)).
  { specialize (Hpos u Hin). specialize (Hmax u Hin). cbn in Hpos.
    unfold fits_int32. lia. }
  apply current_user_accepts; [reflexivity | | exact Hu |].
  - change (minutes ACCESS_TOKEN_EXPIRE_MINUTES) with (minutes 30).
    apply timegm_mono, Hnow.
  - apply (find_by_key User.id _ u Hid Hin).
Qed.

Lemma login_then_current_user_witness :
  users_ok sample_db
  /\ Forall (fun v => User.id v <= 2147483647) (users sample_db)
  /\ main.login sample_db 1700000000250000 (UserCreate.Build "a@x.com " "pw1")
     = Ok {| main.access_token :=
               jwt.JWS "HS256" {[ "user_id" := 1; "exp" := 1700001800 ]}
                       SECRET_KEY;
             main.token_type := "bearer" |}
  /\ exists u : User.t,
      main.current_user fastapi.answers_403 sample_db 1700001000000000
        (Some ("Bearer",
               jwt.JWS "HS256" {[ "user_id" := 1; "exp" := 1700001800 ]}
                       SECRET_KEY)) = Ok u
      /\ In u (users sample_db)
      /\ User.email u = str_strip "a@x.com "
      /\ verify_password "pw1" (User.hashed_password u) = true.
Proof.
  assert (Hm : Forall (fun v => User.id v <= 2147483647) (users sample_db))
    by (repeat constructor; cbn; lia).
  assert (Hl : main.login sample_db 1700000000250000
                 (UserCreate.Build "a@x.com " "pw1")
               = Ok {| main.access_token :=
                         jwt.JWS "HS256"
                                 {[ "user_id" := 1; "exp" := 1700001800 ]}
                                 SECRET_KEY;
                       main.token_type := "bearer" |})
    by (vm_compute; reflexivity).
  assert (Ht : 1700001000000000 <= 1700000000250000 + minutes 30)
    by (vm_compute; discriminate).
  split; [exact users_ok_sample|]. split; [exact Hm|]. split; [exact Hl|].
  exact (login_then_current_user fastapi.answers_403 sample_db
           1700000000250000 1700001000000000
           (UserCreate.Build "a@x.com " "pw1") _ users_ok_sample Hm Hl Ht).
Defined.

(** X11. Who registers first is the administrator, and nobody else ever
    is: the id that a successful registration gives is 1 exactly when the
    store had no user, and only then do the administration routes answer
    the new user. *)
Theorem first_user_is_admin (db db' : DB) (now : datetime)
        (user_data : UserCreate.t) (u : User.t) :
  users_ok db ->
  main.register db now user_data = (Ok u, db') ->
  (User.id u = 1 <-> users db = [])
  /\ ((exists l, main.get_all_users db' u = Ok l) <-> users db = []).
Proof.
  intros (_ & _ & Hpos) Hreg. unfold main.register in Hreg.
  destruct (create_user_cases db now (UserCreate.email user_data)
              (UserCreate.password user_data))
    as [[_ E] | [(_ & v & _ & E) | (_ & _ & E)]];
    rewrite E in Hreg; cbn [mbind result_bind] in Hreg; try discriminate.
  injection Hreg as <- <-. cbn [User.id].
  assert (Hid : auto_id User.id (users db) = 1 <-> users db = []).
  { unfold auto_id. destruct (users db) as [|v l]; [cbn; tauto|].
    apply Forall_cons in Hpos as [Hv _]. cbn. split; [lia | discriminate]. }
  split; [exact Hid|]. unfold main.get_all_users. cbn [User.id].
  destruct (Z.eqb_spec (auto_id User.id (users db)) 1) as [H1|H1]; cbn [negb].
  - split; [intros _; apply Hid, H1 | eauto].
  - split; [intros [l Hl]; discriminate Hl | intros H; apply Hid in H; lia].
Qed.

Lemma first_user_is_admin_witness :
  users_ok empty_db
  /\ main.register empty_db 1700000000000000 (UserCreate.Build "a@x.com" "pw1")
     = (Ok alice, mkDB [alice] [] [] [] [] [])
  /\ (User.id alice = 1 <-> users empty_db = [])
  /\ ((exists l, main.get_all_users (mkDB [alice] [] [] [] [] []) alice = Ok l)
      <-> users empty_db = []).
Proof.
  assert (Hok : users_ok empty_db).
  { unfold users_ok, empty_db. cbn. repeat split; constructor. }
  assert (Hreg : main.register empty_db 1700000000000000
                   (UserCreate.Build "a@x.com" "pw1")
                 = (Ok alice, mkDB [alice] [] [] [] [] []))
    by (vm_compute; reflexivity).
  split; [exact Hok|]. split; [exact Hreg|].
  exact (first_user_is_admin _ _ _ _ _ Hok Hreg).
Defined.

(** X12. Registering an account leaves every other account as it was: a
    login with an email that, stripped, differs from the stripped email of
    the registration is answered after the registration as it was before. *)
Theorem register_leaves_other_logins (db : DB) (now T : datetime)
        (new other : UserCreate.t) :
  str_strip (UserCreate.email other) <> str_strip (UserCreate.email new) ->
  main.login (snd (main.register db now new)) T other = main.login db T other.
Proof.
  intros Hne. unfold main.register.
  destruct (create_user_cases db now (UserCreate.email new)
              (UserCreate.password new))
    as [[_ ->] | [(_ & v & _ & ->) | (_ & _ & ->)]];
    cbn [snd]; [reflexivity ..|].
  unfold main.login.
  destruct (String.eqb_spec (str_strip (UserCreate.email other)) "")
    as [Hb|Hnb].
  - unfold crud.authenticate_user, crud.get_user_by_email, User_get_email.
    rewrite (str_required_blank _ Hb). reflexivity.
  - rewrite !(authenticate_user_eq _ _ _ Hnb). cbn [users].
    rewrite find_snoc. cbn [User.email].
    destruct (List.find _ (users db)) as [v|]; [reflexivity|].
    apply not_eq_sym, String.eqb_neq in Hne. rewrite Hne. reflexivity.
Qed.

Lemma register_leaves_other_logins_witness :
  str_strip "a@x.com " <> str_strip "c@x.com"
  /\ main.login (snd (main.register sample_db 1700000200000000
                        (UserCreate.Build "c@x.com" "pw3")))
       1700000300000000 (UserCreate.Build "a@x.com " "pw1")
     = main.login sample_db 1700000300000000 (UserCreate.Build "a@x.com " "pw1").
Proof.
  assert (H : str_strip "a@x.com " <> str_strip "c@x.com")
    by (vm_compute; discriminate).
  split; [exact H|].
  exact (register_leaves_other_logins sample_db 1700000200000000
           1700000300000000 (UserCreate.Build "c@x.com" "pw3")
           (UserCreate.Build "a@x.com " "pw1") H).
Defined.

(** ** Books: who can read what *)

Lemma find_above {A : Type} (key : A -> Z) (rows : list A) :
  List.find (fun r => key r =? auto_id key rows) rows = None.
Proof.
  pose proof (auto_id_above key rows) as Hlt.
  generalize dependent (auto_id key rows). intros n Hlt.
  induction Hlt as [|r l Hr Hl IH]; [reflexivity|].
  cbn [List.find]. destruct (Z.eqb_spec (key r) n); [lia | exact IH].
Qed.

(** The next key of a table fits the key range as long as the table is not
    full. *)
Lemma auto_id_fits {A : Type} (key : A -> Z) (rows : list A) :
  auto_id key rows <= 2147483647 -> fits_int32 (auto_id key rows).
Proof.
  intros H. pose proof (auto_id_positive key rows). unfold fits_int32. lia.
Qed.

Lemma int32_optional_ok (year : option Z) :
  match year with Some y => fits_int32 y | None => True end ->
  pony.int32_optional year = Ok year.
Proof.
  destruct year as [y|]; [|reflexivity]. intros H. unfold pony.int32_optional.
  rewrite (int32_ok y H). reflexivity.
Qed.

(** X13. A book is its creator's alone. For a title that is not blank, a
    description that is given and a year that is absent or fits 32 bits,
    creating a book for a user with an author of the store stores it with
    that user as owner, the title and the description stripped; it is
    added to that user's listing and to nobody else's, and reading it by
    id answers the owner and refuses any other user with a 403 "Not your
    book". *)
Theorem created_book_is_private (db : DB) (now : datetime)
        (title description : string) (year : option Z) (author_id : Z)
        (current_user other : User.t) (a : Author.t) :
  not_blank title ->
  match year with Some y => fits_int32 y | None => True end ->
  Author_get_id db author_id = Ok (Some a) ->
  User_get_id db (User.id current_user) = Ok (Some current_user) ->
  auto_id Book.id (books db) <= 2147483647 ->
  User.id other <> User.id current_user ->
  exists (b : Book.t) (db' : DB),
    crud2.create_book db title author_id (User.id current_user)
                      (Some description) year
    = (Ok (Some b), db')
    /\ Book.owner b = current_user /\ Book.author b = a
    /\ Book.title b = str_strip title
    /\ Book.description b = Some (str_strip description)
    /\ crud2.get_user_books db' (User.id current_user)
       = crud2.get_user_books db (User.id current_user) ++ [b]
    /\ crud2.get_user_books db' (User.id other)
       = crud2.get_user_books db (User.id other)
    /\ main2.get_book db' now (Book.id b) current_user
       = Ok (main2.book_dict now b)
    /\ main2.get_book db' now (Book.id b) other
       = Raise (HTTPException 403 "Not your book" None).
Proof.
  intros Htitle Hyear Ha Ho Hfull Hne.
  set (b := Book.Build (auto_id Book.id (books db)) (str_strip title)
              (Some (str_strip description)) year a current_user).
  set (db' := mkDB (users db) (authors db) (books db ++ [b])
                   (comments db) (notes db) (files db)).
  assert (Hget : Book_get_id db' (Book.id b) = Ok (Some b)).
  { rewrite Book_get_id_ok by (apply auto_id_fits, Hfull).
    cbn [books db']. rewrite find_snoc.
    cbn [Book.id b]. rewrite find_above, Z.eqb_refl. reflexivity. }
  exists b, db'. repeat split.
  - unfold crud2.create_book, Book_new. rewrite Ha, Ho.
    cbn [mbind result_bind].
    rewrite (str_required_ok _ Htitle), (int32_optional_ok _ Hyear).
    reflexivity.
  - unfold crud2.get_user_books. cbn [books db']. rewrite List.filter_app.
    cbn [List.filter Book.owner b]. rewrite Z.eqb_refl. reflexivity.
  - unfold crud2.get_user_books. cbn [books db']. rewrite List.filter_app.
    cbn [List.filter Book.owner b].
    apply not_eq_sym, Z.eqb_neq in Hne. rewrite Hne. apply app_nil_r.
  - unfold main2.get_book, crud2.get_book. rewrite Hget.
    cbn [mbind result_bind Book.owner b]. rewrite Z.eqb_refl. reflexivity.
  - unfold main2.get_book, crud2.get_book. rewrite Hget.
    cbn [mbind result_bind Book.owner b].
    apply not_eq_sym, Z.eqb_neq in Hne. rewrite Hne. reflexivity.
Qed.

Lemma created_book_is_private_witness :
  not_blank "Resurrection "
  /\ fits_int32 1899
  /\ Author_get_id sample_db 1 = Ok (Some tolstoy)
  /\ User_get_id sample_db (User.id bob) = Ok (Some bob)
  /\ auto_id Book.id (books sample_db) <= 2147483647
  /\ User.id alice <> User.id bob
  /\ exists (b : Book.t) (db' : DB),
      crud2.create_book sample_db "Resurrection " 1 (User.id bob)
                        (Some "") (Some 1899)
      = (Ok (Some b), db')
      /\ Book.owner b = bob /\ Book.author b = tolstoy
      /\ Book.title b = str_strip "Resurrection "
      /\ Book.description b = Some (str_strip "")
      /\ crud2.get_user_books db' (User.id bob)
         = crud2.get_user_books sample_db (User.id bob) ++ [b]
      /\ crud2.get_user_books db' (User.id alice)
         = crud2.get_user_books sample_db (User.id alice)
      /\ main2.get_book db' 1700000400000000 (Book.id b) bob
         = Ok (main2.book_dict 1700000400000000 b)
      /\ main2.get_book db' 1700000400000000 (Book.id b) alice
         = Raise (HTTPException 403 "Not your book" None).
Proof.
  assert (H0 : not_blank "Resurrection ") by (vm_compute; discriminate).
  assert (Hy : fits_int32 1899) by (unfold fits_int32; lia).
  assert (H1 : Author_get_id sample_db 1 = Ok (Some tolstoy)) by reflexivity.
  assert (H2 : User_get_id sample_db (User.id bob) = Ok (Some bob))
    by reflexivity.
  assert (H3 : auto_id Book.id (books sample_db) <= 2147483647)
    by (vm_compute; discriminate).
  assert (H4 : User.id alice <> User.id bob) by discriminate.
  repeat (split; [assumption|]).
  exact (created_book_is_private sample_db 1700000400000000
           "Resurrection " "" (Some 1899) 1 bob alice tolstoy
           H0 Hy H1 H2 H3 H4).
Defined.

(** Without a description, with a blank title or with a year beyond 32
    bits the book is refused and nothing is stored. *)
Example create_book_refused :
  crud2.create_book sample_db "Resurrection" 1 2 None (Some 1899)
  = (Raise ValueError, sample_db)
  /\ crud2.create_book sample_db "  " 1 2 (Some "") (Some 1899)
     = (Raise ValueError, sample_db)
  /\ crud2.create_book sample_db "Resurrection" 1 2 (Some "") (Some 2147483648)
     = (Raise ValueError, sample_db).
Proof. repeat split; vm_compute; reflexivity. Qed.

(** ** Sorting *)

Section sorting_facts.
Context {A K : Type} (ltb : K -> K -> bool) (key : A -> K).
Hypothesis ltb_asym : forall a b : K, ltb a b = true -> ltb b a = false.

Let le (x y : A) : Prop := ltb (key y) (key x) = false.

Lemma insert_sorted_perm (x : A) (l : list A) :
  Permutation (insert_sorted ltb key x l) (x :: l).
Proof.
  induction l as [|y l IH]; cbn [insert_sorted]; [reflexivity|].
  destruct (ltb (key y) (key x)); [|reflexivity].
  rewrite IH. apply perm_swap.
Qed.

Lemma stable_sort_perm (l : list A) : Permutation (stable_sort ltb key l) l.
Proof.
  induction l as [|x l IH]; cbn [stable_sort]; [reflexivity|].
  rewrite insert_sorted_perm. now constructor.
Qed.

Lemma list_sort_perm (reverse : bool) (l : list A) :
  Permutation (list_sort ltb key reverse l) l.
Proof.
  unfold list_sort. destruct reverse; [|apply stable_sort_perm].
  rewrite <- Permutation_rev, stable_sort_perm. symmetry. apply Permutation_rev.
Qed.

Lemma insert_sorted_Sorted (x : A) (l : list A) :
  Sorted le l -> Sorted le (insert_sorted ltb key x l).
Proof.
  induction 1 as [|y l Hl IH Hhd]; cbn [insert_sorted].
  - repeat constructor.
  - destruct (ltb (key y) (key x)) eqn:E.
    + constructor; [exact IH|].
      destruct Hhd as [|z l Hz]; cbn [insert_sorted].
      * constructor. apply ltb_asym, E.
      * destruct (ltb (key z) (key x)); constructor;
          [exact Hz | apply ltb_asym, E].
    + constructor; [constructor; assumption|]. constructor. exact E.
Qed.

Lemma stable_sort_Sorted (l : list A) : Sorted le (stable_sort ltb key l).
Proof.
  induction l as [|x l IH]; cbn [stable_sort]; [constructor|].
  apply insert_sorted_Sorted, IH.
Qed.

(** Inserting an element does not disturb the elements selected by a test
    under which the inserted one is not below any other. *)
Lemma filter_insert_sorted (q : A -> bool) (x : A) (l : list A) :
  (forall y, q x = true -> q y = true -> ltb (key y) (key x) = false) ->
  List.filter q (insert_sorted ltb key x l)
  = if q x then x :: List.filter q l else List.filter q l.
Proof.
  intros Hq. induction l as [|y l IH]; cbn [insert_sorted List.filter];
    [reflexivity|].
  destruct (ltb (key y) (key x)) eqn:E; cbn [List.filter]; [|reflexivity].
  rewrite IH. destruct (q x) eqn:Ex, (q y) eqn:Ey; try reflexivity.
  rewrite (Hq y eq_refl Ey) in E. discriminate.
Qed.

Lemma filter_list_sort (q : A -> bool) (reverse : bool) (l : list A) :
  (forall x y, q x = true -> q y = true -> ltb (key y) (key x) = false) ->
  List.filter q (list_sort ltb key reverse l) = List.filter q l.
Proof.
  intros Hq.
  assert (Hs : forall l', List.filter q (stable_sort ltb key l')
                          = List.filter q l').
  { induction l' as [|x l' IH]; cbn [stable_sort]; [reflexivity|].
    rewrite filter_insert_sorted by (intros y; apply Hq). rewrite IH.
    reflexivity. }
  unfold list_sort. destruct reverse; [|apply Hs].
  rewrite List.filter_rev, Hs, List.filter_rev. apply rev_involutive.
Qed.

End sorting_facts.

Lemma Sorted_snoc {A : Type} (R : A -> A -> Prop) (l : list A) (x : A) :
  Sorted R l -> (forall y, last l = Some y -> R y x) -> Sorted R (l ++ [x]).
Proof.
  induction 1 as [|a l Hl IH Hhd]; intros Hlast; cbn [app].
  - repeat constructor.
  - constructor.
    + apply IH. intros y Hy. apply Hlast.
      destruct l; [discriminate Hy | exact Hy].
    + destruct Hhd as [|b l Hb]; cbn [app]; constructor; [|exact Hb].
      apply Hlast. reflexivity.
Qed.

Lemma Sorted_rev {A : Type} (R : A -> A -> Prop) (l : list A) :
  Sorted R l -> Sorted (flip R) (rev l).
Proof.
  induction 1 as [|a l Hl IH Hhd]; cbn [rev]; [constructor|].
  apply Sorted_snoc; [exact IH|]. intros y Hy.
  destruct Hhd as [|b l Hb]; [discriminate Hy|].
  cbn [rev] in Hy. rewrite last_snoc in Hy. injection Hy as <-. exact Hb.
Qed.

Lemma list_sort_Sorted {A K : Type} (ltb : K -> K -> bool) (key : A -> K)
      (reverse : bool) (l : list A) :
  (forall a b : K, ltb a b = true -> ltb b a = false) ->
  let le := fun x y : A => ltb (key y) (key x) = false in
  Sorted (if reverse then flip le else le) (list_sort ltb key reverse l).
Proof.
  intros Hasym le. unfold list_sort. destruct reverse.
  - apply Sorted_rev, stable_sort_Sorted, Hasym.
  - apply stable_sort_Sorted, Hasym.
Qed.

Lemma string_compare_refl (s : string) : String.compare s s = Eq.
Proof.
  pose proof (String.compare_antisym s s) as H.
  destruct (String.compare s s); [reflexivity | discriminate H ..].
Qed.

Lemma string_ltb_asym (a b : string) :
  String.ltb a b = true -> String.ltb b a = false.
Proof.
  unfold String.ltb. rewrite (String.compare_antisym b a).
  destruct (String.compare a b); cbn; congruence.
Qed.

Lemma string_ltb_irrefl (a : string) : String.ltb a a = false.
Proof. unfold String.ltb. now rewrite string_compare_refl. Qed.

Lemma Z_ltb_asym (a b : Z) : (a <? b) = true -> (b <? a) = false.
Proof. intros H. apply Z.ltb_lt in H. apply Z.ltb_ge. lia. Qed.

(** ** Filtered book listings *)

Lemma filter_filter {A : Type} (f g : A -> bool) (l : list A) :
  List.filter f (List.filter g l) = List.filter (fun x => g x && f x) l.
Proof.
  induction l as [|x l IH]; cbn [List.filter]; [reflexivity|].
  destruct (g x); cbn [List.filter andb]; rewrite IH; reflexivity.
Qed.

Lemma filter_if {A : Type} (c : bool) (f : A -> bool) (l : list A) :
  (if c then List.filter f l else l) = List.filter (fun x => negb c || f x) l.
Proof.
  destruct c; cbn [negb orb]; [reflexivity|].
  induction l as [|x l IH]; cbn [List.filter]; congruence.
Qed.

(** The filters of [get_books_filtered], applied one after the other, keep
    the books that [wanted] describes. *)
Lemma filters_eq (str_lower : string -> string) (current_user : User.t)
      (author_name : option string) (year_from year_to : option Z)
      (all_books : list Book.t) :
  let books :=
    List.filter (fun b => User.id (Book.owner b) =? User.id current_user)
                all_books in
  let books :=
    match author_name with
    | Some name =>
        if truthy_str author_name
        then List.filter
               (fun b => String.eqb (str_lower (Author.name (Book.author b)))
                                    (str_lower name)) books
        else books
    | None => books
    end in
  let books :=
    match year_from with
    | Some from =>
        if truthy_int year_from
        then List.filter
               (fun b => match Book.year b with
                         | Some y => truthy_int (Some y) && (y >=? from)
                         | None => false
                         end) books
        else books
    | None => books
    end in
  let books :=
    match year_to with
    | Some to =>
        if truthy_int year_to
        then List.filter
               (fun b => match Book.year b with
                         | Some y => truthy_int (Some y) && (y <=? to)
                         | None => false
                         end) books
        else books
    | None => books
    end in
  books = List.filter (wanted str_lower current_user author_name
                              year_from year_to) all_books.
Proof.
  cbv zeta.
  destruct author_name as [name|], year_from as [from|], year_to as [to|];
    rewrite ?filter_if;
    repeat match goal with
           | |- List.filter _ (List.filter _ _) = _ => rewrite filter_filter
           | |- context [List.filter ?f (List.filter ?g ?l)] =>
               rewrite (filter_filter f g l)
           end;
    apply List.filter_ext; intros b; unfold wanted;
    cbn [truthy_str truthy_int];
    destruct (Book.year b); rewrite ?Z.geb_leb;
    repeat match goal with
           | |- context [String.eqb ?a ?b] => destruct (String.eqb a b)
           | |- context [Z.eqb ?a ?b] => destruct (Z.eqb a b)
           | |- context [Z.leb ?a ?b] => destruct (Z.leb a b)
           end; reflexivity.
Qed.

Lemma select_books_eq (str_lower : string -> string) (db : DB)
      (current_user : User.t) (author_name : option string)
      (year_from year_to : option Z) (sort_by sort_order : option string) :
  main2.select_books str_lower db current_user author_name year_from year_to
                     sort_by sort_order
  = let books := List.filter (wanted str_lower current_user author_name
                                     year_from year_to) (books db) in
    let reverse := bool_decide (sort_order = Some "desc") in
    if bool_decide (sort_by = Some "title")
    then list_sort String.ltb Book.title reverse books
    else if bool_decide (sort_by = Some "year")
    then list_sort Z.ltb year_or_0 reverse books
    else if bool_decide (sort_by = Some "author")
    then list_sort String.ltb (fun x => Author.name (Book.author x)) reverse books
    else books.
Proof.
  pose proof (filters_eq str_lower current_user author_name year_from year_to
                (books db)) as H.
  cbv zeta in H. unfold main2.select_books. cbv zeta. rewrite H. reflexivity.
Qed.

Lemma Sorted_weaken {A : Type} (R R' : A -> A -> Prop) (l : list A) :
  (forall a b, R a b -> R' a b) -> Sorted R l -> Sorted R' l.
Proof.
  intros HR. induction 1 as [|a l Hl IH Hhd]; constructor; [exact IH|].
  destruct Hhd; constructor. auto.
Qed.

Lemma Sorted_trivial {A : Type} (R : A -> A -> Prop) (l : list A) :
  (forall a b, R a b) -> Sorted R l.
Proof.
  intros HR. induction l as [|a l IH]; constructor; [exact IH|].
  destruct l; constructor. apply HR.
Qed.

(** X14. A filtered listing holds exactly the books of the caller that
    pass the filters given, each once: nothing of another user, nothing
    left out, nothing twice, whatever the sort. A bound or a name that is
    [None], [0] or empty is no filter; a book without a year, or with year
    [0], passes no year filter. *)
Theorem select_books_complete (str_lower : string -> string) (db : DB)
        (current_user : User.t) (author_name : option string)
        (year_from year_to : option Z) (sort_by sort_order : option string) :
  Permutation
    (main2.select_books str_lower db current_user author_name year_from
                        year_to sort_by sort_order)
    (List.filter (wanted str_lower current_user author_name year_from year_to)
                 (books db)).
Proof.
  rewrite select_books_eq. cbv zeta.
  repeat case_bool_decide; try apply list_sort_perm; reflexivity.
Qed.

(** X15. A filtered listing comes in the order asked for: by title, by
    year (a missing year counting as 0) or by author name, ascending, or
    descending when the order is "desc"; with any other [sort_by] it comes
    in the order of the store. *)
Theorem select_books_sorted (str_lower : string -> string) (db : DB)
        (current_user : User.t) (author_name : option string)
        (year_from year_to : option Z) (sort_by sort_order : option string) :
  Sorted (if bool_decide (sort_order = Some "desc")
          then flip (may_precede sort_by) else may_precede sort_by)
         (main2.select_books str_lower db current_user author_name year_from
                             year_to sort_by sort_order)
  /\ (sort_by <> Some "title" -> sort_by <> Some "year" ->
      sort_by <> Some "author" ->
      main2.select_books str_lower db current_user author_name year_from
                         year_to sort_by sort_order
      = List.filter (wanted str_lower current_user author_name year_from
                            year_to) (books db)).
Proof.
  rewrite select_books_eq. cbv zeta. unfold may_precede.
  set (reverse := bool_decide (sort_order = Some "desc")).
  set (l := List.filter _ (books db)).
  case_bool_decide as Ht; [|case_bool_decide as Hy; [|case_bool_decide as Ha]].
  - split; [|intros H; contradiction].
    pose proof (list_sort_Sorted String.ltb Book.title reverse l
                  string_ltb_asym) as H.
    cbv zeta in H. destruct reverse; exact H.
  - split; [|intros _ H; contradiction].
    pose proof (list_sort_Sorted Z.ltb year_or_0 reverse l Z_ltb_asym) as H.
    cbv zeta in H. destruct reverse.
    + eapply Sorted_weaken; [|exact H]. intros a b. unfold flip.
      intros Hab. apply Z.ltb_ge in Hab. exact Hab.
    + eapply Sorted_weaken; [|exact H]. intros a b Hab.
      apply Z.ltb_ge in Hab. exact Hab.
  - split; [|intros _ _ H; contradiction].
    pose proof (list_sort_Sorted String.ltb
                  (fun x => Author.name (Book.author x)) reverse l
                  string_ltb_asym) as H.
    cbv zeta in H. destruct reverse; exact H.
  - split; [|reflexivity].
    apply Sorted_trivial. destruct reverse; unfold flip; auto.
Qed.

(** A listing of the books of alice sorted by year, one without a year
    first, and the same with a [sort_by] that is none of the three. *)
Lemma select_books_sorted_witness :
  Some "genre" <> Some "title" /\ Some "genre" <> Some "year"
  /\ Some "genre" <> Some "author"
  /\ Sorted (may_precede (Some "year"))
            (main2.select_books fastapi.lower library_db alice None None None
                                (Some "year") (Some "asc"))
  /\ main2.select_books fastapi.lower library_db alice None None None
                        (Some "genre") (Some "desc")
     = List.filter (wanted fastapi.lower alice None None None)
                   (books library_db).
Proof.
  assert (H1 : Some "genre" <> Some "title") by discriminate.
  assert (H2 : Some "genre" <> Some "year") by discriminate.
  assert (H3 : Some "genre" <> Some "author") by discriminate.
  repeat (split; [assumption|]).
  split.
  - exact (proj1 (select_books_sorted fastapi.lower library_db alice
                    None None None (Some "year") (Some "asc"))).
  - exact (proj2 (select_books_sorted fastapi.lower library_db alice
                    None None None (Some "genre") (Some "desc")) H1 H2 H3).
Defined.

(** X16. Sorting keeps ties in store order, in both directions: the books
    of a listing that share their sort key with a given book come in the
    order in which the store holds them, also when the order is "desc". *)
Theorem select_books_stable (str_lower : string -> string) (db : DB)
        (current_user : User.t) (author_name : option string)
        (year_from year_to : option Z) (sort_by sort_order : option string)
        (b0 : Book.t) :
  List.filter (ties sort_by b0)
    (main2.select_books str_lower db current_user author_name year_from
                        year_to sort_by sort_order)
  = List.filter (ties sort_by b0)
      (List.filter (wanted str_lower current_user author_name year_from year_to)
                   (books db)).
Proof.
  rewrite select_books_eq. cbv zeta. unfold ties.
  case_bool_decide as Ht; [|case_bool_decide as Hy; [|case_bool_decide as Ha]];
    [..|reflexivity]; apply filter_list_sort; intros x y Hx Hy'.
  - apply String.eqb_eq in Hx, Hy'. rewrite Hx, Hy'. apply string_ltb_irrefl.
  - apply Z.eqb_eq in Hx, Hy'. rewrite Hx, Hy'. apply Z.ltb_irrefl.
  - apply String.eqb_eq in Hx, Hy'. rewrite Hx, Hy'. apply string_ltb_irrefl.
Qed.

Example select_books_desc :
  map Book.id
      (main2.select_books fastapi.lower library_db alice (Some "LEO TOLSTOY")
                          None None (Some "title") (Some "desc"))
  = [1; 3; 2]
  /\ map Book.id
         (main2.select_books fastapi.lower library_db alice None
                             (Some 1870) (Some 0) (Some "year") None)
     = [2].
Proof. vm_compute. split; reflexivity. Qed.

(** ** Comments, notes and authors *)

(** X17. Comments are shared: any user of the store can comment on any
    book, whoever owns it, with a text that is not blank; the comment,
    with its text stripped, is added at the end of that book's comments,
    which every user gets to read, and the comments of the other books
    stay as they were. *)
Theorem comments_are_shared (db : DB) (now : datetime)
        (comment_data : CommentCreate.t) (current_user reader : User.t)
        (b : Book.t) :
  not_blank (CommentCreate.text comment_data) ->
  Book_get_id db (CommentCreate.book_id comment_data) = Ok (Some b) ->
  User_get_id db (User.id current_user) = Ok (Some current_user) ->
  exists (c : Comment.t) (db' : DB),
    main.create_comment db now comment_data current_user
    = (Ok (main2.comment_dict c), db')
    /\ Comment.user c = current_user /\ Comment.book c = b
    /\ Comment.text c = str_strip (CommentCreate.text comment_data)
    /\ main2.get_book_comments db' (Book.id b) reader
       = Ok (map main2.comment_dict
                 (crud2.get_book_comments db (Book.id b) ++ [c]))
    /\ forall other : Z,
        other <> Book.id b ->
        main2.get_book_comments db' other reader
        = main2.get_book_comments db other reader.
Proof.
  intros Htext Hb Hu.
  set (c := Comment.Build (auto_id Comment.id (comments db))
              (str_strip (CommentCreate.text comment_data)) now current_user b).
  set (db' := mkDB (users db) (authors db) (books db) (comments db ++ [c])
                   (notes db) (files db)).
  exists c, db'. repeat split.
  - unfold main.create_comment, crud.create_comment, Comment_new.
    rewrite Hb, Hu. cbn [mbind result_bind].
    rewrite (str_required_ok _ Htext). reflexivity.
  - unfold main2.get_book_comments, crud2.get_book_comments.
    cbn [comments db']. rewrite List.filter_app.
    cbn [List.filter Comment.book c]. rewrite Z.eqb_refl. reflexivity.
  - intros other Hne.
    unfold main2.get_book_comments, crud2.get_book_comments.
    cbn [comments db']. rewrite List.filter_app.
    cbn [List.filter Comment.book c].
    apply not_eq_sym, Z.eqb_neq in Hne. rewrite Hne, app_nil_r. reflexivity.
Qed.

Lemma comments_are_shared_witness :
  not_blank " great"
  /\ Book_get_id sample_db 1 = Ok (Some war_and_peace)
  /\ User_get_id sample_db (User.id bob) = Ok (Some bob)
  /\ exists (c : Comment.t) (db' : DB),
      main.create_comment sample_db 1700000500000000
        (CommentCreate.Build " great" 1) bob
      = (Ok (main2.comment_dict c), db')
      /\ Comment.user c = bob /\ Comment.book c = war_and_peace
      /\ Comment.text c = str_strip " great"
      /\ main2.get_book_comments db' (Book.id war_and_peace) alice
         = Ok (map main2.comment_dict
                   (crud2.get_book_comments sample_db (Book.id war_and_peace)
                    ++ [c]))
      /\ forall other : Z,
          other <> Book.id war_and_peace ->
          main2.get_book_comments db' other alice
          = main2.get_book_comments sample_db other alice.
Proof.
  assert (H0 : not_blank " great") by (vm_compute; discriminate).
  assert (H1 : Book_get_id sample_db 1 = Ok (Some war_and_peace))
    by reflexivity.
  assert (H2 : User_get_id sample_db (User.id bob) = Ok (Some bob))
    by reflexivity.
  split; [exact H0|]. split; [exact H1|]. split; [exact H2|].
  exact (comments_are_shared sample_db 1700000500000000
           (CommentCreate.Build " great" 1) bob alice war_and_peace H0 H1 H2).
Defined.

(** A blank comment is refused and stores nothing. *)
Example create_comment_blank :
  main.create_comment sample_db 1700000500000000 (CommentCreate.Build " " 1) bob
  = (Raise ValueError, sample_db).
Proof. vm_compute. reflexivity. Qed.

(** X18. Notes are kept per user: a note with a text that is not blank,
    taken by a user on a book of the store, is added with its text
    stripped at the end of that user's notes, and the notes of every other
    user stay as they were. *)
Theorem notes_are_per_user (db : DB) (now : datetime) (text : string)
        (book_id : Z) (current_user : User.t) (other : Z) (b : Book.t) :
  not_blank text ->
  Book_get_id db book_id = Ok (Some b) ->
  User_get_id db (User.id current_user) = Ok (Some current_user) ->
  other <> User.id current_user ->
  exists (n : Note.t) (db' : DB),
    crud.create_note db now text book_id (User.id current_user)
    = (Ok (Some n), db')
    /\ Note.user n = current_user /\ Note.book n = b
    /\ Note.text n = str_strip text
    /\ crud2.get_user_notes db' (User.id current_user)
       = crud2.get_user_notes db (User.id current_user) ++ [n]
    /\ crud2.get_user_notes db' other = crud2.get_user_notes db other.
Proof.
  intros Htext Hb Hu Hne.
  set (n := Note.Build (auto_id Note.id (notes db)) (str_strip text) now
                       current_user b).
  set (db' := mkDB (users db) (authors db) (books db) (comments db)
                   (notes db ++ [n]) (files db)).
  exists n, db'. repeat split.
  - unfold crud.create_note, Note_new. rewrite Hb, Hu. cbn [mbind result_bind].
    rewrite (str_required_ok _ Htext). reflexivity.
  - unfold crud2.get_user_notes. cbn [notes db']. rewrite List.filter_app.
    cbn [List.filter Note.user n]. rewrite Z.eqb_refl. reflexivity.
  - unfold crud2.get_user_notes. cbn [notes db']. rewrite List.filter_app.
    cbn [List.filter Note.user n].
    apply not_eq_sym, Z.eqb_neq in Hne. rewrite Hne. apply app_nil_r.
Qed.

Lemma notes_are_per_user_witness :
  not_blank "reread "
  /\ Book_get_id sample_db 1 = Ok (Some war_and_peace)
  /\ User_get_id sample_db (User.id bob) = Ok (Some bob)
  /\ User.id alice <> User.id bob
  /\ exists (n : Note.t) (db' : DB),
      crud.create_note sample_db 1700000500000000 "reread " 1 (User.id bob)
      = (Ok (Some n), db')
      /\ Note.user n = bob /\ Note.book n = war_and_peace
      /\ Note.text n = str_strip "reread "
      /\ crud2.get_user_notes db' (User.id bob)
         = crud2.get_user_notes sample_db (User.id bob) ++ [n]
      /\ crud2.get_user_notes db' (User.id alice)
         = crud2.get_user_notes sample_db (User.id alice).
Proof.
  assert (H0 : not_blank "reread ") by (vm_compute; discriminate).
  assert (H1 : Book_get_id sample_db 1 = Ok (Some war_and_peace))
    by reflexivity.
  assert (H2 : User_get_id sample_db (User.id bob) = Ok (Some bob))
    by reflexivity.
  assert (H3 : User.id alice <> User.id bob) by discriminate.
  split; [exact H0|]. split; [exact H1|]. split; [exact H2|].
  split; [exact H3|].
  exact (notes_are_per_user sample_db 1700000500000000 "reread " 1 bob
           (User.id alice) war_and_peace H0 H1 H2 H3).
Defined.

(** What [create_author] stores when it succeeds. *)
Lemma create_author_ok (db db' : DB) (name : string) (bio : option string)
      (a : Author.t) :
  crud2.create_author db name bio = (Ok a, db') ->
  not_blank name
  /\ (exists s : string, bio = Some s /\ Author.bio a = Some (str_strip s))
  /\ Author.name a = str_strip name
  /\ Author.id a = auto_id Author.id (authors db)
  /\ db' = mkDB (users db) (authors db ++ [a]) (books db) (comments db)
                (notes db) (files db).
Proof.
  unfold crud2.create_author, Author_new, pony.str_required, pony.str_optional.
  destruct (String.eqb_spec (str_strip name) "") as [Hb|Hnb];
    cbn [mbind result_bind pony.db_session]; [discriminate|].
  destruct bio as [s|]; cbn [mbind result_bind pony.db_session];
    [|discriminate].
  intros [= <- <-]. repeat split; eauto.
Qed.

(** X19. An author created with a name that is not blank and with a bio
    can be fetched by the id it was given, name and bio stripped; the
    other ids answer as before, so an id that named no author still
    raises the 404 "Author not found". Without a bio the author is
    refused. *)
Theorem author_round_trip (db : DB) (name bio : string) (reader : User.t) :
  not_blank name ->
  auto_id Author.id (authors db) <= 2147483647 ->
  (exists (a : Author.t) (db' : DB),
     crud2.create_author db name (Some bio) = (Ok a, db')
     /\ Author.name a = str_strip name
     /\ Author.bio a = Some (str_strip bio)
     /\ main2.get_author db' (Author.id a) reader = Ok a
     /\ forall i : Z,
         i <> Author.id a ->
         main2.get_author db' i reader = main2.get_author db i reader)
  /\ crud2.create_author db name None = (Raise ValueError, db).
Proof.
  intros Hname Hfull. split.
  - set (a := Author.Build (auto_id Author.id (authors db)) (str_strip name)
                (Some (str_strip bio))).
    set (db' := mkDB (users db) (authors db ++ [a]) (books db) (comments db)
                     (notes db) (files db)).
    exists a, db'. repeat split.
    + unfold crud2.create_author, Author_new.
      rewrite (str_required_ok _ Hname). reflexivity.
    + unfold main2.get_author, crud2.get_author, Author_get_id.
      rewrite int32_ok by (apply auto_id_fits, Hfull).
      cbn [mbind result_bind authors db']. rewrite find_snoc.
      cbn [Author.id a]. rewrite find_above, Z.eqb_refl. reflexivity.
    + intros i Hi.
      unfold main2.get_author, crud2.get_author, Author_get_id.
      destruct (pony.int32 i) as [i'|e] eqn:Hint; [|reflexivity].
      assert (i' = i) as ->.
      { unfold pony.int32 in Hint.
        destruct ((i <? pony.min_int) || (pony.max_int <? i));
          [discriminate | congruence]. }
      cbn [mbind result_bind authors db']. rewrite find_snoc.
      destruct (List.find _ (authors db)); [reflexivity|].
      apply not_eq_sym, Z.eqb_neq in Hi. cbn [Author.id a] in *.
      rewrite Hi. reflexivity.
  - unfold crud2.create_author, Author_new.
    rewrite (str_required_ok _ Hname). reflexivity.
Qed.

Lemma author_round_trip_witness :
  not_blank " Anton Chekhov"
  /\ auto_id Author.id (authors sample_db) <= 2147483647
  /\ (exists (a : Author.t) (db' : DB),
        crud2.create_author sample_db " Anton Chekhov" (Some "") = (Ok a, db')
        /\ Author.name a = str_strip " Anton Chekhov"
        /\ Author.bio a = Some (str_strip "")
        /\ main2.get_author db' (Author.id a) bob = Ok a
        /\ forall i : Z,
            i <> Author.id a ->
            main2.get_author db' i bob = main2.get_author sample_db i bob)
  /\ crud2.create_author sample_db " Anton Chekhov" None
     = (Raise ValueError, sample_db).
Proof.
  assert (H1 : not_blank " Anton Chekhov") by (vm_compute; discriminate).
  assert (H2 : auto_id Author.id (authors sample_db) <= 2147483647)
    by (vm_compute; discriminate).
  split; [exact H1|]. split; [exact H2|].
  exact (author_round_trip sample_db " Anton Chekhov" "" bob H1 H2).
Defined.

(** ** The cache *)

(** X20. The two dictionaries of a cache always have the same keys, and
    so a lookup never fails on a missing key: a new cache is consistent,
    [set] and [get] keep it so, and on a consistent cache [get] returns. *)
Theorem cache_stays_consistent {V : Type} (c : SimpleCache.t V)
        (now : datetime) (key : string) (value : V) :
  cache_ok (SimpleCache.init : SimpleCache.t V)
  /\ (cache_ok c ->
      cache_ok (SimpleCache.set c now key value)
      /\ cache_ok (snd (SimpleCache.get c now key))
      /\ exists r, fst (SimpleCache.get c now key) = SimpleCache.Returns r).
Proof.
  split.
  - intros k. cbn [SimpleCache.init SimpleCache._cache SimpleCache._timestamps].
    rewrite !lookup_empty. split; intros [x Hx]; discriminate Hx.
  - intros Hok. split; [|split].
    + intros k. cbn [SimpleCache.set SimpleCache._cache SimpleCache._timestamps].
      rewrite !lookup_insert. case_decide; [split; eauto | apply Hok].
    + unfold SimpleCache.get.
      destruct (SimpleCache._cache c !! key) as [v|] eqn:Hc; [|exact Hok].
      destruct (SimpleCache._timestamps c !! key) as [stamp|] eqn:Ht;
        [|exact Hok].
      destruct (now - stamp <? minutes 5); cbn [snd]; [exact Hok|].
      intros k. cbn [SimpleCache._cache SimpleCache._timestamps].
      rewrite !lookup_delete. case_decide; [|apply Hok].
      split; intros [x Hx]; discriminate Hx.
    + unfold SimpleCache.get.
      destruct (SimpleCache._cache c !! key) as [v|] eqn:Hc; [|eauto].
      destruct (proj1 (Hok key) (ex_intro _ v Hc)) as [stamp Ht]. rewrite Ht.
      destruct (now - stamp <? minutes 5); eauto.
Qed.

Lemma cache_stays_consistent_witness :
  cache_ok (SimpleCache.init : SimpleCache.t Z)
  /\ cache_ok (SimpleCache.set SimpleCache.init 1700000000000000 "k" 5)
  /\ cache_ok (snd (SimpleCache.get (SimpleCache.init : SimpleCache.t Z)
                      1700000000000000 "k"))
  /\ exists r, fst (SimpleCache.get (SimpleCache.init : SimpleCache.t Z)
                      1700000000000000 "k")
               = SimpleCache.Returns r.
Proof.
  destruct (cache_stays_consistent (SimpleCache.init : SimpleCache.t Z)
              1700000000000000 "k" 5) as [Hinit Hstep].
  split; [exact Hinit|]. exact (Hstep Hinit).
Defined.

Lemma get_set_eq {V : Type} (c : SimpleCache.t V) (t now : datetime)
      (key : string) (value : V) :
  SimpleCache.get (SimpleCache.set c t key value) now key
  = if now - t <? minutes 5
    then (SimpleCache.Returns (Some value), SimpleCache.set c t key value)
    else (SimpleCache.Returns None,
          SimpleCache.Build
            (delete key (<[key := value]> (SimpleCache._cache c)))
            (delete key (<[key := t]> (SimpleCache._timestamps c)))).
Proof.
  unfold SimpleCache.get.
  cbn [SimpleCache.set SimpleCache._cache SimpleCache._timestamps].
  rewrite !lookup_insert_eq. reflexivity.
Qed.

(** X21. A value that is set is served for five minutes and not after:
    within five minutes of [set], [get] returns the value and leaves the
    cache alone; from five minutes on it returns nothing and removes the
    entry, so that later lookups find nothing whatever the clock reads. *)
Theorem cache_get_after_set {V : Type} (c : SimpleCache.t V)
        (t now : datetime) (key : string) (value : V) :
  (now - t < minutes 5 ->
   SimpleCache.get (SimpleCache.set c t key value) now key
   = (SimpleCache.Returns (Some value), SimpleCache.set c t key value))
  /\ (minutes 5 <= now - t ->
      fst (SimpleCache.get (SimpleCache.set c t key value) now key)
      = SimpleCache.Returns None
      /\ forall now' : datetime,
          SimpleCache.get
            (snd (SimpleCache.get (SimpleCache.set c t key value) now key))
            now' key
          = (SimpleCache.Returns None,
             snd (SimpleCache.get (SimpleCache.set c t key value) now key))).
Proof.
  rewrite get_set_eq. split; intros H.
  - destruct (Z.ltb_spec (now - t) (minutes 5)); [reflexivity | lia].
  - destruct (Z.ltb_spec (now - t) (minutes 5)); [lia|]. cbn [fst snd].
    split; [reflexivity|]. intros now'. unfold SimpleCache.get.
    cbn [SimpleCache._cache]. rewrite lookup_delete_eq. reflexivity.
Qed.

Lemma cache_get_after_set_witness :
  1700000299999999 - 1700000000000000 < minutes 5
  /\ SimpleCache.get (SimpleCache.set SimpleCache.init 1700000000000000 "k" 5)
                     1700000299999999 "k"
     = (SimpleCache.Returns (Some 5),
        SimpleCache.set SimpleCache.init 1700000000000000 "k" 5)
  /\ minutes 5 <= 1700000300000000 - 1700000000000000
  /\ fst (SimpleCache.get
            (SimpleCache.set SimpleCache.init 1700000000000000 "k" 5)
            1700000300000000 "k")
     = SimpleCache.Returns None.
Proof.
  assert (H1 : 1700000299999999 - 1700000000000000 < minutes 5)
    by (vm_compute; reflexivity).
  assert (H2 : minutes 5 <= 1700000300000000 - 1700000000000000)
    by (vm_compute; discriminate).
  split; [exact H1|]. split.
  - exact (proj1 (cache_get_after_set (SimpleCache.init : SimpleCache.t Z)
                    1700000000000000 1700000299999999 "k" 5) H1).
  - split; [exact H2|].
    exact (proj1 (proj2 (cache_get_after_set
                           (SimpleCache.init : SimpleCache.t Z)
                           1700000000000000 1700000300000000 "k" 5) H2)).
Defined.

(** What a first call on a cache without an author entry does: it reads
    the store and caches what it read. *)
Lemma authors_cached_miss (db : DB) (c : SimpleCache.t (list Author.t))
      (now now' : datetime) :
  SimpleCache._cache c !! "all_authors" = None ->
  get_all_authors_cached db c now now'
  = (SimpleCache.Returns (authors db),
     SimpleCache.set c now' "all_authors" (authors db)).
Proof.
  intros Hc. unfold get_all_authors_cached, SimpleCache.get. rewrite Hc.
  reflexivity.
Qed.

(** What a call does on a cache that holds a list set at [t]. *)
Lemma authors_cached_after_set (db : DB) (c : SimpleCache.t (list Author.t))
      (t now now' : datetime) (l : list Author.t) :
  fst (get_all_authors_cached db (SimpleCache.set c t "all_authors" l) now now')
  = SimpleCache.Returns
      (if now - t <? minutes 5
       then match l with [] => authors db | _ :: _ => l end
       else authors db).
Proof.
  unfold get_all_authors_cached. rewrite get_set_eq.
  destruct (now - t <? minutes 5); [destruct l|]; reflexivity.
Qed.

(** X22. The cached author list can be out of date for up to five
    minutes: once a call has cached a list that is not empty, an author
    created afterwards is missing from what the next call returns if that
    call comes within five minutes, and is there if it comes later. *)
Theorem cached_authors_go_stale (db db' : DB)
        (c : SimpleCache.t (list Author.t))
        (t0 t0' t1 t1' : datetime) (name : string) (bio : option string)
        (a : Author.t) :
  SimpleCache._cache c !! "all_authors" = None ->
  authors db <> [] ->
  crud2.create_author db name bio = (Ok a, db') ->
  (t1 - t0' < minutes 5 ->
   fst (get_all_authors_cached db'
          (snd (get_all_authors_cached db c t0 t0')) t1 t1')
   = SimpleCache.Returns (authors db))
  /\ (minutes 5 <= t1 - t0' ->
      fst (get_all_authors_cached db'
             (snd (get_all_authors_cached db c t0 t0')) t1 t1')
      = SimpleCache.Returns (authors db ++ [a])).
Proof.
  intros Hc Hne Hcreate.
  destruct (create_author_ok _ _ _ _ _ Hcreate) as (_ & _ & _ & _ & ->).
  rewrite (authors_cached_miss db c t0 t0' Hc). cbn [snd].
  rewrite authors_cached_after_set. cbn [authors].
  split; intros H.
  - destruct (Z.ltb_spec (t1 - t0') (minutes 5)); [|lia].
    destruct (authors db); [congruence | reflexivity].
  - destruct (Z.ltb_spec (t1 - t0') (minutes 5)); [lia | reflexivity].
Qed.

Lemma cached_authors_go_stale_witness :
  SimpleCache._cache (SimpleCache.init : SimpleCache.t (list Author.t))
    !! "all_authors" = None
  /\ authors sample_db <> []
  /\ crud2.create_author sample_db "Anton Chekhov" (Some "")
     = (Ok (Author.Build 2 "Anton Chekhov" (Some "")),
        mkDB [alice; bob] [tolstoy; Author.Build 2 "Anton Chekhov" (Some "")]
             [war_and_peace] [] [] [])
  /\ 1700000100000000 - 1700000000000001 < minutes 5
  /\ fst (get_all_authors_cached
            (mkDB [alice; bob]
                  [tolstoy; Author.Build 2 "Anton Chekhov" (Some "")]
                  [war_and_peace] [] [] [])
            (snd (get_all_authors_cached sample_db SimpleCache.init
                    1700000000000000 1700000000000001))
            1700000100000000 1700000100000001)
     = SimpleCache.Returns [tolstoy].
Proof.
  assert (H1 : SimpleCache._cache
                 (SimpleCache.init : SimpleCache.t (list Author.t))
                 !! "all_authors" = None) by reflexivity.
  assert (H2 : authors sample_db <> []) by discriminate.
  assert (H3 : crud2.create_author sample_db "Anton Chekhov" (Some "")
               = (Ok (Author.Build 2 "Anton Chekhov" (Some "")),
                  mkDB [alice; bob]
                       [tolstoy; Author.Build 2 "Anton Chekhov" (Some "")]
                       [war_and_peace] [] [] []))
    by (vm_compute; reflexivity).
  assert (H4 : 1700000100000000 - 1700000000000001 < minutes 5)
    by (vm_compute; reflexivity).
  split; [exact H1|]. split; [exact H2|]. split; [exact H3|].
  split; [exact H4|].
  exact (proj1 (cached_authors_go_stale sample_db _ SimpleCache.init
                  1700000000000000 1700000000000001
                  1700000100000000 1700000100000001
                  "Anton Chekhov" (Some "") _ H1 H2 H3) H4).
Defined.

(** X23. An empty author list is never served from the cache: while the
    cached list is empty every call reads the store anew, so the first
    author shows at once. *)
Theorem empty_authors_not_cached (db db' : DB)
        (c : SimpleCache.t (list Author.t)) (t0 t0' t1 t1' : datetime) :
  SimpleCache._cache c !! "all_authors" = None ->
  authors db = [] ->
  fst (get_all_authors_cached db'
         (snd (get_all_authors_cached db c t0 t0')) t1 t1')
  = SimpleCache.Returns (authors db').
Proof.
  intros Hc Hempty. rewrite (authors_cached_miss db c t0 t0' Hc). cbn [snd].
  rewrite Hempty, authors_cached_after_set.
  destruct (t1 - t0' <? minutes 5); reflexivity.
Qed.

Lemma empty_authors_not_cached_witness :
  SimpleCache._cache (SimpleCache.init : SimpleCache.t (list Author.t))
    !! "all_authors" = None
  /\ authors empty_db = []
  /\ fst (get_all_authors_cached sample_db
            (snd (get_all_authors_cached empty_db SimpleCache.init
                    1700000000000000 1700000000000001))
            1700000000000002 1700000000000003)
     = SimpleCache.Returns (authors sample_db).
Proof.
  assert (H1 : SimpleCache._cache
                 (SimpleCache.init : SimpleCache.t (list Author.t))
                 !! "all_authors" = None) by reflexivity.
  assert (H2 : authors empty_db = []) by reflexivity.
  split; [exact H1|]. split; [exact H2|].
  exact (empty_authors_not_cached empty_db sample_db SimpleCache.init
           1700000000000000 1700000000000001
           1700000000000002 1700000000000003 H1 H2).
Defined.
